(** * dockerclean: a shallow embedding of [dockerclean.py]

    The script prunes stopped containers, unused images, unused networks and
    dangling volumes of a docker host.  Every inspection and every deletion is
    a [docker] command line handed to [run_command]; the decisions are set
    arithmetic over the identifiers found in the commands' output.

    The embedding keeps the shape of the script:
    - Python [str] values are [string]s, one [ascii] per character (code
      points 0..255); the output of a command is a text under Python 3 and
      a byte string under Python 2, and [strip] and [splitlines] follow the
      interpreter;
    - [set] values are [gset string], the image dictionary is a
      [gmap string ImageData.t];
    - [datetime] and [timedelta] values are counts of microseconds in [Z],
      with the ranges outside of which Python raises [OverflowError];
    - exceptions are values of [exn]; a procedure either returns, raises or
      does not terminate ([res]);
    - the docker host, its clock and [dateutil.parser.parse] are not part of
      the script: they are the variables of [Section Host]. *)

From Stdlib Require Import ZArith String Ascii List Lia.
From stdpp Require Import base tactics option list relations strings gmap sets pretty.

Open Scope Z_scope.

(** ** Outcomes *)

Inductive exn : Type :=
| ValueError (msg : string)
| OverflowError
| TypeError
| KeyError (key : string)
| CalledProcessError (returncode : Z) (cmd : string) (output : string)
| TimeoutExpired (cmd : string) (timeout : nat)
| SystemExit (status : Z)
| OtherError (msg : string).

(** [Diverge] stands for a computation that never returns (a [while] loop
    that does not end, a child process awaited without a timer). *)
Inductive res (A : Type) : Type :=
| Ok (a : A)
| Raise (e : exn)
| Diverge.
Arguments Ok {A} a.
Arguments Raise {A} e.
Arguments Diverge {A}.

Definition res_bind {A B} (r : res A) (k : A -> res B) : res B :=
  match r with
  | Ok a => k a
  | Raise e => Raise e
  | Diverge => Diverge
  end.

(** A comprehension [[f x for x in l]]: the elements are evaluated from left
    to right and the first exception ends the evaluation. *)
Fixpoint res_map {A B} (f : A -> res B) (l : list A) : res (list B) :=
  match l with
  | [] => Ok []
  | x :: l' =>
      res_bind (f x) (fun y => res_bind (res_map f l') (fun ys => Ok (y :: ys)))
  end.

(** ** The string methods the script calls *)

Module Py.

(** [s.startswith(p)] *)
Definition startswith (p s : string) : bool := String.prefix p s.

(** [s[n:]] *)
Fixpoint slice_from (n : nat) (s : string) : string :=
  match n, s with
  | O, _ => s
  | S _, EmptyString => EmptyString
  | S n', String _ s' => slice_from n' s'
  end.

(** [sep.join(l)] *)
Definition join (sep : string) (l : list string) : string := String.concat sep l.

Definition code (c : ascii) : N := N_of_ascii c.

(** [c.isspace()] for a character of a Python 3 [str], on the code points
    below 256. *)
Definition isspace (c : ascii) : bool :=
  let n := code c in
  ((9 <=? n) && (n <=? 13) || (28 <=? n) && (n <=? 32)
   || (n =? 133) || (n =? 160))%N.

(** The line boundaries of [splitlines] on a Python 3 [str], below 256, CR
    apart. *)
Definition islinebreak (c : ascii) : bool :=
  let n := code c in
  ((n =? 10) || (n =? 11) || (n =? 12) || (28 <=? n) && (n <=? 30)
   || (n =? 133))%N.

(** The same two classes for a Python 2 [str], which is a byte string: the
    white space is the space and the five controls 9 to 13, and LF is the
    one line boundary beside CR. *)
Definition isspace_bytes (c : ascii) : bool :=
  let n := code c in ((9 <=? n) && (n <=? 13) || (n =? 32))%N.

Definition islinebreak_bytes (c : ascii) : bool := (code c =? 10)%N.

Definition iscr (c : ascii) : bool := (code c =? 13)%N.

Fixpoint lstrip (s : string) : string :=
  match s with
  | EmptyString => EmptyString
  | String c s' => if isspace c then lstrip s' else s
  end.

Fixpoint rstrip (s : string) : string :=
  match s with
  | EmptyString => EmptyString
  | String c s' =>
      match rstrip s' with
      | EmptyString => if isspace c then EmptyString else String c EmptyString
      | t => String c t
      end
  end.

(** [s.strip()] on a Python 3 [str] *)
Definition strip (s : string) : string := rstrip (lstrip s).

(** [s.strip()] on a Python 2 [str] *)
Fixpoint lstrip_bytes (s : string) : string :=
  match s with
  | EmptyString => EmptyString
  | String c s' => if isspace_bytes c then lstrip_bytes s' else s
  end.

Fixpoint rstrip_bytes (s : string) : string :=
  match s with
  | EmptyString => EmptyString
  | String c s' =>
      match rstrip_bytes s' with
      | EmptyString => if isspace_bytes c then EmptyString else String c EmptyString
      | t => String c t
      end
  end.

Definition strip_bytes (s : string) : string := rstrip_bytes (lstrip_bytes s).

(** [s.splitlines()] on a Python 3 [str]: [cur] is the line being read,
    reversed.  A line boundary ends the current line; no empty line is
    reported after the last boundary; CR LF counts as one boundary. *)
Fixpoint splitlines_go (cur : string) (open : bool) (s : string) : list string :=
  match s with
  | EmptyString => if open then [String.rev cur] else []
  | String c s' =>
      if iscr c then
        match s' with
        | String c' s'' =>
            if (code c' =? 10)%N
            then String.rev cur :: splitlines_go EmptyString false s''
            else String.rev cur :: splitlines_go EmptyString false s'
        | EmptyString => [String.rev cur]
        end
      else if islinebreak c then String.rev cur :: splitlines_go EmptyString false s'
      else splitlines_go (String c cur) true s'
  end.

Definition splitlines (s : string) : list string := splitlines_go EmptyString false s.

(** [s.splitlines()] on a Python 2 [str]: the boundaries are LF, CR and
    CR LF. *)
Fixpoint splitlines_bytes_go (cur : string) (open : bool) (s : string) : list string :=
  match s with
  | EmptyString => if open then [String.rev cur] else []
  | String c s' =>
      if iscr c then
        match s' with
        | String c' s'' =>
            if (code c' =? 10)%N
            then String.rev cur :: splitlines_bytes_go EmptyString false s''
            else String.rev cur :: splitlines_bytes_go EmptyString false s'
        | EmptyString => [String.rev cur]
        end
      else if islinebreak_bytes c
      then String.rev cur :: splitlines_bytes_go EmptyString false s'
      else splitlines_bytes_go (String c cur) true s'
  end.

Definition splitlines_bytes (s : string) : list string :=
  splitlines_bytes_go EmptyString false s.

(** [s.split(sep, maxsplit)] for a one-character separator: at most
    [maxsplit] cuts, counted from the left. *)
Fixpoint split_go (sep : ascii) (maxsplit : nat) (cur : string) (s : string)
  : list string :=
  match s with
  | EmptyString => [String.rev cur]
  | String c s' =>
      match maxsplit with
      | O => [String.rev cur +:+ s]
      | S k =>
          if Ascii.eqb c sep
          then String.rev cur :: split_go sep k EmptyString s'
          else split_go sep maxsplit (String c cur) s'
      end
  end.

Definition split (sep : ascii) (maxsplit : nat) (s : string) : list string :=
  split_go sep maxsplit EmptyString s.

(** [s.rpartition(sep)[0]] for a one-character separator: what stands
    before the last separator, and the empty string when there is none. *)
Fixpoint rpartition_head (sep : ascii) (s : string) : option string :=
  match s with
  | EmptyString => None
  | String c s' =>
      match rpartition_head sep s' with
      | Some h => Some (String c h)
      | None => if Ascii.eqb c sep then Some EmptyString else None
      end
  end.

Definition rpartition0 (sep : ascii) (s : string) : string :=
  default EmptyString (rpartition_head sep s).

(** [c] matches [\d] *)
Definition isdigit (c : ascii) : bool :=
  let n := code c in ((48 <=? n) && (n <=? 57))%N.

(** [int(s)] on a string of decimal digits (the cap some interpreters put on
    the number of digits is not modelled) *)
Fixpoint int_go (acc : Z) (s : string) : Z :=
  match s with
  | EmptyString => acc
  | String c s' => int_go (10 * acc + (Z.of_N (code c) - 48)) s'
  end.

Definition int (s : string) : Z := int_go 0 s.

End Py.

(** ** [datetime.timedelta] and [datetime.datetime] *)

Module datetime.

Definition us_per_minute : Z := 60 * 1000000.
Definition us_per_hour : Z := 3600 * 1000000.
Definition us_per_day : Z := 86400 * 1000000.

(** A [timedelta] is its length in microseconds.  Python keeps it as days,
    seconds and microseconds and refuses more than 999999999 days. *)
Definition timedelta : Type := Z.
Definition max_delta_days : Z := 999999999.

Definition timedelta_of_us (us : Z) : res timedelta :=
  let days := us / us_per_day in
  if (- max_delta_days <=? days) && (days <=? max_delta_days)
  then Ok us else Raise OverflowError.

(** [timedelta(minutes=n)] and [timedelta(hours=n)] *)
Definition timedelta_minutes (n : Z) : res timedelta := timedelta_of_us (n * us_per_minute).
Definition timedelta_hours (n : Z) : res timedelta := timedelta_of_us (n * us_per_hour).

(** A [datetime] is the reading of a wall clock, in microseconds since
    0001-01-01T00:00:00 on that clock, with the offset of the clock from
    UTC when the value is aware ([tzinfo] is not [None]).  The last
    representable day is 9999-12-31, of ordinal 3652059. *)
Record t : Type := mk { ticks : Z; tzinfo : option Z }.

Definition max_ticks : Z := 3652059 * us_per_day.

Definition representable (w : Z) : bool := (0 <=? w) && (w <? max_ticks).

Definition valid (d : t) : Prop := 0 <= ticks d < max_ticks.

(** The instant a datetime denotes once an offset is chosen for a naive one. *)
Definition instant (local_offset : Z) (d : t) : Z :=
  ticks d - default local_offset (tzinfo d).

(** [datetime.now(tz=tz)]: the host clock read in the zone [tz], in the
    local zone when [tz] is [None]. *)
Definition now (utc_ticks local_offset : Z) (tz : option Z) : res t :=
  let w := utc_ticks + default local_offset tz in
  if representable w then Ok (mk w tz) else Raise OverflowError.

(** [d - delta] *)
Definition sub (d : t) (delta : timedelta) : res t :=
  let w := ticks d - delta in
  if representable w then Ok (mk w (tzinfo d)) else Raise OverflowError.

(** [a < b]: two naive values compare by their fields, two aware values by
    the instants they denote, and a naive value does not compare with an
    aware one. *)
Definition lt (a b : t) : res bool :=
  match tzinfo a, tzinfo b with
  | None, None => Ok (ticks a <? ticks b)
  | Some oa, Some ob => Ok (ticks a - oa <? ticks b - ob)
  | _, _ => Raise TypeError
  end.

End datetime.

(** ** The record classes *)

Record PResponse : Type := mkPResponse { stdout : string; stderr : string; code : Z }.

Module ContainerData.
Record t : Type := mk { id : string; finished_at : string }.

(** The namedtuple applied to the unpacked fields: it takes exactly two. *)
Definition of_fields (fields : list string) : res t :=
  match fields with
  | [a; b] => Ok (mk a b)
  | _ => Raise TypeError
  end.
End ContainerData.

Module VolumeData.
Record t : Type := mk { name : string; created : string }.

Definition of_fields (fields : list string) : res t :=
  match fields with
  | [a; b] => Ok (mk a b)
  | _ => Raise TypeError
  end.
End VolumeData.

Module ImageData.
Record t : Type := mk { id : string; parent : string; created : string; repo_tags : string }.

Definition hashfix (hash : string) : string :=
  if Py.startswith "sha256:" hash then Py.slice_from 7 hash else hash.

(** [__init__] *)
Definition init (id parent created repo_tags : string) : t :=
  mk (hashfix id) (hashfix parent) created repo_tags.

Definition of_fields (fields : list string) : res t :=
  match fields with
  | [a; b; c; d] => Ok (init a b c d)
  | _ => Raise TypeError
  end.
End ImageData.

Module NetworkData.
(** [containers] is [None] once [__init__] has met the text [map[]]. *)
Record t : Type :=
  mk { id : string; created : string; containers : option string; name : string }.

Definition init (id created containers name : string) : t :=
  mk id created
     (if String.eqb containers "map[]" then None else Some containers)
     name.

Definition of_fields (fields : list string) : res t :=
  match fields with
  | [a; b; c; d] => Ok (init a b c d)
  | _ => Raise TypeError
  end.
End NetworkData.

(** Truth value of a [str]: the empty string is false. *)
Definition truthy (s : string) : bool := negb (String.eqb s "").

(** Truth value of [None] or a [str]. *)
Definition truthy_opt (o : option string) : bool :=
  match o with
  | None => false
  | Some s => truthy s
  end.

(** ** [Duration] *)

(** The longest run of digits at the start of [s], and what follows it. *)
Fixpoint digits_span (s : string) : string * string :=
  match s with
  | EmptyString => (EmptyString, EmptyString)
  | String c s' =>
      if Py.isdigit c
      then let '(d, r) := digits_span s' in (String c d, r)
      else (EmptyString, s)
  end.

Definition is_unit (c : ascii) : bool := Ascii.eqb c "m" || Ascii.eqb c "h".

(** [re.match(r"(\d+)([mh])", s)]: the pattern is looked for at the start of
    [s] and nothing is asked of what follows the match.  The two groups. *)
Definition Duration_match (s : string) : option (string * ascii) :=
  match digits_span s with
  | (EmptyString, _) => None
  | (d, String c _) => if is_unit c then Some (d, c) else None
  | (_, EmptyString) => None
  end.

Definition Duration (s : string) : res datetime.timedelta :=
  match Duration_match s with
  | None => Raise (ValueError ("Invalid duration format: " +:+ s))
  | Some (d, t) =>
      let n := Py.int d in
      if Ascii.eqb t "m"
      then datetime.timedelta_minutes n
      else datetime.timedelta_hours n
  end.

(** ** The docker host and the trace of a run *)

Inductive signal : Type := SIGTERM | SIGKILL.

(** What a run does to the outside, in the order it does it. *)
Inductive event : Type :=
| Exec (cmd : string)
| SetAlarm (secs : nat)
| Kill (sig : signal)
| Sleep (secs : nat)
| Print (text : string).

(** A child process as the executor sees it: the seconds after which it
    exits by itself ([None]: never), what it has written and returned by
    then, and whether it is gone two seconds after a SIGTERM. *)
Record process : Type := mkProcess {
  lifetime : option nat;
  p_stdout : string;
  p_stderr : string;
  p_returncode : Z;
  ends_on_sigterm : bool
}.

(** How a child process ended. *)
Inductive fate : Type := Exited | Terminated | Killed.

Definition outlives (secs : nat) (p : process) : bool :=
  match lifetime p with
  | Some d => (secs <? d)%nat
  | None => true
  end.

Definition newline : string := String "010"%char EmptyString.

(** The names [prune_networks] never deletes. *)
Definition reserved_names : list string := ["bridge"; "host"; "none"]%string.

(** [name in ("bridge", "host", "none")] *)
Definition is_reserved (name : string) : bool :=
  existsb (String.eqb name) reserved_names.

(** The four pruning procedures, in the order [main] runs them. *)
Inductive procedure : Type := Containers | Images | Networks | Volumes.

(** The options [argparse] has recognised on the command line. *)
Record options : Type := mkOptions {
  opt_grace_period : option string;
  opt_aggressive : bool
}.

(** Commands that delete: the only ones the script issues that do. *)
Definition is_removal (cmd : string) : bool :=
  Py.startswith "docker rm " cmd || Py.startswith "docker rmi " cmd
  || Py.startswith "docker network rm " cmd || Py.startswith "docker volume rm " cmd.

Definition removes (e : event) : bool :=
  match e with
  | Exec cmd => is_removal cmd
  | _ => false
  end.

Section Host.

(** The state of the docker host, the process a command line starts on it
    (the tokenisation of the line by [shlex.split] is on this side), the
    state the host is left in once that process has ended, and the host
    clock: UTC in microseconds since 0001-01-01, and the offset of the
    local zone. *)
Variable W : Type.
Variable spawn : W -> string -> process.
Variable settle : W -> string -> fate -> W.
Variable utcnow : W -> Z.
Variable localoffset : W -> Z.

(** [dateutil.parser.parse] *)
Variable dateutil_parse : string -> res datetime.t.

(** The interpreter ([sys.version_info[0] == 3]) and the environment. *)
Variable PY3 : bool.
Variable getenv_GRACE_PERIOD : option string.
Variable getenv_AGGRESSIVE : option string.

Record state : Type := mkState { host : W; trace : list event }.

Definition M (A : Type) : Type := state -> res A * state.

Definition ret {A} (a : A) : M A := fun s => (Ok a, s).

Definition bind {A B} (m : M A) (k : A -> M B) : M B :=
  fun s =>
    match m s with
    | (Ok a, s') => k a s'
    | (Raise e, s') => (Raise e, s')
    | (Diverge, s') => (Diverge, s')
    end.

Definition lift {A} (r : res A) : M A := fun s => (r, s).

Definition emit (evs : list event) (s : state) : state :=
  mkState (host s) (trace s ++ evs).

Notation "'let*' x ':=' m 'in' k" := (bind m (fun x => k))
  (at level 10, x name, m at level 100, k at level 200).

Fixpoint filter_M {A} (p : A -> M bool) (l : list A) : M (list A) :=
  match l with
  | [] => ret []
  | x :: l' =>
      let* b := p x in
      let* r := filter_M p l' in
      ret (if b then x :: r else r)
  end.

(** *** [run_command] *)

Definition completed (check : bool) (cmd out err : string) (rc : Z) (s : state)
  : res PResponse * state :=
  if negb (rc =? 0) && check
  then (Raise (CalledProcessError rc cmd out), s)
  else (Ok (mkPResponse out err rc), s).

(** The Python 3 branch: [subprocess.run(..., timeout=timeout, check=check)].
    When the timeout expires, [subprocess.run] kills the child, waits for
    it and raises [TimeoutExpired]. *)
Definition run_command_py3 (cmd : string) (timeout : option nat) (check : bool)
  : M PResponse :=
  fun s =>
    let p := spawn (host s) cmd in
    let tr := trace s ++ [Exec cmd] in
    let expired :=
      match timeout with
      | Some secs => outlives secs p
      | None => false
      end in
    if expired then
      (Raise (TimeoutExpired cmd (default O timeout)),
       mkState (settle (host s) cmd Killed) (tr ++ [Kill SIGKILL]))
    else
      match lifetime p with
      | None => (Diverge, mkState (host s) tr)
      | Some _ =>
          completed check cmd (p_stdout p) (p_stderr p) (p_returncode p)
                    (mkState (settle (host s) cmd Exited) tr)
      end.

(** The Python 2 branch: [Popen], a SIGALRM timer of [timeout] seconds (a
    timer of 0 seconds is no timer), and on [Alarm] SIGTERM, two seconds of
    sleep and SIGKILL if the child is still there; the response is then
    two empty strings and the code -1. *)
Definition run_command_py2 (cmd : string) (timeout : option nat) (check : bool)
  : M PResponse :=
  fun s =>
    let p := spawn (host s) cmd in
    let secs := default O timeout in
    let tr := trace s ++ [Exec cmd; SetAlarm secs] in
    if (0 <? secs)%nat && outlives secs p then
      let kills :=
        if ends_on_sigterm p
        then [Kill SIGTERM; Sleep 2]
        else [Kill SIGTERM; Sleep 2; Kill SIGKILL] in
      let f := if ends_on_sigterm p then Terminated else Killed in
      completed check cmd "" "" (-1)
                (mkState (settle (host s) cmd f) (tr ++ kills ++ [SetAlarm 0]))
    else
      match lifetime p with
      | None => (Diverge, mkState (host s) tr)
      | Some _ =>
          completed check cmd (p_stdout p) (p_stderr p) (p_returncode p)
                    (mkState (settle (host s) cmd Exited) (tr ++ [SetAlarm 0]))
      end.

Definition run_command (cmd : string) (timeout : option nat) (check : bool)
  : M PResponse :=
  if PY3 then run_command_py3 cmd timeout check
  else run_command_py2 cmd timeout check.

(** [run_command(cmd)] with the defaults [timeout=30, check=True]. *)
Definition run (cmd : string) : M PResponse := run_command cmd (Some 30%nat) true.

(** [r.stdout.strip().splitlines()]: the output is a [str] decoded by
    [subprocess.run] under Python 3, and the byte string read from the pipe
    under Python 2. *)
Definition lines (r : PResponse) : list string :=
  if PY3 then Py.splitlines (Py.strip (stdout r))
  else Py.splitlines_bytes (Py.strip_bytes (stdout r)).

(** *** [older_than] *)

(** The [try] statement: a [ValueError] of the first parse is caught and
    the text before the last space is parsed instead; nothing catches what
    the second parse raises. *)
Definition parse_timestamp (timestamp : string) : res datetime.t :=
  match dateutil_parse timestamp with
  | Raise (ValueError _) => dateutil_parse (Py.rpartition0 " " timestamp)
  | r => r
  end.

(** The last three lines of [older_than]: [now], [cutoff] and the
    comparison, for one reading of the host clock. *)
Definition before_cutoff (utc_ticks local_offset : Z)
           (t : datetime.t) (age : datetime.timedelta) : res bool :=
  res_bind (datetime.now utc_ticks local_offset (datetime.tzinfo t)) (fun now =>
  res_bind (datetime.sub now age) (fun cutoff =>
  datetime.lt t cutoff)).

(** The body of [older_than] for one reading of the host clock. *)
Definition older_than_at (utc_ticks local_offset : Z)
           (timestamp : string) (age : datetime.timedelta) : res bool :=
  res_bind (parse_timestamp timestamp)
           (fun t => before_cutoff utc_ticks local_offset t age).

Definition older_than (timestamp : string) (age : datetime.timedelta) : M bool :=
  fun s => (older_than_at (utcnow (host s)) (localoffset (host s)) timestamp age, s).

(** *** [prune_containers] *)

(** What stands before the last [if]: the set [to_prune]. *)
Definition containers_to_prune (grace : datetime.timedelta) : M (gset string) :=
  let* r1 := run "docker container ls -q --no-trunc" in
  let running_containers : gset string := list_to_set (lines r1) in
  let* r2 := run "docker container ls -a -q --no-trunc" in
  let all_containers : gset string := list_to_set (lines r2) in
  let non_running := all_containers ∖ running_containers in
  let* container_data :=
    (if decide (non_running = ∅) then ret []
     else
       let* r := run ("docker container inspect --format '{{.ID}}|{{.State.FinishedAt}}' "
                      +:+ Py.join " " (elements non_running)) in
       lift (res_map (fun i => ContainerData.of_fields (Py.split "|" 1 i)) (lines r))) in
  let* old := filter_M (fun i => older_than (ContainerData.finished_at i) grace)
                       container_data in
  ret (list_to_set (ContainerData.id <$> old)).

Definition remove_containers (to_prune : gset string) : M (list string) :=
  if decide (to_prune = ∅) then ret []
  else
    let* r := run ("docker rm " +:+ Py.join " " (elements to_prune)) in
    ret (lines r).

Definition prune_containers (grace : datetime.timedelta) : M (list string) :=
  let* to_prune := containers_to_prune grace in
  remove_containers to_prune.

(** *** [prune_images] *)

(** [{i.id: i for i in records}]: a later record replaces an earlier one of
    the same identifier. *)
Definition image_dict (records : list ImageData.t) : gmap string ImageData.t :=
  foldl (fun m i => <[ImageData.id i := i]> m) ∅ records.

(** [image_data.values()] *)
Definition values (image_data : gmap string ImageData.t) : list ImageData.t :=
  (map_to_list image_data).*2.

(** The [while image.parent] loop, [line] being the lineage so far.  The
    loop either ends, raises [KeyError] or runs for ever; [fuel] bounds the
    number of turns looked at. *)
Fixpoint walk (fuel : nat) (image_data : gmap string ImageData.t)
         (image : ImageData.t) (line : list string) : res (list string) :=
  if truthy (ImageData.parent image) then
    match fuel with
    | O => Diverge
    | S fuel' =>
        match image_data !! ImageData.parent image with
        | None => Raise (KeyError (ImageData.parent image))
        | Some image' => walk fuel' image_data image' (line ++ [ImageData.id image'])
        end
    end
  else Ok line.

(** One turn of the [for image_id in nominally_used_images] loop.  A walk
    that has looked up more parents than the dictionary has keys has met
    one of them twice and goes round for ever. *)
Definition lineage (image_data : gmap string ImageData.t) (image_id : string)
  : res (list string) :=
  match image_data !! image_id with
  | None => Raise (KeyError image_id)
  | Some image => walk (S (size image_data)) image_data image [ImageData.id image]
  end.

Definition all_used (image_data : gmap string ImageData.t)
           (nominally_used_images : gset string) : res (gset string) :=
  res_bind (res_map (lineage image_data) (elements nominally_used_images))
           (fun lineages => Ok (list_to_set (concat lineages))).

Definition all_untagged (image_data : gmap string ImageData.t) : gset string :=
  list_to_set (ImageData.id <$>
               filter (fun i => negb (truthy (ImageData.repo_tags i)) = true) (values image_data)).

(** From [lineages = []] to the last [if]: the set [pruneable_images]. *)
Definition select_images (grace : datetime.timedelta) (aggressive : bool)
           (nominally_used_images : gset string)
           (image_data : gmap string ImageData.t) : M (gset string) :=
  let* all_used_images := lift (all_used image_data nominally_used_images) in
  let all_untagged_images := all_untagged image_data in
  let* old := filter_M (fun i => older_than (ImageData.created i) grace)
                       (values image_data) in
  let all_old_images : gset string := list_to_set (ImageData.id <$> old) in
  let pruneable_images := all_old_images ∖ all_used_images in
  ret (if negb aggressive then pruneable_images ∩ all_untagged_images
       else pruneable_images).

Definition images_to_prune (grace : datetime.timedelta) (aggressive : bool)
  : M (gset string) :=
  let* r1 := run "docker image ls -a -q --no-trunc" in
  let all_images : gset string := list_to_set (ImageData.hashfix <$> lines r1) in
  let* r2 := run "docker ps -a -q --no-trunc" in
  let all_containers : gset string := list_to_set (lines r2) in
  let* nominally_used_images :=
    (if decide (all_containers = ∅) then ret (∅ : gset string)
     else
       let* r := run ("docker inspect --format '{{.Image}}' "
                      +:+ Py.join " " (elements all_containers)) in
       ret (list_to_set (ImageData.hashfix <$> lines r))) in
  let* image_data :=
    (if decide (all_images = ∅) then ret (∅ : gmap string ImageData.t)
     else
       let* r := run ("docker image inspect --format "
                      +:+ "'{{.ID}}|{{.Parent}}|{{.Created}}|{{.RepoTags}}' "
                      +:+ Py.join " " (elements all_images)) in
       let* records :=
         lift (res_map (fun i => ImageData.of_fields (Py.split "|" 3 i)) (lines r)) in
       ret (image_dict records)) in
  select_images grace aggressive nominally_used_images image_data.

Definition remove_images (pruneable_images : gset string) : M (list string) :=
  if decide (pruneable_images = ∅) then ret []
  else
    let* r := run ("docker rmi -f " +:+ Py.join " " (elements pruneable_images)) in
    ret (lines r).

Definition prune_images (grace : datetime.timedelta) (aggressive : bool)
  : M (list string) :=
  let* pruneable_images := images_to_prune grace aggressive in
  remove_images pruneable_images.

(** *** [prune_networks] *)

(** From [used_networks] to [prunable_networks]. *)
Definition select_networks (grace : datetime.timedelta)
           (network_data : list NetworkData.t) : M (gset string) :=
  let used_networks : gset string :=
    list_to_set (NetworkData.id <$>
                 filter (fun i => truthy_opt (NetworkData.containers i) = true) network_data) in
  let* old := filter_M (fun i => older_than (NetworkData.created i) grace) network_data in
  let old_networks : gset string := list_to_set (NetworkData.id <$> old) in
  let reserved_networks : gset string :=
    list_to_set (NetworkData.id <$>
                 filter (fun i => is_reserved (NetworkData.name i) = true) network_data) in
  ret (old_networks ∖ used_networks ∖ reserved_networks).

Definition networks_to_prune (grace : datetime.timedelta) : M (gset string) :=
  let* r1 := run "docker network ls -q --no-trunc" in
  let all_networks : gset string := list_to_set (lines r1) in
  let* network_data :=
    (if decide (all_networks = ∅) then ret []
     else
       let* r := run ("docker network inspect --format '{{.ID}}|{{.Created}}|{{.Containers}}|{{.Name}}' "
                      +:+ Py.join " " (elements all_networks)) in
       lift (res_map (fun n => NetworkData.of_fields (Py.split "|" 3 n)) (lines r))) in
  select_networks grace network_data.

Definition remove_networks (prunable_networks : gset string) : M (list string) :=
  if decide (prunable_networks = ∅) then ret []
  else
    let* r := run ("docker network rm " +:+ Py.join " " (elements prunable_networks)) in
    ret (lines r).

Definition prune_networks (grace : datetime.timedelta) : M (list string) :=
  let* prunable_networks := networks_to_prune grace in
  remove_networks prunable_networks.

(** *** [prune_volumes] *)

(** From [old_volumes] to [to_prune]. *)
Definition select_volumes (grace : datetime.timedelta) (aggressive : bool)
           (volume_data : list VolumeData.t) : M (gset string) :=
  let* old := filter_M (fun v => older_than (VolumeData.created v) grace) volume_data in
  let old_volumes : gset string := list_to_set (VolumeData.name <$> old) in
  let named_volumes : gset string :=
    list_to_set (VolumeData.name <$>
                 filter (fun v => (String.length (VolumeData.name v) <? 64)%nat = true)
                        volume_data) in
  ret (if negb aggressive then old_volumes ∖ named_volumes else old_volumes).

Definition volumes_to_prune (grace : datetime.timedelta) (aggressive : bool)
  : M (gset string) :=
  let* r1 := run "docker volume ls -q -f dangling=true" in
  let dangling_volumes : gset string := list_to_set (lines r1) in
  let* volume_data :=
    (if decide (dangling_volumes = ∅) then ret []
     else
       let* r := run ("docker volume inspect --format "
                      +:+ "'{{.Name}}|{{.CreatedAt}}' "
                      +:+ Py.join " " (elements dangling_volumes)) in
       lift (res_map (fun i => VolumeData.of_fields (Py.split "|" 1 i)) (lines r))) in
  select_volumes grace aggressive volume_data.

Definition remove_volumes (to_prune : gset string) : M (list string) :=
  if decide (to_prune = ∅) then ret []
  else
    let* r := run ("docker volume rm -f " +:+ Py.join " " (elements to_prune)) in
    ret (lines r).

Definition prune_volumes (grace : datetime.timedelta) (aggressive : bool)
  : M (list string) :=
  let* to_prune := volumes_to_prune grace aggressive in
  remove_volumes to_prune.

(** *** The driver *)

(** [os.getenv("GRACE_PERIOD") or "720h"] *)
Definition GRACE_PERIOD : string :=
  match getenv_GRACE_PERIOD with
  | Some s => if truthy s then s else "720h"
  | None => "720h"
  end%string.

(** The truth value of [os.getenv("AGGRESSIVE") or False]. *)
Definition AGGRESSIVE : bool := truthy_opt getenv_AGGRESSIVE.

(** [parse_cli_args]: the default of [--grace_period] is converted when the
    option is declared; a value given on the command line is converted by
    [argparse], which turns a [ValueError] of the conversion into an exit
    of status 2. *)
Definition parse_cli_args (opts : options) : res (datetime.timedelta * bool) :=
  res_bind (Duration GRACE_PERIOD) (fun dflt =>
  res_bind
    (match opt_grace_period opts with
     | None => Ok dflt
     | Some s =>
         match Duration s with
         | Raise (ValueError _) => Raise (SystemExit 2)
         | r => r
         end
     end)
    (fun grace => Ok (grace, opt_aggressive opts || AGGRESSIVE))).

Definition print_flush (text : string) : M unit :=
  fun s => (Ok tt, emit [Print text] s).

Definition pruned (ids : list string) : string :=
  pretty (length ids) +:+ " pruned." +:+ newline.

Definition main (opts : options) : M unit :=
  let* args := lift (parse_cli_args opts) in
  let grace := fst args in
  let aggressive := snd args in
  let* _ := print_flush "(1/4) Pruning containers... " in
  let* pruned_containers := prune_containers grace in
  let* _ := print_flush (pruned pruned_containers) in
  let* _ := print_flush "(2/4) Pruning images... " in
  let* pruned_images := prune_images grace aggressive in
  let* _ := print_flush (pruned pruned_images) in
  let* _ := print_flush "(3/4) Pruning networks... " in
  let* pruned_networks := prune_networks grace in
  let* _ := print_flush (pruned pruned_networks) in
  let* _ := print_flush "(4/4) Pruning volumes... " in
  let* pruned_volumes := prune_volumes grace aggressive in
  print_flush (pruned pruned_volumes).

(** *** The four procedures as one family *)

(** The set a procedure computes before its last [if]. *)
Definition to_prune (p : procedure) (grace : datetime.timedelta) (aggressive : bool)
  : M (gset string) :=
  match p with
  | Containers => containers_to_prune grace
  | Images => images_to_prune grace aggressive
  | Networks => networks_to_prune grace
  | Volumes => volumes_to_prune grace aggressive
  end.

Definition prune (p : procedure) (grace : datetime.timedelta) (aggressive : bool)
  : M (list string) :=
  match p with
  | Containers => prune_containers grace
  | Images => prune_images grace aggressive
  | Networks => prune_networks grace
  | Volumes => prune_volumes grace aggressive
  end.

(** The line [main] prints before it runs a procedure. *)
Definition announce (p : procedure) : string :=
  match p with
  | Containers => "(1/4) Pruning containers... "
  | Images => "(2/4) Pruning images... "
  | Networks => "(3/4) Pruning networks... "
  | Volumes => "(4/4) Pruning volumes... "
  end.

(** One step of [main]: the announcement, then the procedure. *)
Definition stage (p : procedure) (grace : datetime.timedelta) (aggressive : bool)
  : M (list string) :=
  let* _ := print_flush (announce p) in
  prune p grace aggressive.

(** A computation that issues no removal: whatever its outcome, the events
    it adds to the trace are no removal commands, and it leaves the host as
    it found it provided the commands that are no removals do. *)
Definition reads_only {A} (m : M A) : Prop :=
  forall s,
    exists evs,
      trace (snd (m s)) = trace s ++ evs
      /\ Forall (fun e => removes e = false) evs
      /\ ((forall w cmd f, is_removal cmd = false -> settle w cmd f = w) ->
          host (snd (m s)) = host s).

End Host.

Arguments mkState {W} host trace.
Arguments host {W} s.
Arguments trace {W} s.
Arguments ret {W A} a s.
Arguments bind {W A B} m k s.
Arguments lift {W A} r s.
Arguments emit {W} evs s.
Arguments filter_M {W A} p l.
Arguments completed {W} check cmd out err rc s.
Arguments print_flush {W} text s.
Arguments run_command_py3 {W} spawn settle cmd timeout check s.
Arguments run_command_py2 {W} spawn settle cmd timeout check s.
Arguments run_command {W} spawn settle PY3 cmd timeout check.
Arguments run {W} spawn settle PY3 cmd.
Arguments older_than {W} utcnow localoffset dateutil_parse timestamp age s.
Arguments reads_only {W} settle {A} m.
Arguments select_images {W}.
Arguments select_networks {W}.
Arguments select_volumes {W}.
Arguments containers_to_prune {W}.
Arguments images_to_prune {W}.
Arguments networks_to_prune {W}.
Arguments volumes_to_prune {W}.
Arguments remove_containers {W}.
Arguments remove_images {W}.
Arguments remove_networks {W}.
Arguments remove_volumes {W}.
Arguments prune_containers {W}.
Arguments prune_images {W}.
Arguments prune_networks {W}.
Arguments prune_volumes {W}.
Arguments to_prune {W} spawn settle utcnow localoffset dateutil_parse PY3 p grace aggressive.
Arguments prune {W} spawn settle utcnow localoffset dateutil_parse PY3 p grace aggressive.
Arguments stage {W} spawn settle utcnow localoffset dateutil_parse PY3 p grace aggressive.
Arguments main {W} spawn settle utcnow localoffset dateutil_parse PY3
          getenv_GRACE_PERIOD getenv_AGGRESSIVE opts.

(** ** Hosts for closed examples *)

Module Example.

(** A host that answers from a table: the first entry whose key starts the
    command line gives the process.  Nothing it runs changes it. *)
Definition table : Type := list (string * process).

Definition answer (out : string) : process := mkProcess (Some 1%nat) out "" 0 true.
Definition mkfailure (out : string) (rc : Z) : process :=
  mkProcess (Some 1%nat) out "error" rc true.
Definition failure (rc : Z) : process := mkfailure "" rc.
Definition hanging (ends : bool) : process := mkProcess None "" "" 0 ends.

Definition spawn (w : table) (cmd : string) : process :=
  match find (fun e => Py.startswith (fst e) cmd) w with
  | Some e => snd e
  | None => failure 127
  end.

Definition settle (w : table) (cmd : string) (f : fate) : table := w.

Definition at_day (ordinal seconds : Z) (tz : option Z) : datetime.t :=
  datetime.mk ((ordinal - 1) * datetime.us_per_day + seconds * 1000000) tz.

(** The clock: 2026-11-04T12:00:00 UTC, local zone one hour east. *)
Definition utcnow (w : table) : Z := datetime.ticks (at_day 739924 43200 None).
Definition localoffset (w : table) : Z := datetime.us_per_hour.

(** The few timestamps of the examples, as [dateutil] reads them. *)
Definition parse (s : string) : res datetime.t :=
  if String.eqb s "2018-01-01T00:00:00Z" then Ok (at_day 736695 0 (Some 0))
  else if String.eqb s "2026-11-04T11:30:00Z" then Ok (at_day 739924 41400 (Some 0))
  else if String.eqb s "2026-11-04T10:00:00Z" then Ok (at_day 739924 36000 (Some 0))
  else if String.eqb s "2018-01-01 00:00:00.5 +0000" then Ok (at_day 736695 0 (Some 0))
  else if String.eqb s "2026-11-04 11:00:00" then Ok (at_day 739924 39600 None)
  else Raise (ValueError ("Unknown string format: " +:+ s)).

Definition start (w : table) : state table := mkState w [].

Definition nl : string := newline.

(** An idle host: no container, image, network or dangling volume. *)
Definition idle : table :=
  [("docker container ls", answer ""); ("docker image ls", answer "");
   ("docker ps", answer ""); ("docker network ls", answer "");
   ("docker volume ls", answer "")]%string.

(** Three images as [docker image inspect] prints them: [a] without tags
    and used by the one container, [b] without tags, old, child of [a],
    and [c] tagged.  An empty tag list is printed as two brackets. *)
Definition three_images : table :=
  [("docker image ls", answer ("sha256:a" +:+ nl +:+ "sha256:b" +:+ nl +:+ "sha256:c" +:+ nl));
   ("docker ps", answer ("k1" +:+ nl));
   ("docker inspect", answer ("sha256:a" +:+ nl));
   ("docker image inspect",
    answer ("sha256:a||2018-01-01T00:00:00Z|[]" +:+ nl
            +:+ "sha256:b|sha256:a|2018-01-01T00:00:00Z|[]" +:+ nl
            +:+ "sha256:c||2018-01-01T00:00:00Z|[app:latest]" +:+ nl));
   ("docker rmi", answer ("Deleted: sha256:b" +:+ nl))]%string.

(** The same three records with an empty fourth field for no tag. *)
Definition image_a : ImageData.t := ImageData.init "sha256:a" "" "2018-01-01T00:00:00Z" "".
Definition image_b : ImageData.t := ImageData.init "sha256:b" "sha256:a" "2018-01-01T00:00:00Z" "".
Definition image_c : ImageData.t := ImageData.init "sha256:c" "" "2018-01-01T00:00:00Z" "[app:latest]".

(** A host whose container listing fails. *)
Definition broken : table := [("docker container ls", failure 1)]%string.

(** A host on which the listing of the images never ends. *)
Definition stuck : table :=
  [("docker container ls", answer ""); ("docker image ls", hanging false)]%string.

(** Three old networks: the default bridge, one nobody uses and one with a
    container attached, with the timestamps [docker network inspect] prints. *)
Definition net_bridge : NetworkData.t :=
  NetworkData.init "n1" "2018-01-01 00:00:00.5 +0000 UTC" "map[]" "bridge".
Definition net_idle : NetworkData.t :=
  NetworkData.init "n2" "2018-01-01 00:00:00.5 +0000 UTC" "map[]" "backend".
Definition net_used : NetworkData.t :=
  NetworkData.init "n3" "2018-01-01 00:00:00.5 +0000 UTC" "map[k1:{web}]" "frontend".

(** Two old volumes: one named by its user, one with a generated name of
    64 characters. *)
Definition generated_name : string :=
  "0123456789abcdef0123456789abcdef0123456789abcdef0123456789abcdef".
Definition vol_named : VolumeData.t := VolumeData.mk "my-data" "2018-01-01T00:00:00Z".
Definition vol_anonymous : VolumeData.t :=
  VolumeData.mk generated_name "2018-01-01T00:00:00Z".

Definition day : datetime.timedelta := 24 * datetime.us_per_hour.
Definition hour : datetime.timedelta := datetime.us_per_hour.

End Example.

(** ** Vocabulary of the statements *)

(** A text made of decimal digits only. *)
Fixpoint all_digits (s : string) : bool :=
  match s with
  | EmptyString => true
  | String c s' => Py.isdigit c && all_digits s'
  end.

(** The format the help text of [--grace_period] asks for: a number followed
    by [m] or [h], and nothing else. *)
Definition well_formed_duration (s : string) : Prop :=
  exists d u, s = d +:+ String u EmptyString
              /\ d <> EmptyString /\ all_digits d = true /\ is_unit u = true.

(** The host clock read in the zone of the datetime [t]: in the zone [t]
    names, and in the local zone when [t] names none. *)
Definition zone_now (utc_ticks local_offset : Z) (t : datetime.t) : Z :=
  utc_ticks + default local_offset (datetime.tzinfo t).

(** A text without a space. *)
Definition one_word (w : string) : Prop :=
  Forall (fun c => c <> " "%char) (list_ascii_of_string w).

(** Whether [older_than] answers true for a timestamp, at one reading of
    the clock; an exception is no answer. *)
Definition old_at (parse : string -> res datetime.t) (utc_ticks local_offset : Z)
           (grace : datetime.timedelta) (timestamp : string) : bool :=
  match older_than_at parse utc_ticks local_offset timestamp grace with
  | Ok true => true
  | _ => false
  end.

(** [older_than] gives an answer for a timestamp: it raises nothing. *)
Definition answers (parse : string -> res datetime.t) (utc_ticks local_offset : Z)
           (grace : datetime.timedelta) (timestamp : string) : Prop :=
  exists b, older_than_at parse utc_ticks local_offset timestamp grace = Ok b.

(** Every record of the dictionary is filed under its own identifier. *)
Definition keyed (image_data : gmap string ImageData.t) : Prop :=
  forall k i, image_data !! k = Some i -> ImageData.id i = k.

(** [parent] is the parent the record of [child] names. *)
Definition parent_link (image_data : gmap string ImageData.t)
           (child parent : string) : Prop :=
  exists i, image_data !! child = Some i
            /\ ImageData.parent i = parent /\ truthy parent = true.

(** The number of turns the [while] loop takes from the record [i] until it
    leaves the loop, by finding a record without parent or a parent that is
    missing from the dictionary. *)
Inductive ends_in (image_data : gmap string ImageData.t) : nat -> ImageData.t -> Prop :=
| ends_root i :
    truthy (ImageData.parent i) = false -> ends_in image_data 0 i
| ends_missing i :
    truthy (ImageData.parent i) = true ->
    image_data !! ImageData.parent i = None ->
    ends_in image_data 1 i
| ends_step n i i' :
    truthy (ImageData.parent i) = true ->
    image_data !! ImageData.parent i = Some i' ->
    ends_in image_data n i' ->
    ends_in image_data (S n) i.

(** The chain of parents of [k] is all in the dictionary and ends with a
    record without parent. *)
Inductive rooted (image_data : gmap string ImageData.t) : string -> Prop :=
| rooted_here k i :
    image_data !! k = Some i -> truthy (ImageData.parent i) = false ->
    rooted image_data k
| rooted_step k i :
    image_data !! k = Some i -> truthy (ImageData.parent i) = true ->
    rooted image_data (ImageData.parent i) ->
    rooted image_data k.

(** The removal command a procedure issues for a selection. *)
Definition removal_command (p : procedure) (selection : gset string) : string :=
  match p with
  | Containers => "docker rm "
  | Images => "docker rmi -f "
  | Networks => "docker network rm "
  | Volumes => "docker volume rm -f "
  end +:+ Py.join " " (elements selection).

(** A text in which the character [c] does not occur. *)
Definition free_of (c : ascii) (s : string) : Prop :=
  Forall (fun x => x <> c) (list_ascii_of_string s).

(** The number of occurrences of the character [c] in a text. *)
Fixpoint count_char (c : ascii) (s : string) : nat :=
  match s with
  | EmptyString => O
  | String x s' => (if Ascii.eqb x c then 1 else 0) + count_char c s'
  end.

(** A text without white space that is not empty: an identifier as the quiet
    listings print one per line. *)
Definition token (s : string) : Prop :=
  s <> EmptyString
  /\ Forall (fun x => Py.isspace x = false) (list_ascii_of_string s).

(** The output of a quiet listing: each identifier followed by a newline. *)
Fixpoint listing (ids : list string) : string :=
  match ids with
  | [] => EmptyString
  | x :: ids' => x +:+ newline +:+ listing ids'
  end.

(** A dictionary with one image that names itself as its parent. *)
Definition self_parent : gmap string ImageData.t :=
  image_dict [ImageData.init "a" "a" "2018-01-01T00:00:00Z" ""].

(** The command lines of a trace, and the texts printed, in order. *)
Definition commands (tr : list event) : list string :=
  omap (fun e => match e with Exec cmd => Some cmd | _ => None end) tr.

Definition printed (tr : list event) : list string :=
  omap (fun e => match e with Print text => Some text | _ => None end) tr.

(** The removal commands of a trace. *)
Definition removals (tr : list event) : list string :=
  filter (fun cmd => is_removal cmd = true) (commands tr).

(** The listing commands of the four procedures, in the order [main] comes
    to them. *)
Definition listing_commands (p : procedure) : list string :=
  match p with
  | Containers => ["docker container ls -q --no-trunc";
                   "docker container ls -a -q --no-trunc"]
  | Images => ["docker image ls -a -q --no-trunc"; "docker ps -a -q --no-trunc"]
  | Networks => ["docker network ls -q --no-trunc"]
  | Volumes => ["docker volume ls -q -f dangling=true"]
  end%string.

(** A character that [strip] removes from the ends of an output: white
    space as the interpreter in use has it. *)
Definition stripped (PY3 : bool) (c : ascii) : bool :=
  if PY3 then Py.isspace c else Py.isspace_bytes c.

(** An output of nothing but white space. *)
Definition blank (PY3 : bool) (out : string) : Prop :=
  Forall (fun c => stripped PY3 c = true) (list_ascii_of_string out).

(** A process that ends within the thirty seconds it is given, with the code
    0 and a blank standard output. *)
Definition quick_and_blank (PY3 : bool) (p : process) : Prop :=
  exists d, lifetime p = Some d /\ (d <= 30)%nat /\ p_returncode p = 0
            /\ blank PY3 (p_stdout p).

(** A character that the two interpreters class alike, as white space and
    as a line boundary. *)
Definition classed_alike (c : ascii) : Prop :=
  Py.isspace_bytes c = Py.isspace c /\ Py.islinebreak_bytes c = Py.islinebreak c.

(** A host with a running container [k1] and a stopped one, [k2]. *)
Definition two_containers : Example.table :=
  [("docker container ls -q", Example.answer (listing ["k1"]));
   ("docker container ls -a", Example.answer (listing ["k1"; "k2"]));
   ("docker container inspect", Example.answer (listing ["k2|2018-01-01T00:00:00Z"]));
   ("docker rm", Example.answer (listing ["k2"]))]%string.

(** A host with three old networks: the default bridge, one nobody uses
    and one with a container attached. *)
Definition three_networks : Example.table :=
  [("docker network ls", Example.answer (listing ["n1"; "n2"; "n3"]));
   ("docker network inspect",
    Example.answer
      (listing ["n1|2018-01-01 00:00:00.5 +0000 UTC|map[]|bridge";
                "n2|2018-01-01 00:00:00.5 +0000 UTC|map[]|backend";
                "n3|2018-01-01 00:00:00.5 +0000 UTC|map[k1:{web}]|frontend"]));
   ("docker network rm", Example.answer (listing ["n2"]))]%string.

(** A host with two old dangling volumes: one named by its user, one with a
    generated name of 64 characters. *)
Definition two_volumes : Example.table :=
  [("docker volume ls",
    Example.answer (listing ["my-data"%string; Example.generated_name]));
   ("docker volume inspect",
    Example.answer
      (listing ["my-data|2018-01-01T00:00:00Z"%string;
                (Example.generated_name +:+ "|2018-01-01T00:00:00Z")%string]));
   ("docker volume rm", Example.answer (listing [Example.generated_name]))]%string.

(** * Properties *)

(** ** Strings *)

Lemma app_empty_r (a : string) : a +:+ "" = a.
Proof.
  induction a as [|c a IH]; [done|].
  change (String c (a +:+ "") = String c a). by rewrite IH.
Qed.

Lemma app_cons (c : ascii) (a b : string) : String c a +:+ b = String c (a +:+ b).
Proof. reflexivity. Qed.

Lemma startswith_app (p s : string) : Py.startswith p (p +:+ s) = true.
Proof.
  unfold Py.startswith. induction p as [|c p IH]; simpl; [by destruct s|].
  destruct (ascii_dec c c); [exact IH | congruence].
Qed.

Lemma startswith_split (p s : string) :
  Py.startswith p s = true -> s = p +:+ Py.slice_from (String.length p) s.
Proof.
  unfold Py.startswith. revert s.
  induction p as [|c p IH]; intros s H; [by destruct s|].
  destruct s as [|d s]; [done|]. simpl in *.
  destruct (ascii_dec c d) as [->|]; [|done].
  change (String d s = String d (p +:+ Py.slice_from (String.length p) s)).
  f_equal. by apply IH.
Qed.

Lemma slice_from_app (p s : string) : Py.slice_from (String.length p) (p +:+ s) = s.
Proof. induction p as [|c p IH]; simpl; [by destruct s | exact IH]. Qed.

Lemma rpartition_head_app (sep : ascii) (a b : string) (h : string) :
  Py.rpartition_head sep b = Some h ->
  Py.rpartition_head sep (a +:+ b) = Some (a +:+ h).
Proof.
  intros H. induction a as [|c a IH]; simpl; [done|]. by rewrite IH.
Qed.

(** A word: a text without the separator. *)
Lemma rpartition_head_word (sep : ascii) (w : string) :
  Forall (fun c => c <> sep) (list_ascii_of_string w) ->
  Py.rpartition_head sep w = None.
Proof.
  induction w as [|c w IH]; simpl; [done|].
  intros H. inversion H as [|? ? Hc Hw]; subst.
  rewrite (IH Hw). destruct (Ascii.eqb_spec c sep); [done|done].
Qed.

(** [rpartition] cuts at the last separator: what follows it goes. *)
Lemma rpartition0_last (sep : ascii) (a w : string) :
  Forall (fun c => c <> sep) (list_ascii_of_string w) ->
  Py.rpartition0 sep (a +:+ String sep w) = a.
Proof.
  intros Hw. unfold Py.rpartition0.
  rewrite (rpartition_head_app sep a (String sep w) EmptyString).
  - simpl. f_equal. apply app_empty_r.
  - simpl. rewrite (rpartition_head_word _ _ Hw). by rewrite Ascii.eqb_refl.
Qed.

Lemma rpartition0_no_sep (sep : ascii) (w : string) :
  Forall (fun c => c <> sep) (list_ascii_of_string w) ->
  Py.rpartition0 sep w = EmptyString.
Proof. intros Hw. unfold Py.rpartition0. by rewrite rpartition_head_word. Qed.

(** ** Identifier normalisation *)

Lemma hashfix_prefixed (x : string) : ImageData.hashfix ("sha256:" +:+ x) = x.
Proof.
  unfold ImageData.hashfix. rewrite startswith_app.
  exact (slice_from_app "sha256:" x).
Qed.

Lemma hashfix_bare (x : string) :
  Py.startswith "sha256:" x = false -> ImageData.hashfix x = x.
Proof. intros H. unfold ImageData.hashfix. by rewrite H. Qed.

Lemma hashfix_strips (y : string) :
  Py.startswith "sha256:" y = true -> y = "sha256:" +:+ ImageData.hashfix y.
Proof.
  intros H. unfold ImageData.hashfix. rewrite H.
  exact (startswith_split "sha256:" y H).
Qed.

(** C7: [hashfix] removes a leading [sha256:] and leaves any other text as
    it is.  The prefixed form of an identifier [x] is normalised to [x],
    which is also the normal form of the bare identifier [x], so the two
    forms are the same member of any set of normalised identifiers;
    [ImageData] stores both its own identifier and its parent reference
    through [hashfix]. *)
Theorem hashfix_prefixed_and_bare_agree :
  (forall x, ImageData.hashfix ("sha256:" +:+ x) = x)
  /\ (forall y, Py.startswith "sha256:" y = true -> y = "sha256:" +:+ ImageData.hashfix y)
  /\ (forall x, Py.startswith "sha256:" x = false ->
                ImageData.hashfix x = x
                /\ ImageData.hashfix ("sha256:" +:+ x) = ImageData.hashfix x
                /\ (forall S : gset string,
                       ImageData.hashfix ("sha256:" +:+ x) ∈ S <-> ImageData.hashfix x ∈ S)
                /\ (forall l : list string,
                       ImageData.hashfix x
                       ∈ (list_to_set (ImageData.hashfix <$> l) : gset string)
                       <-> exists y, y ∈ l /\ (y = x \/ y = "sha256:" +:+ x)))
  /\ (forall id parent created repo_tags,
         ImageData.id (ImageData.init id parent created repo_tags) = ImageData.hashfix id
         /\ ImageData.parent (ImageData.init id parent created repo_tags)
            = ImageData.hashfix parent)
  /\ ImageData.hashfix "sha256:abcd" = ImageData.hashfix "abcd".
Proof.
  split_and!.
  - apply hashfix_prefixed.
  - apply hashfix_strips.
  - intros x Hbare. pose proof (hashfix_bare x Hbare) as Hx. split_and!.
    + exact Hx.
    + by rewrite hashfix_prefixed, Hx.
    + intros S. by rewrite hashfix_prefixed, Hx.
    + intros l. rewrite Hx, elem_of_list_to_set, list_elem_of_fmap. split.
      * intros (y & Hy & Hin). exists y. split; [exact Hin|].
        destruct (Py.startswith "sha256:" y) eqn:Hp.
        -- right. rewrite Hy. by apply hashfix_strips.
        -- left. by rewrite Hy, (hashfix_bare y Hp).
      * intros (y & Hin & Hy). exists y. split; [|exact Hin].
        destruct Hy as [->| ->]; [by rewrite Hx | by rewrite hashfix_prefixed].
  - intros. split; reflexivity.
  - reflexivity.
Qed.

Lemma hashfix_prefixed_and_bare_agree_witness :
  Py.startswith "sha256:" "abcd" = false
  /\ ImageData.hashfix ("sha256:" +:+ "abcd") = ImageData.hashfix "abcd"
  /\ (ImageData.hashfix "abcd"
      ∈ (list_to_set (ImageData.hashfix <$> ["sha256:abcd"%string]) : gset string)).
Proof.
  destruct hashfix_prefixed_and_bare_agree as (_ & _ & Hbare & _).
  destruct (Hbare "abcd"%string eq_refl) as (_ & Heq & _ & Hin).
  split_and!; [reflexivity|exact Heq|].
  apply Hin. exists "sha256:abcd"%string. split; [apply list_elem_of_here|by right].
Defined.

(** ** [Duration] *)

Lemma is_unit_not_digit (u : ascii) : is_unit u = true -> Py.isdigit u = false.
Proof.
  unfold is_unit. intros H. apply orb_true_iff in H as [H|H];
    apply Ascii.eqb_eq in H; subst; reflexivity.
Qed.

Lemma digits_span_app (d : string) (u : ascii) (rest : string) :
  all_digits d = true -> Py.isdigit u = false ->
  digits_span (d +:+ String u rest) = (d, String u rest).
Proof.
  intros Hd Hu. induction d as [|c d IH].
  - simpl. by rewrite Hu.
  - simpl in Hd. apply andb_true_iff in Hd as [Hc Hd].
    rewrite app_cons. simpl. rewrite Hc, (IH Hd). done.
Qed.

Lemma digits_span_spec (s d r : string) :
  digits_span s = (d, r) ->
  s = d +:+ r /\ all_digits d = true
  /\ match r with String c _ => Py.isdigit c = false | EmptyString => True end.
Proof.
  revert d r. induction s as [|c s IH]; intros d r H; simpl in H.
  - by inversion H.
  - destruct (Py.isdigit c) eqn:Hc.
    + destruct (digits_span s) as [d' r'] eqn:Hs. inversion H; subst.
      destruct (IH d' r eq_refl) as (-> & Hd & Hr).
      split_and!; [done| |done]. simpl. by rewrite Hc, Hd.
    + inversion H; subst. split_and!; done.
Qed.

(** What follows the unit is not looked at. *)
Lemma Duration_match_prefix (d : string) (u : ascii) (rest : string) :
  d <> EmptyString -> all_digits d = true -> is_unit u = true ->
  Duration_match (d +:+ String u rest) = Some (d, u).
Proof.
  intros Hne Hd Hu. unfold Duration_match.
  rewrite (digits_span_app d u rest Hd (is_unit_not_digit u Hu)).
  destruct d; [done|]. by rewrite Hu.
Qed.

Lemma Duration_ignores_tail (d : string) (u : ascii) (rest : string) :
  d <> EmptyString -> all_digits d = true -> is_unit u = true ->
  Duration (d +:+ String u rest) = Duration (d +:+ String u EmptyString).
Proof.
  intros Hne Hd Hu. unfold Duration.
  by rewrite !Duration_match_prefix.
Qed.

(** The texts [Duration] accepts: digits, a unit, and then anything. *)
Lemma Duration_match_shape (s d : string) (u : ascii) :
  Duration_match s = Some (d, u) ->
  exists rest, s = d +:+ String u rest
               /\ d <> EmptyString /\ all_digits d = true /\ is_unit u = true.
Proof.
  unfold Duration_match. destruct (digits_span s) as [d' r] eqn:Hs.
  destruct (digits_span_spec s d' r Hs) as (-> & Hd & _).
  destruct d' as [|c d']; [done|].
  destruct r as [|c' r]; [done|].
  destruct (is_unit c') eqn:Hu; [|done].
  intros [= <- <-]. exists r. split_and!; done.
Qed.

Lemma Duration_ValueError_iff (s : string) :
  (exists msg, Duration s = Raise (ValueError msg)) <-> Duration_match s = None.
Proof.
  unfold Duration. destruct (Duration_match s) as [[d u]|]; split.
  - intros [msg H]. exfalso. revert H.
    unfold datetime.timedelta_minutes, datetime.timedelta_hours, datetime.timedelta_of_us.
    destruct (Ascii.eqb u "m");
      match goal with |- context [if ?b then _ else _] => destruct b end; done.
  - done.
  - done.
  - intros _. by eexists.
Qed.

(** A well-formed duration is never refused as malformed. *)
Lemma Duration_well_formed (s : string) :
  well_formed_duration s -> Duration_match s <> None.
Proof.
  intros (d & u & -> & Hne & Hd & Hu). by rewrite Duration_match_prefix.
Qed.

(** C1: [Duration] reads ["90m"] as 90 minutes and ["24h"] as 24 hours and
    refuses ["24"], but ["1h30m"] is not refused: the pattern is matched
    at the start of the text only, and the result is one hour. *)
Theorem Duration_accepts_combined_units :
  Duration "90m" = Ok (90 * datetime.us_per_minute)
  /\ Duration "24h" = Ok (24 * datetime.us_per_hour)
  /\ Duration "24" = Raise (ValueError "Invalid duration format: 24")
  /\ ~ well_formed_duration "1h30m"
  /\ Duration "1h30m" = Ok (1 * datetime.us_per_hour).
Proof.
  split_and!; try reflexivity.
  intros (d & u & H & Hne & Hd & Hu).
  destruct d as [|c1 d]; [done|].
  destruct d as [|c2 d].
  { by inversion H. }
  destruct d as [|c3 d].
  { by inversion H. }
  destruct d as [|c4 d].
  { by inversion H. }
  destruct d as [|c5 d].
  { inversion H; subst. by vm_compute in Hd. }
  destruct d as [|c6 d]; inversion H.
Qed.

(** ** [older_than] *)

Section Older.

Variable parse : string -> res datetime.t.
Variables utc loc : Z.

Lemma older_than_at_parsed (ts : string) (t : datetime.t) (age : datetime.timedelta) :
  parse_timestamp parse ts = Ok t ->
  older_than_at parse utc loc ts age = before_cutoff utc loc t age.
Proof. intros H. unfold older_than_at. by rewrite H. Qed.

Lemma representable_true (w : Z) :
  datetime.representable w = true <-> 0 <= w < datetime.max_ticks.
Proof. unfold datetime.representable. rewrite andb_true_iff. lia. Qed.

Lemma representable_false (w : Z) :
  datetime.representable w = false <-> ~ (0 <= w < datetime.max_ticks).
Proof. rewrite <- representable_true. by destruct (datetime.representable w). Qed.

(** When neither the clock nor the cutoff leaves the range of [datetime],
    the comparison is the one of the wall-clock readings. *)
Lemma before_cutoff_in_range (t : datetime.t) (age : datetime.timedelta) :
  0 <= zone_now utc loc t < datetime.max_ticks ->
  0 <= zone_now utc loc t - age < datetime.max_ticks ->
  before_cutoff utc loc t age = Ok (datetime.ticks t <? zone_now utc loc t - age).
Proof.
  intros Hnow Hcut. unfold before_cutoff, datetime.now, datetime.sub, zone_now in *.
  apply representable_true in Hnow, Hcut. rewrite Hnow. simpl. rewrite Hcut. simpl.
  unfold datetime.lt. simpl. destruct (datetime.tzinfo t) as [off|]; simpl; [|done].
  f_equal. apply eq_iff_eq_true. rewrite !Z.ltb_lt. lia.
Qed.

(** A cutoff before the year 1 is not a [datetime]: the subtraction raises. *)
Lemma before_cutoff_overflow (t : datetime.t) (age : datetime.timedelta) :
  0 <= zone_now utc loc t < datetime.max_ticks ->
  ~ (0 <= zone_now utc loc t - age < datetime.max_ticks) ->
  before_cutoff utc loc t age = Raise OverflowError.
Proof.
  intros Hnow Hcut. unfold before_cutoff, datetime.now, datetime.sub, zone_now in *.
  apply representable_true in Hnow. apply representable_false in Hcut.
  rewrite Hnow. simpl. by rewrite Hcut.
Qed.

(** C3: for a timestamp that parses to [t] (at once or without its last
    word) and a duration [age], [older_than] returns true if and only if [t]
    is strictly earlier than the current time minus [age], the current time
    being read in the zone of [t]; whenever that cutoff is a representable
    datetime the answer is the truth value of the comparison.  With a
    duration of one hour, a timestamp two hours back yields true and one
    thirty minutes back yields false. *)
Theorem older_than_strictly_earlier (ts : string) (t : datetime.t)
        (age : datetime.timedelta)
        (Hparse : parse_timestamp parse ts = Ok t)
        (Hvalid : datetime.valid t)
        (Hage : 0 <= age)
        (Hnow : 0 <= zone_now utc loc t < datetime.max_ticks) :
  (older_than_at parse utc loc ts age = Ok true
   <-> datetime.ticks t < zone_now utc loc t - age)
  /\ (0 <= zone_now utc loc t - age ->
      older_than_at parse utc loc ts age
      = Ok (datetime.ticks t <? zone_now utc loc t - age))
  /\ (datetime.ticks t < zone_now utc loc t - age
      <-> datetime.instant loc t < utc - age)
  /\ Duration "1h" = Ok datetime.us_per_hour
  /\ (datetime.ticks t = zone_now utc loc t - 2 * datetime.us_per_hour ->
      older_than_at parse utc loc ts datetime.us_per_hour = Ok true)
  /\ (datetime.ticks t = zone_now utc loc t - 30 * datetime.us_per_minute ->
      0 <= zone_now utc loc t - datetime.us_per_hour ->
      older_than_at parse utc loc ts datetime.us_per_hour = Ok false).
Proof.
  rewrite !(older_than_at_parsed ts t) by exact Hparse.
  unfold datetime.valid in Hvalid.
  assert (Hin : forall a, 0 <= a -> 0 <= zone_now utc loc t - a ->
                before_cutoff utc loc t a
                = Ok (datetime.ticks t <? zone_now utc loc t - a)).
  { intros a Ha Hlow. apply before_cutoff_in_range; lia. }
  split_and!.
  - destruct (decide (0 <= zone_now utc loc t - age)) as [Hlow|Hlow].
    + rewrite (Hin age Hage Hlow). split.
      * intros [= H]. by apply Z.ltb_lt.
      * intros H. f_equal. by apply Z.ltb_lt.
    + rewrite before_cutoff_overflow by lia. split; [done | lia].
  - intros Hlow. by apply Hin.
  - unfold datetime.instant, zone_now. lia.
  - reflexivity.
  - intros Ht. rewrite Hin.
    + f_equal. apply Z.ltb_lt. unfold datetime.us_per_hour in *. lia.
    + unfold datetime.us_per_hour. lia.
    + unfold datetime.us_per_hour in *. lia.
  - intros Ht Hlow. rewrite Hin.
    + f_equal. apply Z.ltb_ge.
      unfold datetime.us_per_hour, datetime.us_per_minute in *. lia.
    + unfold datetime.us_per_hour. lia.
    + exact Hlow.
Qed.

(** C8: when the first parse raises [ValueError], the text up to the last
    space is parsed instead, so a timestamp followed by one more word is
    read as the timestamp; and when that second parse fails too, its
    exception is the outcome of [older_than]: no boolean is returned. *)
Theorem older_than_retries_without_last_word (ts msg : string)
        (age : datetime.timedelta)
        (Hfirst : parse ts = Raise (ValueError msg)) :
  parse_timestamp parse ts = parse (Py.rpartition0 " " ts)
  /\ (forall head word, ts = head +:+ String " " word -> one_word word ->
                        Py.rpartition0 " " ts = head)
  /\ (forall head word t, ts = head +:+ String " " word -> one_word word ->
                          parse head = Ok t ->
                          older_than_at parse utc loc ts age
                          = before_cutoff utc loc t age)
  /\ (forall e, parse (Py.rpartition0 " " ts) = Raise e ->
                older_than_at parse utc loc ts age = Raise e
                /\ forall b, older_than_at parse utc loc ts age <> Ok b).
Proof.
  assert (Hretry : parse_timestamp parse ts = parse (Py.rpartition0 " " ts)).
  { unfold parse_timestamp. by rewrite Hfirst. }
  split_and!.
  - exact Hretry.
  - intros head word -> Hw. by apply rpartition0_last.
  - intros head word t -> Hw Ht. apply older_than_at_parsed.
    rewrite Hretry. by rewrite rpartition0_last.
  - intros e He. unfold older_than_at. rewrite Hretry, He. simpl. by split.
Qed.

End Older.

Lemma older_than_strictly_earlier_witness :
  let t := Example.at_day 739924 36000 (Some 0) in
  let utc := Example.utcnow Example.idle in
  parse_timestamp Example.parse "2026-11-04T10:00:00Z" = Ok t
  /\ datetime.valid t
  /\ 0 <= Example.hour
  /\ (older_than_at Example.parse utc 0 "2026-11-04T10:00:00Z" Example.hour = Ok true
      <-> datetime.ticks t < zone_now utc 0 t - Example.hour).
Proof.
  assert (Hv : datetime.valid (Example.at_day 739924 36000 (Some 0))).
  { split; by vm_compute. }
  assert (Ha : 0 <= Example.hour) by (by vm_compute).
  assert (Hn : 0 <= zone_now (Example.utcnow Example.idle) 0
                      (Example.at_day 739924 36000 (Some 0)) < datetime.max_ticks).
  { split; by vm_compute. }
  split_and!; [reflexivity | exact Hv | exact Ha |].
  exact (proj1 (older_than_strictly_earlier
                  Example.parse (Example.utcnow Example.idle) 0
                  "2026-11-04T10:00:00Z" (Example.at_day 739924 36000 (Some 0))
                  Example.hour eq_refl Hv Ha Hn)).
Defined.

Lemma older_than_retries_without_last_word_witness :
  let ts := "2018-01-01 00:00:00.5 +0000 UTC"%string in
  Example.parse ts = Raise (ValueError ("Unknown string format: " +:+ ts))
  /\ parse_timestamp Example.parse ts = Example.parse "2018-01-01 00:00:00.5 +0000"
  /\ older_than_at Example.parse (Example.utcnow Example.idle) 0 ts Example.day = Ok true.
Proof.
  split_and!; [reflexivity| |reflexivity].
  exact (proj1 (older_than_retries_without_last_word
                  Example.parse (Example.utcnow Example.idle) 0
                  "2018-01-01 00:00:00.5 +0000 UTC"
                  ("Unknown string format: " +:+ "2018-01-01 00:00:00.5 +0000 UTC")
                  Example.day eq_refl)).
Defined.

(** ** [run_command] *)

Section Executor.

Context {W : Type}.
Variable spawn : W -> string -> process.
Variable settle : W -> string -> fate -> W.

Lemma run_command_interpreter (cmd : string) (timeout : option nat) (check : bool) :
  run_command spawn settle true cmd timeout check
  = run_command_py3 spawn settle cmd timeout check
  /\ run_command spawn settle false cmd timeout check
     = run_command_py2 spawn settle cmd timeout check.
Proof. done. Qed.


(** C4, as the code has it.  A command that outlives a timeout of [secs]
    seconds: the Python 3 branch sends SIGKILL and nothing before it and
    raises [TimeoutExpired], whatever [check] is; the Python 2 branch sends
    SIGTERM, sleeps two seconds, sends SIGKILL only if the process is still
    there, and answers with the code -1, which strict mode raises as a
    [CalledProcessError], the exception of a non-zero exit, and which is
    returned as a response otherwise. *)
Theorem run_command_on_timeout (cmd : string) (secs : nat) (check : bool) (s : state W)
        (Hsecs : (0 < secs)%nat)
        (Hout : outlives secs (spawn (host s) cmd) = true) :
  run_command_py3 spawn settle cmd (Some secs) check s
  = (Raise (TimeoutExpired cmd secs),
     mkState (settle (host s) cmd Killed) (trace s ++ [Exec cmd; Kill SIGKILL]))
  /\ run_command_py2 spawn settle cmd (Some secs) check s
     = ((if check then Raise (CalledProcessError (-1) cmd "")
         else Ok (mkPResponse "" "" (-1))),
        mkState (settle (host s) cmd
                        (if ends_on_sigterm (spawn (host s) cmd) then Terminated else Killed))
                (trace s ++ [Exec cmd; SetAlarm secs; Kill SIGTERM; Sleep 2]
                 ++ (if ends_on_sigterm (spawn (host s) cmd) then [] else [Kill SIGKILL])
                 ++ [SetAlarm 0]))
  /\ (forall rc out, TimeoutExpired cmd secs <> CalledProcessError rc cmd out).
Proof.
  split_and!.
  - unfold run_command_py3. simpl. rewrite Hout. by rewrite <- app_assoc.
  - unfold run_command_py2. simpl. rewrite Hout.
    apply Nat.ltb_lt in Hsecs. rewrite Hsecs. simpl.
    unfold completed. simpl.
    destruct (ends_on_sigterm (spawn (host s) cmd)), check; simpl;
      by rewrite <- app_assoc.
  - done.
Qed.

End Executor.

Lemma run_command_on_timeout_witness :
  let s := Example.start Example.stuck in
  outlives 30 (Example.spawn (host s) "docker image ls -a") = true
  /\ run_command_py3 Example.spawn Example.settle "docker image ls -a" (Some 30%nat) true s
     = (Raise (TimeoutExpired "docker image ls -a" 30),
        mkState Example.stuck [Exec "docker image ls -a"; Kill SIGKILL]).
Proof.
  split; [reflexivity|].
  exact (proj1 (run_command_on_timeout
                  Example.spawn Example.settle "docker image ls -a" 30 true
                  (Example.start Example.stuck) (Nat.lt_0_succ 29) eq_refl)).
Defined.

(** C4 as stated fails on both branches.  On a process that never ends, the
    Python 3 branch sends SIGKILL without a SIGTERM before it, and the
    Python 2 branch raises the very exception it raises for a process that
    exits by itself with the code -1. *)
Lemma executor_branches_disagree :
  let cmd := "docker image ls -a"%string in
  let s := Example.start Example.stuck in
  let s' := Example.start [(cmd, Example.mkfailure "" (-1))] in
  trace (snd (run_command_py3 Example.spawn Example.settle cmd (Some 30%nat) true s))
  = [Exec cmd; Kill SIGKILL]
  /\ trace (snd (run_command_py2 Example.spawn Example.settle cmd (Some 30%nat) true s))
     = [Exec cmd; SetAlarm 30; Kill SIGTERM; Sleep 2; Kill SIGKILL; SetAlarm 0]
  /\ fst (run_command_py3 Example.spawn Example.settle cmd (Some 30%nat) true s)
     = Raise (TimeoutExpired cmd 30)
  /\ fst (run_command_py2 Example.spawn Example.settle cmd (Some 30%nat) true s)
     = Raise (CalledProcessError (-1) cmd "")
  /\ fst (run_command_py2 Example.spawn Example.settle cmd (Some 30%nat) true s')
     = fst (run_command_py2 Example.spawn Example.settle cmd (Some 30%nat) true s)
  /\ fst (run_command_py2 Example.spawn Example.settle cmd (Some 30%nat) false s)
     = Ok (mkPResponse "" "" (-1)).
Proof. split_and!; reflexivity. Qed.

(** ** The selections *)

Section Selections.

Context {W : Type}.
Variable utcnow : W -> Z.
Variable localoffset : W -> Z.
Variable parse : string -> res datetime.t.

Lemma filter_M_older_than {A} (ts : A -> string) (grace : datetime.timedelta)
      (l : list A) (s : state W) :
  Forall (fun i => answers parse (utcnow (host s)) (localoffset (host s)) grace (ts i)) l ->
  filter_M (fun i => older_than utcnow localoffset parse (ts i) grace) l s
  = (Ok (filter (fun i => old_at parse (utcnow (host s)) (localoffset (host s)) grace (ts i)
                          = true) l), s).
Proof.
  induction l as [|x l IH]; intros Hl; [done|].
  inversion Hl as [|? ? [b Hb] Hl']; subst.
  cbn [filter_M]. unfold bind at 1. unfold older_than at 1. rewrite Hb.
  unfold bind. rewrite (IH Hl'). unfold ret.
  assert (Hx : old_at parse (utcnow (host s)) (localoffset (host s)) grace (ts x) = b).
  { unfold old_at. rewrite Hb. by destruct b. }
  rewrite filter_cons. rewrite Hx.
  destruct b; [by rewrite decide_True | by rewrite decide_False].
Qed.

(** [filter_M] adds nothing to the trace and does not touch the host. *)
Lemma filter_M_older_than_state {A} (ts : A -> string) (grace : datetime.timedelta)
      (l : list A) (s : state W) :
  snd (filter_M (fun i => older_than utcnow localoffset parse (ts i) grace) l s) = s.
Proof.
  induction l as [|x l IH]; [done|].
  cbn [filter_M]. unfold bind at 1. unfold older_than at 1.
  destruct (older_than_at _ _ _ _ _); [|done|done].
  unfold bind.
  destruct (filter_M _ l s) as [[r|e|] s'] eqn:Hf; simpl in *; by subst.
Qed.

Lemma old_at_true (utc loc : Z) (grace : datetime.timedelta) (ts : string) :
  old_at parse utc loc grace ts = true
  <-> older_than_at parse utc loc ts grace = Ok true.
Proof.
  unfold old_at. destruct (older_than_at _ _ _ _ _) as [[]| |]; split; done.
Qed.

Lemma is_reserved_iff (name : string) :
  is_reserved name = true <-> name ∈ reserved_names.
Proof.
  unfold is_reserved. rewrite existsb_exists. split.
  - intros (x & Hx & Heq). apply String.eqb_eq in Heq. subst.
    by apply list_elem_of_In.
  - intros H. exists name. split; [by apply list_elem_of_In | apply String.eqb_refl].
Qed.

(** The set algebra of [prune_networks], on any list of network records
    whose timestamps [older_than] answers for: the identifiers of old
    records that belong to no record with attached containers and to no
    record of a reserved name. *)
Lemma select_networks_exact (grace : datetime.timedelta)
        (network_data : list NetworkData.t) (s : state W)
        (Htimes : Forall (fun n => answers parse (utcnow (host s)) (localoffset (host s))
                                           grace (NetworkData.created n)) network_data) :
  exists S : gset string,
    select_networks utcnow localoffset parse grace network_data s = (Ok S, s)
    /\ (forall x,
           x ∈ S <->
           (exists n, n ∈ network_data /\ NetworkData.id n = x
                      /\ older_than_at parse (utcnow (host s)) (localoffset (host s))
                                       (NetworkData.created n) grace = Ok true)
           /\ ~ (exists n, n ∈ network_data /\ NetworkData.id n = x
                           /\ truthy_opt (NetworkData.containers n) = true)
           /\ ~ (exists n, n ∈ network_data /\ NetworkData.id n = x
                           /\ NetworkData.name n ∈ reserved_names))
    /\ (forall n, n ∈ network_data ->
                  NetworkData.name n = "bridge"%string \/ NetworkData.name n = "host"%string
                  \/ NetworkData.name n = "none"%string ->
                  NetworkData.id n ∉ S).
Proof.
  unfold select_networks, bind.
  rewrite (filter_M_older_than NetworkData.created grace network_data s Htimes).
  unfold ret. eexists. split; [reflexivity|].
  assert (Hchar : forall x,
    x ∈ (list_to_set (NetworkData.id <$>
           filter (fun i => old_at parse (utcnow (host s)) (localoffset (host s)) grace
                                   (NetworkData.created i) = true) network_data) : gset string)
        ∖ list_to_set (NetworkData.id <$>
           filter (fun i => truthy_opt (NetworkData.containers i) = true) network_data)
        ∖ list_to_set (NetworkData.id <$>
           filter (fun i => is_reserved (NetworkData.name i) = true) network_data)
    <-> (exists n, n ∈ network_data /\ NetworkData.id n = x
                   /\ older_than_at parse (utcnow (host s)) (localoffset (host s))
                                    (NetworkData.created n) grace = Ok true)
        /\ ~ (exists n, n ∈ network_data /\ NetworkData.id n = x
                        /\ truthy_opt (NetworkData.containers n) = true)
        /\ ~ (exists n, n ∈ network_data /\ NetworkData.id n = x
                        /\ NetworkData.name n ∈ reserved_names)).
  { intros x. rewrite !elem_of_difference, !elem_of_list_to_set, !list_elem_of_fmap.
    setoid_rewrite list_elem_of_filter. setoid_rewrite old_at_true.
    setoid_rewrite is_reserved_iff. split.
    - intros [[(n & -> & Hold & Hn) Hused] Hres]. split_and!.
      + by exists n.
      + intros (n' & Hn' & Heq & Ht). apply Hused. by exists n'.
      + intros (n' & Hn' & Heq & Ht). apply Hres. by exists n'.
    - intros ((n & Hn & <- & Hold) & Hused & Hres). split_and!.
      + by exists n.
      + intros (n' & Heq & Ht & Hn'). apply Hused. by exists n'.
      + intros (n' & Heq & Ht & Hn'). apply Hres. by exists n'. }
  split; [exact Hchar|].
  intros n Hn Hname. rewrite Hchar. intros (_ & _ & Hres). apply Hres.
  exists n. split_and!; [done|done|].
  unfold reserved_names. rewrite !elem_of_cons.
  destruct Hname as [->| [->| ->]]; auto.
Qed.

(** The set algebra of [prune_volumes], on any list of volume records whose
    timestamps [older_than] answers for: the names of old records that are
    64 characters long or more, and all names of old records in aggressive
    mode. *)
Lemma select_volumes_exact (grace : datetime.timedelta) (aggressive : bool)
        (volume_data : list VolumeData.t) (s : state W)
        (Htimes : Forall (fun v => answers parse (utcnow (host s)) (localoffset (host s))
                                           grace (VolumeData.created v)) volume_data) :
  exists S : gset string,
    select_volumes utcnow localoffset parse grace aggressive volume_data s = (Ok S, s)
    /\ (forall x,
           x ∈ S <->
           (exists v, v ∈ volume_data /\ VolumeData.name v = x
                      /\ older_than_at parse (utcnow (host s)) (localoffset (host s))
                                       (VolumeData.created v) grace = Ok true)
           /\ (aggressive = true \/ (64 <= String.length x)%nat))
    /\ (forall v, v ∈ volume_data ->
                  older_than_at parse (utcnow (host s)) (localoffset (host s))
                                (VolumeData.created v) grace = Ok true ->
                  (VolumeData.name v = "my-data"%string ->
                   (VolumeData.name v ∈ S <-> aggressive = true))
                  /\ (String.length (VolumeData.name v) = 64%nat ->
                      VolumeData.name v ∈ S)).
Proof.
  unfold select_volumes, bind.
  rewrite (filter_M_older_than VolumeData.created grace volume_data s Htimes).
  unfold ret. eexists. split; [reflexivity|].
  assert (Hchar : forall x,
    x ∈ (if negb aggressive
         then (list_to_set (VolumeData.name <$>
                 filter (fun i => old_at parse (utcnow (host s)) (localoffset (host s)) grace
                                         (VolumeData.created i) = true) volume_data)
               : gset string)
              ∖ list_to_set (VolumeData.name <$>
                 filter (fun v => (String.length (VolumeData.name v) <? 64)%nat = true)
                        volume_data)
         else list_to_set (VolumeData.name <$>
                 filter (fun i => old_at parse (utcnow (host s)) (localoffset (host s)) grace
                                         (VolumeData.created i) = true) volume_data))
    <-> (exists v, v ∈ volume_data /\ VolumeData.name v = x
                   /\ older_than_at parse (utcnow (host s)) (localoffset (host s))
                                    (VolumeData.created v) grace = Ok true)
        /\ (aggressive = true \/ (64 <= String.length x)%nat)).
  { intros x. destruct aggressive; simpl.
    - rewrite elem_of_list_to_set, list_elem_of_fmap.
      setoid_rewrite list_elem_of_filter. setoid_rewrite old_at_true. split.
      + intros (v & -> & Hold & Hv). split; [by exists v | by left].
      + intros [(v & Hv & <- & Hold) _]. by exists v.
    - rewrite elem_of_difference, !elem_of_list_to_set, !list_elem_of_fmap.
      setoid_rewrite list_elem_of_filter. setoid_rewrite old_at_true.
      setoid_rewrite Nat.ltb_lt. split.
      + intros [(v & -> & Hold & Hv) Hnamed]. split; [by exists v|].
        right. destruct (decide (64 <= String.length (VolumeData.name v))%nat); [done|].
        exfalso. apply Hnamed. exists v. split_and!; [done| lia |done].
      + intros [(v & Hv & <- & Hold) [Hag|Hlen]]; [done|].
        split; [by exists v|].
        intros (v' & Heq & Hlt & _). rewrite Heq in Hlen. lia. }
  split; [exact Hchar|].
  intros v Hv Hold. split.
  - intros Hname. rewrite Hchar. split.
    + intros [_ [Hag|Hlen]]; [done|]. rewrite Hname in Hlen. simpl in Hlen. lia.
    + intros Hag. split; [by exists v | by left].
  - intros Hlen. rewrite Hchar. split; [by exists v | right; lia].
Qed.

End Selections.

Lemma select_networks_exact_witness :
  let s := Example.start Example.idle in
  let nets := [Example.net_bridge; Example.net_idle; Example.net_used] in
  Forall (fun n => answers Example.parse (Example.utcnow (host s)) (Example.localoffset (host s))
                           Example.day (NetworkData.created n)) nets
  /\ exists S : gset string,
       select_networks Example.utcnow Example.localoffset Example.parse Example.day nets s
       = (Ok S, s)
       /\ "n1"%string ∉ S.
Proof.
  assert (Ht : Forall (fun n => answers Example.parse
                                        (Example.utcnow (host (Example.start Example.idle)))
                                        (Example.localoffset (host (Example.start Example.idle)))
                                        Example.day (NetworkData.created n))
                      [Example.net_bridge; Example.net_idle; Example.net_used]).
  { repeat constructor; exists true; reflexivity. }
  split; [exact Ht|].
  destruct (select_networks_exact Example.utcnow Example.localoffset Example.parse
              Example.day [Example.net_bridge; Example.net_idle; Example.net_used]
              (Example.start Example.idle) Ht) as (S & Hsel & _ & Hres).
  exists S. split; [exact Hsel|].
  apply (Hres Example.net_bridge); [apply list_elem_of_here | by left].
Defined.

Lemma select_volumes_exact_witness :
  let s := Example.start Example.idle in
  let vols := [Example.vol_named; Example.vol_anonymous] in
  Forall (fun v => answers Example.parse (Example.utcnow (host s)) (Example.localoffset (host s))
                           Example.day (VolumeData.created v)) vols
  /\ exists S : gset string,
       select_volumes Example.utcnow Example.localoffset Example.parse Example.day false vols s
       = (Ok S, s)
       /\ Example.generated_name ∈ S.
Proof.
  assert (Ht : Forall (fun v => answers Example.parse
                                        (Example.utcnow (host (Example.start Example.idle)))
                                        (Example.localoffset (host (Example.start Example.idle)))
                                        Example.day (VolumeData.created v))
                      [Example.vol_named; Example.vol_anonymous]).
  { repeat constructor; exists true; reflexivity. }
  split; [exact Ht|].
  destruct (select_volumes_exact Example.utcnow Example.localoffset Example.parse
              Example.day false [Example.vol_named; Example.vol_anonymous]
              (Example.start Example.idle) Ht) as (S & Hsel & _ & Hex).
  exists S. split; [exact Hsel|].
  apply (Hex Example.vol_anonymous); [apply list_elem_of_further, list_elem_of_here | | ];
    reflexivity.
Defined.

(** A closed check of the selection on the example records. *)
Lemma select_networks_example :
  fst (select_networks Example.utcnow Example.localoffset Example.parse Example.day
         [Example.net_bridge; Example.net_idle; Example.net_used]
         (Example.start Example.idle))
  = Ok {[ "n2"%string ]}.
Proof. vm_compute. reflexivity. Qed.

(** ** Traces *)

Section Runs.

Context {W : Type}.
Variable spawn : W -> string -> process.
Variable settle : W -> string -> fate -> W.
Variable utcnow : W -> Z.
Variable localoffset : W -> Z.
Variable parse : string -> res datetime.t.
Variable PY3 : bool.

Lemma reads_only_ret {A} (a : A) : reads_only settle (ret (W:=W) a).
Proof.
  intros s. exists []. simpl. rewrite app_nil_r. split_and!; [done|constructor|done].
Qed.

Lemma reads_only_lift {A} (r : res A) : reads_only settle (lift (W:=W) r).
Proof.
  intros s. exists []. simpl. rewrite app_nil_r. split_and!; [done|constructor|done].
Qed.

Lemma reads_only_bind {A B} (m : M W A) (k : A -> M W B) :
  reads_only settle m -> (forall a, reads_only settle (k a)) ->
  reads_only settle (bind m k).
Proof.
  intros Hm Hk s. destruct (Hm s) as (evs & Htr & Hev & Hhost).
  unfold bind. destruct (m s) as [[a|e|] s1]; simpl in *.
  - destruct (Hk a s1) as (evs' & Htr' & Hev' & Hhost').
    exists (evs ++ evs'). split_and!.
    + by rewrite Htr', Htr, app_assoc.
    + by apply Forall_app.
    + intros H. by rewrite (Hhost' H), (Hhost H).
  - by exists evs.
  - by exists evs.
Qed.

Lemma reads_only_completed (check : bool) (cmd out err : string) (rc : Z)
      (s0 s : state W) (evs : list event) :
  trace s = trace s0 ++ evs -> Forall (fun e => removes e = false) evs ->
  ((forall w cmd f, is_removal cmd = false -> settle w cmd f = w) -> host s = host s0) ->
  exists evs',
    trace (snd (completed check cmd out err rc s)) = trace s0 ++ evs'
    /\ Forall (fun e => removes e = false) evs'
    /\ ((forall w cmd f, is_removal cmd = false -> settle w cmd f = w) ->
        host (snd (completed check cmd out err rc s)) = host s0).
Proof.
  intros Htr Hev Hhost. exists evs. unfold completed.
  by destruct (negb (rc =? 0) && check).
Qed.

(** A command that is no removal adds no removal to the trace, on either
    branch and however it ends. *)
Lemma reads_only_run (cmd : string) :
  is_removal cmd = false -> reads_only settle (run spawn settle PY3 cmd).
Proof.
  intros Hcmd s. unfold run, run_command.
  assert (Hexec : removes (Exec cmd) = false) by exact Hcmd.
  destruct PY3.
  - unfold run_command_py3. simpl.
    destruct (outlives 30 (spawn (host s) cmd)).
    + exists [Exec cmd; Kill SIGKILL]. simpl. rewrite <- app_assoc. split_and!.
      * done.
      * by repeat constructor.
      * intros H. by apply H.
    + destruct (lifetime (spawn (host s) cmd)).
      * apply (reads_only_completed _ _ _ _ _ s _ [Exec cmd]); simpl.
        -- done.
        -- by repeat constructor.
        -- intros H. by apply H.
      * exists [Exec cmd]. simpl. split_and!; [done | by repeat constructor | done].
  - unfold run_command_py2. simpl.
    destruct (outlives 30 (spawn (host s) cmd)).
    + destruct (ends_on_sigterm (spawn (host s) cmd)).
      * apply (reads_only_completed _ _ _ _ _ s _
                 [Exec cmd; SetAlarm 30; Kill SIGTERM; Sleep 2; SetAlarm 0]); simpl.
        -- by rewrite <- app_assoc.
        -- by repeat constructor.
        -- intros H. by apply H.
      * apply (reads_only_completed _ _ _ _ _ s _
                 [Exec cmd; SetAlarm 30; Kill SIGTERM; Sleep 2; Kill SIGKILL; SetAlarm 0]);
          simpl.
        -- by rewrite <- app_assoc.
        -- by repeat constructor.
        -- intros H. by apply H.
    + destruct (lifetime (spawn (host s) cmd)).
      * apply (reads_only_completed _ _ _ _ _ s _ [Exec cmd; SetAlarm 30; SetAlarm 0]);
          simpl.
        -- by rewrite <- app_assoc.
        -- by repeat constructor.
        -- intros H. by apply H.
      * exists [Exec cmd; SetAlarm 30]. simpl.
        split_and!; [done | by repeat constructor | done].
Qed.

Lemma reads_only_filter_M {A} (ts : A -> string) (grace : datetime.timedelta)
      (l : list A) :
  reads_only settle
    (filter_M (fun i => older_than utcnow localoffset parse (ts i) grace) l).
Proof.
  intros s. rewrite filter_M_older_than_state. exists [].
  rewrite app_nil_r. split_and!; [done|constructor|done].
Qed.

Lemma reads_only_if {A} (b : bool) (m1 m2 : M W A) :
  reads_only settle m1 -> reads_only settle m2 ->
  reads_only settle (if b then m1 else m2).
Proof. by destruct b. Qed.

Lemma reads_only_decide {A} (P : Prop) `{Decision P} (m1 m2 : M W A) :
  reads_only settle m1 -> reads_only settle m2 ->
  reads_only settle (if decide P then m1 else m2).
Proof. by destruct (decide P). Qed.

(** No removal is issued before the last [if] of a procedure. *)
Lemma reads_only_to_prune (p : procedure) (grace : datetime.timedelta)
      (aggressive : bool) :
  reads_only settle
    (to_prune spawn settle utcnow localoffset parse PY3 p grace aggressive).
Proof.
  destruct p; simpl.
  - unfold containers_to_prune.
    repeat first
      [ apply reads_only_bind; [|intros ?]
      | apply reads_only_decide
      | apply reads_only_ret
      | apply reads_only_lift
      | apply reads_only_filter_M
      | apply reads_only_run; reflexivity ].
  - unfold images_to_prune, select_images.
    repeat first
      [ apply reads_only_bind; [|intros ?]
      | apply reads_only_decide
      | apply reads_only_ret
      | apply reads_only_lift
      | apply (reads_only_filter_M ImageData.created)
      | apply reads_only_run; reflexivity ].
  - unfold networks_to_prune, select_networks.
    repeat first
      [ apply reads_only_bind; [|intros ?]
      | apply reads_only_decide
      | apply reads_only_ret
      | apply reads_only_lift
      | apply (reads_only_filter_M NetworkData.created)
      | apply reads_only_run; reflexivity ].
  - unfold volumes_to_prune, select_volumes.
    repeat first
      [ apply reads_only_bind; [|intros ?]
      | apply reads_only_decide
      | apply reads_only_ret
      | apply reads_only_lift
      | apply (reads_only_filter_M VolumeData.created)
      | apply reads_only_run; reflexivity ].
Qed.

End Runs.

(** ** The procedures and the driver *)

Section Driver.

Context {W : Type}.
Variable spawn : W -> string -> process.
Variable settle : W -> string -> fate -> W.
Variable utcnow : W -> Z.
Variable localoffset : W -> Z.
Variable parse : string -> res datetime.t.
Variable PY3 : bool.
Variable getenv_GRACE_PERIOD : option string.
Variable getenv_AGGRESSIVE : option string.


Lemma run_first_event (cmd : string) (s : state W) :
  exists evs, trace (snd (run spawn settle PY3 cmd s)) = trace s ++ Exec cmd :: evs.
Proof.
  unfold run, run_command. destruct PY3.
  - unfold run_command_py3. simpl.
    destruct (outlives 30 (spawn (host s) cmd)).
    + exists [Kill SIGKILL]. simpl. by rewrite <- app_assoc.
    + destruct (lifetime (spawn (host s) cmd)); [|by exists []].
      unfold completed. exists [].
      by destruct (negb (p_returncode (spawn (host s) cmd) =? 0) && true).
  - unfold run_command_py2. simpl.
    destruct (outlives 30 (spawn (host s) cmd)).
    + unfold completed. simpl.
      destruct (ends_on_sigterm (spawn (host s) cmd)); simpl;
        eexists; by rewrite <- app_assoc.
    + destruct (lifetime (spawn (host s) cmd)); [|by exists [SetAlarm 30]].
      unfold completed. exists [SetAlarm 30; SetAlarm 0].
      destruct (negb (p_returncode (spawn (host s) cmd) =? 0) && true); simpl;
        by rewrite <- app_assoc.
Qed.

(** A selection that is not empty is handed to one removal command, which
    names exactly its elements. *)
Lemma selection_is_removed (p : procedure) (grace : datetime.timedelta)
      (aggressive : bool) (s s' : state W) (S : gset string) :
  to_prune spawn settle utcnow localoffset parse PY3 p grace aggressive s = (Ok S, s') ->
  S <> ∅ ->
  exists evs,
    trace (snd (prune spawn settle utcnow localoffset parse PY3 p grace aggressive s))
    = trace s' ++ Exec (removal_command p S) :: evs.
Proof.
  intros Hsel Hne.
  destruct (run_first_event (removal_command p S) s') as [evs Hevs].
  exists evs. rewrite <- Hevs. clear Hevs.
  destruct p; simpl in *;
    unfold prune_containers, prune_images, prune_networks, prune_volumes;
    unfold bind at 1; rewrite Hsel;
    unfold remove_containers, remove_images, remove_networks, remove_volumes;
    rewrite decide_False by done; unfold bind, removal_command;
    match goal with |- context [run ?a ?b ?c ?d ?e] => by destruct (run a b c d e) as [[]] end.
Qed.

(** C10: for each of the four procedures, when the set computed before the
    last [if] is empty the procedure returns the empty tuple in the state
    the computation of the set has left: the events added to the trace
    are those of the listing and inspection commands, none of them a
    removal, and the host is as it was if those commands do not change
    it. *)
Theorem empty_selection_issues_no_removal (p : procedure)
        (grace : datetime.timedelta) (aggressive : bool) (s s' : state W)
        (Hsel : to_prune spawn settle utcnow localoffset parse PY3 p grace aggressive s
                = (Ok ∅, s')) :
  prune spawn settle utcnow localoffset parse PY3 p grace aggressive s = (Ok [], s')
  /\ exists evs,
       trace s' = trace s ++ evs
       /\ Forall (fun e => removes e = false) evs
       /\ ((forall w cmd f, is_removal cmd = false -> settle w cmd f = w) ->
           host s' = host s).
Proof.
  split.
  - destruct p; simpl in *;
      unfold prune_containers, prune_images, prune_networks, prune_volumes;
      unfold bind; rewrite Hsel;
      unfold remove_containers, remove_images, remove_networks, remove_volumes;
      by rewrite decide_True.
  - pose proof (reads_only_to_prune spawn settle utcnow localoffset parse PY3
                  p grace aggressive s) as H.
    by rewrite Hsel in H.
Qed.

End Driver.

Lemma empty_selection_issues_no_removal_witness :
  let s := Example.start Example.idle in
  let s' := mkState Example.idle [Exec "docker container ls -q --no-trunc";
                                  Exec "docker container ls -a -q --no-trunc"] in
  to_prune Example.spawn Example.settle Example.utcnow Example.localoffset Example.parse
           true Containers Example.day false s = (Ok ∅, s')
  /\ prune Example.spawn Example.settle Example.utcnow Example.localoffset Example.parse
           true Containers Example.day false s = (Ok [], s').
Proof.
  assert (Hsel : to_prune Example.spawn Example.settle Example.utcnow Example.localoffset
                          Example.parse true Containers Example.day false
                          (Example.start Example.idle)
                 = (Ok ∅, mkState Example.idle
                                  [Exec "docker container ls -q --no-trunc";
                                   Exec "docker container ls -a -q --no-trunc"])).
  { vm_compute. reflexivity. }
  split; [exact Hsel|].
  exact (proj1 (empty_selection_issues_no_removal
                  Example.spawn Example.settle Example.utcnow Example.localoffset
                  Example.parse true Containers Example.day false _ _ Hsel)).
Defined.


(** ** Lineages *)

Section Lineage.

Variable image_data : gmap string ImageData.t.

Lemma walk_more_fuel (fuel fuel' : nat) (i : ImageData.t) (line : list string) :
  walk fuel image_data i line <> Diverge -> (fuel <= fuel')%nat ->
  walk fuel' image_data i line = walk fuel image_data i line.
Proof.
  revert fuel' i line. induction fuel as [|fuel IH]; intros fuel' i line Hnd Hle.
  - destruct fuel'; simpl in *; destruct (truthy (ImageData.parent i)); done.
  - destruct fuel' as [|fuel']; [lia|]. simpl in *.
    destruct (truthy (ImageData.parent i)); [|done].
    destruct (image_data !! ImageData.parent i) as [i'|]; [|done].
    apply IH; [done|lia].
Qed.

Lemma walk_ends (fuel : nat) (i : ImageData.t) (line : list string) :
  walk fuel image_data i line <> Diverge <->
  exists n, (n <= fuel)%nat /\ ends_in image_data n i.
Proof.
  revert i line. induction fuel as [|fuel IH]; intros i line; simpl.
  - destruct (truthy (ImageData.parent i)) eqn:Ht; split.
    + done.
    + intros (n & Hn & He). inversion He; subst; [congruence|lia|lia].
    + intros _. exists 0%nat. split; [lia|by constructor].
    + done.
  - destruct (truthy (ImageData.parent i)) eqn:Ht.
    + destruct (image_data !! ImageData.parent i) as [i'|] eqn:Hl.
      * rewrite IH. split.
        -- intros (n & Hn & He). exists (S n). split; [lia|]. by eapply ends_step.
        -- intros (n & Hn & He). inversion He; subst; [congruence|congruence|].
           match goal with H : image_data !! _ = Some ?j |- _ =>
             rewrite Hl in H; injection H as <- end.
           eexists. split; [|eassumption]. lia.
      * split; [|done]. intros _. exists 1%nat. split; [lia|by constructor].
    + split; [|done]. intros _. exists 0%nat. split; [lia|by constructor].
Qed.

Lemma ends_in_unique (n n' : nat) (i : ImageData.t) :
  ends_in image_data n i -> ends_in image_data n' i -> n = n'.
Proof.
  intros H. revert n'. induction H as [i Ht|i Ht Hl|n i i' Ht Hl H IH]; intros n' H';
    inversion H'; subst; try congruence.
  f_equal. apply IH.
  match goal with H : image_data !! _ = Some ?j |- _ =>
    rewrite Hl in H; injection H as <- end. done.
Qed.

(** The parents looked up on the way are pairwise different keys of the
    dictionary: a key met twice would be met for ever. *)
Lemma ends_in_keys (n : nat) (i : ImageData.t) :
  ends_in image_data n i ->
  exists ks : list string,
    (n <= S (length ks))%nat /\ NoDup ks
    /\ (forall k, k ∈ ks ->
          exists j m, image_data !! k = Some j /\ ends_in image_data m j /\ (m < n)%nat).
Proof.
  induction 1 as [i Ht|i Ht Hl|n i i' Ht Hl H (ks & Hlen & Hnd & Hks)].
  - exists []. split_and!; [lia|constructor|]. intros k Hk. by apply elem_of_nil in Hk.
  - exists []. split_and!; [simpl; lia|constructor|]. intros k Hk. by apply elem_of_nil in Hk.
  - exists (ImageData.parent i :: ks). split_and!.
    + simpl. lia.
    + constructor; [|done]. intros Hin.
      destruct (Hks _ Hin) as (j & m & Hj & Hm & Hlt).
      rewrite Hl in Hj. injection Hj as <-.
      pose proof (ends_in_unique _ _ _ H Hm). lia.
    + intros k Hk. apply elem_of_cons in Hk as [->|Hk].
      * exists i', n. split_and!; [done|done|lia].
      * destruct (Hks _ Hk) as (j & m & Hj & Hm & Hlt).
        exists j, m. split_and!; [done|done|lia].
Qed.

Lemma ends_in_bound (n : nat) (i : ImageData.t) :
  ends_in image_data n i -> (n <= S (size image_data))%nat.
Proof.
  intros H. destruct (ends_in_keys n i H) as (ks & Hlen & Hnd & Hks).
  assert (Hsub : (list_to_set ks : gset string) ⊆ dom image_data).
  { intros k Hk. apply elem_of_list_to_set in Hk.
    destruct (Hks k Hk) as (j & m & Hj & _). apply elem_of_dom. by exists j. }
  apply subseteq_size in Hsub.
  rewrite size_list_to_set in Hsub by done. rewrite size_dom in Hsub. lia.
Qed.

(** The fuel of [lineage] is enough: a walk that leaves the loop with some
    fuel leaves it with the fuel [lineage] gives, with the same outcome, so
    [Diverge] is the outcome of [lineage] only for a loop that never ends. *)
Lemma walk_fuel_enough (fuel : nat) (i : ImageData.t) (line : list string) :
  walk fuel image_data i line <> Diverge ->
  walk (S (size image_data)) image_data i line = walk fuel image_data i line.
Proof.
  intros Hnd. destruct (proj1 (walk_ends fuel i line) Hnd) as (n & Hn & He).
  pose proof (ends_in_bound n i He) as Hb.
  assert (Hn' : walk n image_data i line <> Diverge).
  { apply walk_ends. exists n. split; [lia|done]. }
  rewrite (walk_more_fuel n (S (size image_data)) i line Hn' Hb).
  symmetry. by apply walk_more_fuel.
Qed.

Lemma rooted_walk (k : string) (i : ImageData.t) (line : list string) :
  rooted image_data k -> image_data !! k = Some i ->
  exists fuel line', walk fuel image_data i line = Ok line'.
Proof.
  intros H. revert i line.
  induction H as [k i0 Hk Ht|k i0 Hk Ht H IH]; intros i line Hi;
    rewrite Hk in Hi; injection Hi as <-.
  - exists 0%nat, line. simpl. by rewrite Ht.
  - inversion H as [? i1 Hk1 _|? i1 Hk1 _ _]; subst.
    + destruct (IH i1 (line ++ [ImageData.id i1]) Hk1) as (fuel & line' & Hw).
      exists (S fuel), line'. simpl. by rewrite Ht, Hk1.
    + destruct (IH i1 (line ++ [ImageData.id i1]) Hk1) as (fuel & line' & Hw).
      exists (S fuel), line'. simpl. by rewrite Ht, Hk1.
Qed.

Lemma rooted_lineage (k : string) :
  rooted image_data k -> exists line, lineage image_data k = Ok line.
Proof.
  intros H. unfold lineage.
  assert (exists i, image_data !! k = Some i) as [i Hi] by (inversion H; eauto).
  rewrite Hi.
  destruct (rooted_walk k i [ImageData.id i] H Hi) as (fuel & line' & Hw).
  exists line'. rewrite (walk_fuel_enough fuel); [done|]. by rewrite Hw.
Qed.

Hypothesis Hkeyed : keyed image_data.

(** What a finished walk has added to the lineage: the ancestors. *)
Lemma walk_collects (fuel : nat) (i : ImageData.t) (line line' : list string) :
  walk fuel image_data i line = Ok line' ->
  forall x, x ∈ line' <->
            x ∈ line \/ (truthy (ImageData.parent i) = true
                         /\ rtc (parent_link image_data) (ImageData.parent i) x).
Proof.
  revert i line. induction fuel as [|fuel IH]; intros i line; simpl.
  - destruct (truthy (ImageData.parent i)); [done|].
    intros [= <-] x. split; [by left|]. by intros [?|[? _]].
  - destruct (truthy (ImageData.parent i)) eqn:Ht.
    + destruct (image_data !! ImageData.parent i) as [i'|] eqn:Hl; [|done].
      intros Hw x. rewrite (IH _ _ Hw x), elem_of_app, list_elem_of_singleton.
      rewrite (Hkeyed _ _ Hl). split.
      * intros [[Hx| ->]|[Ht' Hr]]; [by left| right; by split |].
        right. split; [done|]. eapply rtc_l; [|exact Hr]. by exists i'.
      * intros [Hx|[_ Hr]]; [by left; left|].
        apply rtc_inv in Hr as [<-|(y & (j & Hj & <- & Hty) & Hr)]; [by left; right|].
        rewrite Hl in Hj. injection Hj as <-. right. by split.
    + intros [= <-] x. split; [by left|]. by intros [?|[? _]].
Qed.

Lemma lineage_collects (k : string) (line : list string) :
  lineage image_data k = Ok line ->
  forall x, x ∈ line <-> rtc (parent_link image_data) k x.
Proof.
  unfold lineage. destruct (image_data !! k) as [i|] eqn:Hk; [|done].
  intros Hw x. rewrite (walk_collects _ _ _ _ Hw x), list_elem_of_singleton.
  rewrite (Hkeyed _ _ Hk). split.
  - intros [->|[Ht Hr]]; [done|]. eapply rtc_l; [|exact Hr]. by exists i.
  - intros Hr. apply rtc_inv in Hr as [<-|(y & (j & Hj & <- & Hty) & Hr)]; [by left|].
    rewrite Hk in Hj. injection Hj as <-. right. by split.
Qed.

End Lineage.

Lemma res_map_Ok {A B} (f : A -> res B) (l : list A) (ys : list B) :
  res_map f l = Ok ys -> Forall2 (fun a y => f a = Ok y) l ys.
Proof.
  revert ys. induction l as [|a l IH]; intros ys; simpl.
  - intros [= <-]. constructor.
  - destruct (f a) as [y| |] eqn:Hy; simpl; [|done|done].
    destruct (res_map f l) as [ys'| |]; simpl; [|done|done].
    intros [= <-]. constructor; [done|]. by apply IH.
Qed.

Lemma res_map_total {A B} (f : A -> res B) (l : list A) :
  Forall (fun a => exists y, f a = Ok y) l -> exists ys, res_map f l = Ok ys.
Proof.
  induction 1 as [|a l [y Hy] _ [ys Hys]]; simpl; [by eexists|].
  rewrite Hy, Hys. by eexists.
Qed.

Lemma Forall2_elem_of_r {A B} (R : A -> B -> Prop) (l : list A) (ys : list B) (y : B) :
  Forall2 R l ys -> y ∈ ys -> exists a, a ∈ l /\ R a y.
Proof.
  induction 1 as [|a b l ys Hab _ IH]; intros Hy.
  - by apply elem_of_nil in Hy.
  - apply elem_of_cons in Hy as [->|Hy].
    + exists a. split; [apply list_elem_of_here|done].
    + destruct (IH Hy) as (a' & Ha' & HR). exists a'. split; [by apply list_elem_of_further|done].
Qed.

Lemma Forall2_elem_of_l {A B} (R : A -> B -> Prop) (l : list A) (ys : list B) (a : A) :
  Forall2 R l ys -> a ∈ l -> exists y, y ∈ ys /\ R a y.
Proof.
  induction 1 as [|a' b l ys Hab _ IH]; intros Ha.
  - by apply elem_of_nil in Ha.
  - apply elem_of_cons in Ha as [->|Ha].
    + exists b. split; [apply list_elem_of_here|done].
    + destruct (IH Ha) as (y & Hy & HR). exists y. split; [by apply list_elem_of_further|done].
Qed.

Lemma image_dict_keyed (records : list ImageData.t) : keyed (image_dict records).
Proof.
  unfold image_dict.
  assert (H : forall m : gmap string ImageData.t,
             keyed m -> keyed (foldl (fun m i => <[ImageData.id i := i]> m) m records)).
  { induction records as [|r records IH]; intros m Hm; simpl; [done|].
    apply IH. intros k i. rewrite lookup_insert. case_decide; [|by apply Hm].
    intros [= <-]. done. }
  apply H. intros k i Hk. by rewrite lookup_empty in Hk.
Qed.

Lemma elem_of_values (image_data : gmap string ImageData.t) (i : ImageData.t) :
  i ∈ values image_data <-> exists k, image_data !! k = Some i.
Proof.
  unfold values. rewrite list_elem_of_fmap. split.
  - intros ([k j] & -> & H). exists k. by apply elem_of_map_to_list in H.
  - intros [k Hk]. exists (k, i). split; [done|]. by apply elem_of_map_to_list.
Qed.

Section Used.

Variable image_data : gmap string ImageData.t.
Hypothesis Hkeyed : keyed image_data.

Lemma all_used_collects (used U : gset string) :
  all_used image_data used = Ok U ->
  forall x, x ∈ U <-> exists u, u ∈ used /\ rtc (parent_link image_data) u x.
Proof.
  unfold all_used.
  destruct (res_map (lineage image_data) (elements used)) as [lineages| |] eqn:Hm;
    simpl; [|done|done].
  intros [= <-] x. apply res_map_Ok in Hm.
  rewrite elem_of_list_to_set, list_elem_of_In, in_concat. split.
  - intros (line & Hline & Hx). apply list_elem_of_In in Hline, Hx.
    destruct (Forall2_elem_of_r _ _ _ _ Hm Hline) as (u & Hu & Hl).
    exists u. split; [by apply elem_of_elements|].
    by apply (lineage_collects image_data Hkeyed u line Hl).
  - intros (u & Hu & Hr). apply elem_of_elements in Hu.
    destruct (Forall2_elem_of_l _ _ _ _ Hm Hu) as (line & Hline & Hl).
    exists line. split; [by apply list_elem_of_In|].
    apply list_elem_of_In. by apply (lineage_collects image_data Hkeyed u line Hl).
Qed.

Lemma all_used_total (used : gset string) :
  (forall u, u ∈ used -> rooted image_data u) ->
  exists U, all_used image_data used = Ok U.
Proof.
  intros Hr. unfold all_used.
  destruct (res_map_total (lineage image_data) (elements used)) as [ls Hls].
  { apply Forall_forall. intros u Hu. apply rooted_lineage, Hr.
    by apply elem_of_elements. }
  rewrite Hls. by eexists.
Qed.

End Used.

Section Images.

Context {W : Type}.
Variable utcnow : W -> Z.
Variable localoffset : W -> Z.
Variable parse : string -> res datetime.t.

(** The selection of [prune_images] on records: for every dictionary of
    image records filed under their identifiers, on which the lineages of
    the used images end and whose timestamps [older_than] answers for, the
    selection is made of exactly the identifiers of old records that are
    no ancestor of a used image, nor a used image, and, unless the mode is
    aggressive, whose tag field is empty. *)
Lemma select_images_exact (grace : datetime.timedelta) (aggressive : bool)
      (used : gset string) (image_data : gmap string ImageData.t) (s : state W) :
  keyed image_data ->
  (forall u, u ∈ used -> rooted image_data u) ->
  Forall (fun i => answers parse (utcnow (host s)) (localoffset (host s))
                           grace (ImageData.created i)) (values image_data) ->
  exists S : gset string,
    select_images utcnow localoffset parse grace aggressive used image_data s = (Ok S, s)
    /\ (forall x,
           x ∈ S <->
           (exists i, image_data !! x = Some i
                      /\ older_than_at parse (utcnow (host s)) (localoffset (host s))
                                       (ImageData.created i) grace = Ok true)
           /\ ~ (exists u, u ∈ used /\ rtc (parent_link image_data) u x)
           /\ (aggressive = true
               \/ exists i, image_data !! x = Some i /\ ImageData.repo_tags i = ""%string)).
Proof.
  intros Hkeyed Hrooted Htimes.
  destruct (all_used_total image_data used Hrooted) as [U HU].
  pose proof (all_used_collects image_data Hkeyed used U HU) as HUx.
  unfold select_images, bind. unfold lift at 1. rewrite HU.
  rewrite (filter_M_older_than utcnow localoffset parse ImageData.created grace
             (values image_data) s Htimes).
  unfold ret. eexists. split; [reflexivity|].
  assert (Hold : forall x,
    x ∈ (list_to_set (ImageData.id <$>
           filter (fun i => old_at parse (utcnow (host s)) (localoffset (host s)) grace
                                   (ImageData.created i) = true) (values image_data))
         : gset string)
    <-> exists i, image_data !! x = Some i
                  /\ older_than_at parse (utcnow (host s)) (localoffset (host s))
                                   (ImageData.created i) grace = Ok true).
  { intros x. rewrite elem_of_list_to_set, list_elem_of_fmap.
    setoid_rewrite list_elem_of_filter. setoid_rewrite old_at_true.
    setoid_rewrite elem_of_values. split.
    - intros (i & -> & Hi & k & Hk). exists i. split; [|done].
      by rewrite (Hkeyed _ _ Hk).
    - intros (i & Hi & Ho). exists i. split_and!; [by rewrite (Hkeyed _ _ Hi)|done|].
      by exists x. }
  assert (Huntagged : forall x,
    x ∈ all_untagged image_data
    <-> exists i, image_data !! x = Some i /\ ImageData.repo_tags i = ""%string).
  { intros x. unfold all_untagged. rewrite elem_of_list_to_set, list_elem_of_fmap.
    setoid_rewrite list_elem_of_filter. setoid_rewrite elem_of_values.
    unfold truthy. setoid_rewrite negb_involutive. setoid_rewrite String.eqb_eq. split.
    - intros (i & -> & Hi & k & Hk). exists i. split; [|done].
      by rewrite (Hkeyed _ _ Hk).
    - intros (i & Hi & Ho). exists i. split_and!; [by rewrite (Hkeyed _ _ Hi)|done|].
      by exists x. }
  intros x. destruct aggressive; simpl.
  - rewrite elem_of_difference, Hold, HUx. split.
    + intros [? ?]. split_and!; [done|done|by left].
    + intros (? & ? & _). by split.
  - rewrite elem_of_intersection, elem_of_difference, Hold, HUx, Huntagged. split.
    + intros [[? ?] ?]. split_and!; [done|done|by right].
    + intros (? & ? & [?|?]); [done|]. by split.
Qed.

End Images.

(** C2: the three images of the example as [docker image inspect] prints them,
    [a] without tags and used by a container, [b] without tags, old, child
    of [a], and [c] tagged [app:latest] and old.  The tag field of an image
    without tags is the text of two brackets, which is not an empty string:
    no image counts as untagged, the selection that is not aggressive is
    empty instead of [b] alone, and no [docker rmi] is issued.  The
    aggressive selection is [b] and [c].  On records whose tag field is empty
    for no tag, the selections are [b], and [b] and [c]. *)
Theorem prune_images_bracketed_tags (PY3 : bool) :
  let s := Example.start Example.three_images in
  let to_prune := images_to_prune Example.spawn Example.settle Example.utcnow
                                  Example.localoffset Example.parse PY3 Example.day in
  let select := select_images Example.utcnow Example.localoffset Example.parse Example.day in
  let records := image_dict [Example.image_a; Example.image_b; Example.image_c] in
  fst (to_prune false s) = Ok ∅
  /\ fst (prune_images Example.spawn Example.settle Example.utcnow Example.localoffset
                       Example.parse PY3 Example.day false s) = Ok []
  /\ Forall (fun e => removes e = false)
            (trace (snd (prune_images Example.spawn Example.settle Example.utcnow
                                      Example.localoffset Example.parse PY3 Example.day
                                      false s)))
  /\ fst (to_prune true s) = Ok {[ "b"%string; "c"%string ]}
  /\ fst (select false {[ "a"%string ]} records s) = Ok {[ "b"%string ]}
  /\ fst (select true {[ "a"%string ]} records s) = Ok {[ "b"%string; "c"%string ]}.
Proof.
  destruct PY3; split_and!; try (vm_compute; reflexivity);
    vm_compute; repeat constructor.
Qed.

(** ** More on [Duration] *)

Lemma int_go_nonneg (acc : Z) (d : string) :
  0 <= acc -> all_digits d = true -> 0 <= Py.int_go acc d.
Proof.
  revert acc. induction d as [|c d IH]; intros acc Hacc Hd; simpl in *; [done|].
  apply andb_true_iff in Hd as [Hc Hd]. apply IH; [|done].
  unfold Py.isdigit in Hc. apply andb_true_iff in Hc as [Hlo _].
  apply N.leb_le in Hlo. lia.
Qed.

Lemma timedelta_of_us_Ok (us : Z) (td : datetime.timedelta) :
  datetime.timedelta_of_us us = Ok td ->
  td = us /\ - datetime.max_delta_days <= us / datetime.us_per_day <= datetime.max_delta_days.
Proof.
  unfold datetime.timedelta_of_us.
  destruct (_ && _) eqn:Hr; [|done]. intros [= <-].
  apply andb_true_iff in Hr as [H1 H2]. apply Z.leb_le in H1, H2. done.
Qed.

(** X1: [Duration] raises its own [ValueError] for exactly the texts that do not
    start with digits followed by [m] or [h]. *)
Theorem Duration_refuses_exactly (s : string) :
  Duration s = Raise (ValueError ("Invalid duration format: " +:+ s))
  <-> ~ (exists d u rest, s = d +:+ String u rest /\ d <> EmptyString
                          /\ all_digits d = true /\ is_unit u = true).
Proof.
  split.
  - intros Hr (d & u & rest & -> & Hne & Hd & Hu).
    unfold Duration in Hr. rewrite Duration_match_prefix in Hr by done.
    unfold datetime.timedelta_minutes, datetime.timedelta_hours,
      datetime.timedelta_of_us in Hr.
    destruct (Ascii.eqb u "m");
      match type of Hr with context [if ?b then _ else _] => destruct b end; done.
  - intros Hno. unfold Duration.
    destruct (Duration_match s) as [[d u]|] eqn:Hm; [|done].
    exfalso. apply Hno. destruct (Duration_match_shape s d u Hm) as (rest & H).
    by exists d, u, rest.
Qed.

(** X2: what [Duration] returns: the number read in base ten from the leading
    digits, in minutes for [m] and in hours for [h]; it is never negative and
    never more than 999999999 days. *)
Theorem Duration_value (s : string) (td : datetime.timedelta)
        (Hok : Duration s = Ok td) :
  exists d u rest,
    s = d +:+ String u rest /\ d <> EmptyString
    /\ all_digits d = true /\ is_unit u = true
    /\ td = Py.int d * (if Ascii.eqb u "m" then datetime.us_per_minute
                        else datetime.us_per_hour)
    /\ 0 <= td
    /\ td / datetime.us_per_day <= datetime.max_delta_days.
Proof.
  unfold Duration in Hok.
  destruct (Duration_match s) as [[d u]|] eqn:Hm; [|done].
  destruct (Duration_match_shape s d u Hm) as (rest & -> & Hne & Hd & Hu).
  exists d, u, rest.
  pose proof (int_go_nonneg 0 d (Z.le_refl 0) Hd) as Hn. fold (Py.int d) in Hn.
  assert (Hv : td = Py.int d * (if Ascii.eqb u "m" then datetime.us_per_minute
                                else datetime.us_per_hour)
               /\ td / datetime.us_per_day <= datetime.max_delta_days).
  { destruct (Ascii.eqb u "m");
      unfold datetime.timedelta_minutes, datetime.timedelta_hours in Hok;
      apply timedelta_of_us_Ok in Hok as [-> [_ Hhi]]; done. }
  destruct Hv as [Hv Hhi]. split_and!; try done.
  rewrite Hv. destruct (Ascii.eqb u "m");
    unfold datetime.us_per_minute, datetime.us_per_hour; lia.
Qed.

Lemma Duration_value_witness :
  Duration "90m" = Ok 5400000000
  /\ exists d u rest, "90m"%string = d +:+ String u rest /\ d <> EmptyString.
Proof.
  split; [reflexivity|].
  destruct (Duration_value "90m" 5400000000 eq_refl)
    as (d & u & rest & Hs & Hne & _).
  by exists d, u, rest.
Defined.

(** ** More on [older_than] *)

(** X3: a shorter grace period marks at least as much as old: what is older than
    [age] is older than any shorter duration that is not negative. *)
Theorem older_than_shorter_grace (parse : string -> res datetime.t) (utc loc : Z)
        (ts : string) (age age' : datetime.timedelta)
        (Hle : 0 <= age' <= age)
        (Hold : older_than_at parse utc loc ts age = Ok true) :
  older_than_at parse utc loc ts age' = Ok true.
Proof.
  unfold older_than_at in *.
  destruct (parse_timestamp parse ts) as [t| |]; simpl in *; [|done|done].
  unfold before_cutoff, datetime.now in *.
  destruct (datetime.representable (utc + default loc (datetime.tzinfo t))) eqn:Hnow;
    simpl in *; [|done].
  apply representable_true in Hnow.
  unfold datetime.sub in *. simpl in *.
  destruct (datetime.representable (utc + default loc (datetime.tzinfo t) - age)) eqn:Hcut;
    simpl in *; [|done].
  apply representable_true in Hcut.
  assert (Hcut' : datetime.representable (utc + default loc (datetime.tzinfo t) - age')
                  = true) by (apply representable_true; lia).
  rewrite Hcut'. simpl. unfold datetime.lt in *. simpl in *.
  destruct (datetime.tzinfo t) as [off|]; simpl in *;
    injection Hold as Hold; f_equal; apply Z.ltb_lt in Hold; apply Z.ltb_lt; lia.
Qed.

Lemma older_than_shorter_grace_witness :
  0 <= Example.hour <= Example.day
  /\ older_than_at Example.parse (Example.utcnow Example.idle) 0
                   "2018-01-01T00:00:00Z" Example.hour = Ok true.
Proof.
  assert (H : 0 <= Example.hour <= Example.day) by (split; by vm_compute).
  split; [exact H|].
  exact (older_than_shorter_grace Example.parse (Example.utcnow Example.idle) 0
           "2018-01-01T00:00:00Z" Example.day Example.hour H eq_refl).
Defined.

(** X4: only a [ValueError] of the first parse is caught: any other exception is
    the outcome of [older_than], and the shortened text is not parsed.  When
    a [ValueError] is caught for a text without a space, the text parsed next
    is the empty string. *)
Theorem older_than_catches_ValueError_only (parse : string -> res datetime.t)
        (utc loc : Z) (ts : string) (age : datetime.timedelta) (e : exn)
        (Hfirst : parse ts = Raise e) :
  ((forall msg, e <> ValueError msg) ->
   older_than_at parse utc loc ts age = Raise e)
  /\ ((exists msg, e = ValueError msg) -> one_word ts ->
      parse_timestamp parse ts = parse EmptyString).
Proof.
  split.
  - intros Hne. unfold older_than_at, parse_timestamp. rewrite Hfirst.
    destruct e; try done. by destruct (Hne msg).
  - intros [msg ->] Hw. unfold parse_timestamp. rewrite Hfirst.
    by rewrite (rpartition0_no_sep " " ts Hw).
Qed.

Lemma older_than_catches_ValueError_only_witness :
  older_than_at (fun _ => Raise OverflowError) 0 0 "2018-01-01T00:00:00Z" Example.day
  = Raise OverflowError.
Proof.
  apply (proj1 (older_than_catches_ValueError_only
                  (fun _ => Raise OverflowError) 0 0 "2018-01-01T00:00:00Z"
                  Example.day OverflowError eq_refl)).
  intros msg. discriminate.
Defined.

(** ** More on [run_command] *)

Section ExecutorMore.

Context {W : Type}.
Variable spawn : W -> string -> process.
Variable settle : W -> string -> fate -> W.

Lemma completed_unchecked (cmd out err : string) (rc : Z) (s : state W) :
  completed false cmd out err rc s = (Ok (mkPResponse out err rc), s).
Proof. unfold completed. by rewrite andb_false_r. Qed.

(** X5: without [check], [run_command] never raises [CalledProcessError]: a
    command that ends within its timeout gives back its own output and its
    own code, zero or not, on both branches. *)
Theorem run_command_unchecked (PY3 : bool) (cmd : string) (timeout : option nat)
        (d : nat) (s : state W)
        (Hends : lifetime (spawn (host s) cmd) = Some d)
        (Hintime : match timeout with Some secs => (d <= secs)%nat | None => True end) :
  fst (run_command spawn settle PY3 cmd timeout false s)
  = Ok (mkPResponse (p_stdout (spawn (host s) cmd)) (p_stderr (spawn (host s) cmd))
                    (p_returncode (spawn (host s) cmd)))
  /\ (forall cmd' timeout' s' rc c o,
         fst (run_command spawn settle PY3 cmd' timeout' false s')
         <> Raise (CalledProcessError rc c o)).
Proof.
  split.
  - assert (Hout : forall secs, timeout = Some secs ->
                                outlives secs (spawn (host s) cmd) = false).
    { intros secs ->. unfold outlives. rewrite Hends. apply Nat.ltb_ge. lia. }
    unfold run_command. destruct PY3.
    + unfold run_command_py3. destruct timeout as [secs|].
      * rewrite (Hout secs eq_refl), Hends. by rewrite completed_unchecked.
      * rewrite Hends. by rewrite completed_unchecked.
    + unfold run_command_py2. destruct timeout as [secs|]; simpl.
      * rewrite (Hout secs eq_refl), andb_false_r, Hends.
        by rewrite completed_unchecked.
      * rewrite Hends. by rewrite completed_unchecked.
  - intros cmd' timeout' s' rc c o. unfold run_command. destruct PY3.
    + unfold run_command_py3.
      destruct (match timeout' with Some secs => outlives secs _ | None => false end);
        [done|].
      destruct (lifetime (spawn (host s') cmd')); [|done].
      by rewrite completed_unchecked.
    + unfold run_command_py2.
      destruct (_ && _).
      * by rewrite completed_unchecked.
      * destruct (lifetime (spawn (host s') cmd')); [|done].
        by rewrite completed_unchecked.
Qed.

(** X6: on the Python 2 branch a timeout of [None] and a timeout of 0 seconds are
    the same thing, no timer: the process is given all the time it takes, no
    signal is ever sent to it, and a process that never ends is awaited for
    ever. *)
Theorem run_command_py2_without_timer (cmd : string) (check : bool) (s : state W) :
  run_command_py2 spawn settle cmd None check s
  = run_command_py2 spawn settle cmd (Some 0%nat) check s
  /\ (exists evs,
        trace (snd (run_command_py2 spawn settle cmd None check s)) = trace s ++ evs
        /\ Forall (fun e => forall sig, e <> Kill sig) evs)
  /\ (lifetime (spawn (host s) cmd) = None ->
      fst (run_command_py2 spawn settle cmd None check s) = Diverge).
Proof.
  split_and!.
  - reflexivity.
  - unfold run_command_py2. simpl.
    destruct (lifetime (spawn (host s) cmd)).
    + exists [Exec cmd; SetAlarm 0; SetAlarm 0]. split.
      * unfold completed. destruct (_ && _); simpl; by rewrite <- app_assoc.
      * by repeat constructor.
    + exists [Exec cmd; SetAlarm 0]. split; [done|by repeat constructor].
  - intros Hl. unfold run_command_py2. simpl. by rewrite Hl.
Qed.


End ExecutorMore.

Lemma run_command_unchecked_witness :
  let s := Example.start Example.broken in
  let cmd := "docker container ls -q --no-trunc"%string in
  lifetime (Example.spawn (host s) cmd) = Some 1%nat
  /\ fst (run_command Example.spawn Example.settle true cmd (Some 30%nat) false s)
     = Ok (mkPResponse "" "error" 1).
Proof.
  split; [reflexivity|].
  exact (proj1 (run_command_unchecked Example.spawn Example.settle true
                  "docker container ls -q --no-trunc" (Some 30%nat) 1
                  (Example.start Example.broken) eq_refl
                  (proj1 (Nat.leb_le 1 30) eq_refl))).
Defined.


(** ** Decoding the output of docker *)

Lemma rev_app_app (x a b : string) :
  String.rev_app x a +:+ b = String.rev_app x (a +:+ b).
Proof. revert a. induction x as [|c x IH]; intros a; simpl; [done|]. by rewrite IH. Qed.

Lemma rev_rev_app (x a : string) : String.rev (String.rev_app x a) = String.rev a +:+ x.
Proof.
  unfold String.rev. revert a. induction x as [|c x IH]; intros a; simpl.
  - by rewrite app_empty_r.
  - rewrite IH. cbn [String.rev_app]. rewrite !rev_app_app. reflexivity.
Qed.

Lemma rev_push (c : ascii) (cur s : string) :
  String.rev (String c cur) +:+ s = String.rev cur +:+ String c s.
Proof. unfold String.rev. cbn [String.rev_app]. rewrite !rev_app_app. reflexivity. Qed.

Lemma split_go_free (sep : ascii) (k : nat) (cur s : string) :
  free_of sep s -> Py.split_go sep k cur s = [String.rev cur +:+ s].
Proof.
  revert k cur. induction s as [|c s IH]; intros k cur Hs; simpl.
  - by rewrite app_empty_r.
  - inversion Hs as [|? ? Hc Hs']; subst. destruct k as [|k]; [done|].
    destruct (Ascii.eqb_spec c sep) as [->|_]; [done|].
    rewrite (IH (S k) (String c cur) Hs'). f_equal. apply rev_push.
Qed.

Lemma split_go_cut (sep : ascii) (k : nat) (cur a rest : string) :
  free_of sep a ->
  Py.split_go sep (S k) cur (a +:+ String sep rest)
  = (String.rev cur +:+ a) :: Py.split_go sep k EmptyString rest.
Proof.
  revert cur. induction a as [|c a IH]; intros cur Ha.
  - simpl. rewrite Ascii.eqb_refl. by rewrite app_empty_r.
  - inversion Ha as [|? ? Hc Ha']; subst. rewrite app_cons. simpl.
    destruct (Ascii.eqb_spec c sep) as [->|_]; [done|].
    rewrite (IH (String c cur) Ha'). f_equal. apply rev_push.
Qed.

Lemma split_cut (sep : ascii) (k : nat) (a rest : string) :
  free_of sep a ->
  Py.split sep (S k) (a +:+ String sep rest) = a :: Py.split sep k rest.
Proof. intros Ha. unfold Py.split. by rewrite split_go_cut. Qed.

Lemma split_zero (sep : ascii) (s : string) : Py.split sep 0 s = [s].
Proof. unfold Py.split. by destruct s. Qed.

Lemma split_go_length (sep : ascii) (k : nat) (cur s : string) :
  length (Py.split_go sep k cur s) = S (Nat.min k (count_char sep s)).
Proof.
  revert k cur. induction s as [|c s IH]; intros k cur; simpl.
  - by rewrite Nat.min_0_r.
  - destruct k as [|k]; [done|].
    destruct (Ascii.eqb c sep); simpl; rewrite IH; done.
Qed.

(** X9: the lines of the inspections decode to the fields they were made of:
    fields without a bar come back as they were, and the last field keeps
    whatever bars it has, for the cuts are counted from the left. *)
Theorem inspect_line_decodes (a b c d : string)
        (Ha : free_of "|" a) (Hb : free_of "|" b) (Hc : free_of "|" c) :
  ImageData.of_fields (Py.split "|" 3 (a +:+ "|" +:+ b +:+ "|" +:+ c +:+ "|" +:+ d))
  = Ok (ImageData.init a b c d)
  /\ NetworkData.of_fields (Py.split "|" 3 (a +:+ "|" +:+ b +:+ "|" +:+ c +:+ "|" +:+ d))
     = Ok (NetworkData.init a b c d)
  /\ ContainerData.of_fields (Py.split "|" 1 (a +:+ "|" +:+ d)) = Ok (ContainerData.mk a d)
  /\ VolumeData.of_fields (Py.split "|" 1 (a +:+ "|" +:+ d)) = Ok (VolumeData.mk a d).
Proof.
  assert (H4 : Py.split "|" 3 (a +:+ "|" +:+ b +:+ "|" +:+ c +:+ "|" +:+ d) = [a; b; c; d]).
  { change (Py.split "|" 3 (a +:+ String "|" (b +:+ String "|" (c +:+ String "|" d)))
            = [a; b; c; d]).
    by rewrite !split_cut, split_zero. }
  assert (H2 : Py.split "|" 1 (a +:+ "|" +:+ d) = [a; d]).
  { change (Py.split "|" 1 (a +:+ String "|" d) = [a; d]).
    by rewrite split_cut, split_zero. }
  rewrite H4, H2. by split_and!.
Qed.

Lemma inspect_line_decodes_witness :
  free_of "|" "sha256:b" /\ free_of "|" "sha256:a" /\ free_of "|" "2018-01-01T00:00:00Z"
  /\ ImageData.of_fields (Py.split "|" 3 "sha256:b|sha256:a|2018-01-01T00:00:00Z|[x|y]")
     = Ok (ImageData.init "sha256:b" "sha256:a" "2018-01-01T00:00:00Z" "[x|y]").
Proof.
  assert (Ha : free_of "|" "sha256:b") by (repeat constructor; discriminate).
  assert (Hb : free_of "|" "sha256:a") by (repeat constructor; discriminate).
  assert (Hc : free_of "|" "2018-01-01T00:00:00Z") by (repeat constructor; discriminate).
  split_and!; [exact Ha|exact Hb|exact Hc|].
  exact (proj1 (inspect_line_decodes "sha256:b" "sha256:a" "2018-01-01T00:00:00Z"
                  "[x|y]" Ha Hb Hc)).
Defined.

(** X10: a line is refused with [TypeError] exactly when it has too few bars for
    the record: fewer than three for an image or a network, none for a
    container or a volume. *)
Theorem inspect_line_refused (line : string) :
  (ImageData.of_fields (Py.split "|" 3 line) = Raise TypeError
   <-> (count_char "|" line < 3)%nat)
  /\ (NetworkData.of_fields (Py.split "|" 3 line) = Raise TypeError
      <-> (count_char "|" line < 3)%nat)
  /\ (ContainerData.of_fields (Py.split "|" 1 line) = Raise TypeError
      <-> count_char "|" line = 0%nat)
  /\ (VolumeData.of_fields (Py.split "|" 1 line) = Raise TypeError
      <-> count_char "|" line = 0%nat).
Proof.
  assert (H3 : length (Py.split "|" 3 line) = 4%nat <-> (3 <= count_char "|" line)%nat).
  { unfold Py.split. rewrite split_go_length. lia. }
  assert (H1 : length (Py.split "|" 1 line) = 2%nat <-> (1 <= count_char "|" line)%nat).
  { unfold Py.split. rewrite split_go_length. lia. }
  split_and!.
  - destruct (Py.split "|" 3 line) as [|a [|b [|c [|d [|e l]]]]];
      cbn [length ImageData.of_fields] in *; split; intros H; try done; lia.
  - destruct (Py.split "|" 3 line) as [|a [|b [|c [|d [|e l]]]]];
      cbn [length NetworkData.of_fields] in *; split; intros H; try done; lia.
  - destruct (Py.split "|" 1 line) as [|a [|b [|c l]]];
      cbn [length ContainerData.of_fields] in *; split; intros H; try done; lia.
  - destruct (Py.split "|" 1 line) as [|a [|b [|c l]]];
      cbn [length VolumeData.of_fields] in *; split; intros H; try done; lia.
Qed.

Lemma break_is_space (c : ascii) :
  Py.iscr c = true \/ Py.islinebreak c = true -> Py.isspace c = true.
Proof.
  unfold Py.iscr, Py.islinebreak, Py.isspace.
  rewrite !orb_true_iff, !andb_true_iff, !N.eqb_eq, !N.leb_le. lia.
Qed.

Lemma not_space_not_break (c : ascii) :
  Py.isspace c = false -> Py.iscr c = false /\ Py.islinebreak c = false.
Proof.
  intros Hc. pose proof (break_is_space c) as H.
  destruct (Py.iscr c), (Py.islinebreak c); try done;
    rewrite H in Hc by auto; done.
Qed.

Lemma lstrip_token (x rest : string) : token x -> Py.lstrip (x +:+ rest) = x +:+ rest.
Proof.
  intros [Hne Hx]. destruct x as [|c x]; [done|].
  inversion Hx as [|? ? Hc _]; subst. rewrite app_cons. simpl. by rewrite Hc.
Qed.

Lemma rstrip_cons (c : ascii) (s : string) :
  Py.rstrip (String c s)
  = match Py.rstrip s with
    | EmptyString => if Py.isspace c then EmptyString else String c EmptyString
    | t => String c t
    end.
Proof. reflexivity. Qed.

Lemma rstrip_trailing_space (s : string) (c : ascii) :
  Py.isspace c = true -> Py.rstrip (s +:+ String c EmptyString) = Py.rstrip s.
Proof.
  intros Hc. induction s as [|a s IH].
  - change (Py.rstrip (String c EmptyString) = EmptyString).
    rewrite rstrip_cons. simpl. by rewrite Hc.
  - rewrite app_cons, !rstrip_cons. by rewrite IH.
Qed.

Lemma rstrip_token (x : string) : token x -> Py.rstrip x = x.
Proof.
  intros [Hne Hx]. induction x as [|c x IH]; [done|].
  inversion Hx as [|? ? Hc Hx']; subst. rewrite rstrip_cons.
  destruct x as [|c' x].
  - simpl. by rewrite Hc.
  - rewrite IH; [done|done|done].
Qed.

Lemma rstrip_kept (s t : string) :
  Py.rstrip t = t -> t <> EmptyString -> Py.rstrip (s +:+ t) = s +:+ t.
Proof.
  intros Ht Hne. induction s as [|a s IH]; [done|].
  rewrite app_cons, rstrip_cons, IH.
  destruct (s +:+ t) eqn:Hst; [|done].
  destruct s; [by destruct t|done].
Qed.

Lemma string_app_assoc (a b c : string) : (a +:+ b) +:+ c = a +:+ (b +:+ c).
Proof.
  induction a as [|x a IH]; [done|]. rewrite !app_cons. by rewrite IH.
Qed.

Lemma join_cons2 (sep x y : string) (l : list string) :
  Py.join sep (x :: y :: l) = x +:+ sep +:+ Py.join sep (y :: l).
Proof. reflexivity. Qed.

Lemma listing_join (x : string) (ids : list string) :
  listing (x :: ids) = Py.join newline (x :: ids) +:+ newline.
Proof.
  revert x. induction ids as [|y ids IH]; intros x.
  - simpl. by rewrite app_empty_r.
  - rewrite join_cons2.
    change (listing (x :: y :: ids)) with (x +:+ newline +:+ listing (y :: ids)).
    rewrite (IH y). by rewrite !string_app_assoc.
Qed.

Lemma rstrip_join (x : string) (ids : list string) :
  Forall token (x :: ids) ->
  Py.rstrip (Py.join newline (x :: ids)) = Py.join newline (x :: ids)
  /\ Py.join newline (x :: ids) <> EmptyString.
Proof.
  revert x. induction ids as [|y ids IH]; intros x Hx.
  - inversion Hx as [|? ? Ht _]; subst. split; [by apply rstrip_token|apply Ht].
  - inversion Hx as [|? ? Ht Hrest]; subst. destruct (IH y Hrest) as [Hr Hne].
    rewrite join_cons2. split.
    + rewrite <- string_app_assoc. by apply rstrip_kept.
    + destruct Ht as [Hx0 _]. by destruct x.
Qed.

Lemma splitlines_go_token (x rest cur : string) (o : bool) :
  Forall (fun c => Py.isspace c = false) (list_ascii_of_string x) ->
  Py.splitlines_go cur o (x +:+ rest)
  = Py.splitlines_go (String.rev_app x cur) (o || negb (String.eqb x EmptyString)) rest.
Proof.
  revert cur o. induction x as [|c x IH]; intros cur o Hx.
  - simpl. by rewrite orb_false_r.
  - inversion Hx as [|? ? Hc Hx']; subst.
    destruct (not_space_not_break c Hc) as [Hcr Hbr].
    rewrite app_cons. cbn [Py.splitlines_go]. rewrite Hcr, Hbr.
    rewrite (IH (String c cur) true Hx'). simpl. by rewrite orb_true_r.
Qed.

Lemma splitlines_join (ids : list string) :
  Forall token ids -> Py.splitlines (Py.join newline ids) = ids.
Proof.
  unfold Py.splitlines. induction ids as [|x ids IH]; intros Hids; [done|].
  inversion Hids as [|? ? [Hne Hx] Hrest]; subst.
  destruct ids as [|y ids].
  - change (Py.join newline [x]) with x.
    rewrite <- (app_empty_r x) at 1. rewrite splitlines_go_token by done.
    destruct x; [done|]. simpl. f_equal.
    by rewrite rev_rev_app.
  - rewrite join_cons2.
    change (x +:+ newline +:+ Py.join newline (y :: ids))
      with (x +:+ String "010" (Py.join newline (y :: ids))).
    rewrite splitlines_go_token by done.
    cbn [Py.splitlines_go]. change (Py.iscr "010") with false.
    change (Py.islinebreak "010") with true. cbv iota.
    rewrite (IH Hrest). f_equal. by rewrite rev_rev_app.
Qed.

(** The byte-string methods of Python 2 and the text methods of Python 3
    agree on a text whose characters the two interpreters class alike. *)
Lemma chars_app (a b : string) :
  list_ascii_of_string (a +:+ b) = list_ascii_of_string a ++ list_ascii_of_string b.
Proof.
  induction a as [|c a IH]; [done|]. rewrite app_cons. simpl. by rewrite IH.
Qed.

Lemma lstrip_bytes_alike (s : string) :
  Forall classed_alike (list_ascii_of_string s) -> Py.lstrip_bytes s = Py.lstrip s.
Proof.
  induction s as [|c s IH]; intros Hs; [done|].
  inversion Hs as [|? ? [Hc _] Hs']; subst. simpl. rewrite Hc, IH by done. done.
Qed.

Lemma rstrip_bytes_alike (s : string) :
  Forall classed_alike (list_ascii_of_string s) -> Py.rstrip_bytes s = Py.rstrip s.
Proof.
  induction s as [|c s IH]; intros Hs; [done|].
  inversion Hs as [|? ? [Hc _] Hs']; subst. simpl. rewrite Hc, IH by done. done.
Qed.

Lemma splitlines_bytes_go_alike (s cur : string) (o : bool) :
  Forall classed_alike (list_ascii_of_string s) ->
  Py.splitlines_bytes_go cur o s = Py.splitlines_go cur o s.
Proof.
  remember (String.length s) as n eqn:Hn. revert s cur o Hn.
  induction (lt_wf n) as [n _ IH]. intros s cur o -> Hs.
  destruct s as [|c s]; [done|].
  inversion Hs as [|? ? [_ Hc] Hs']; subst.
  cbn [Py.splitlines_bytes_go Py.splitlines_go]. rewrite Hc.
  destruct (Py.iscr c).
  - destruct s as [|c' s]; [done|].
    inversion Hs' as [|? ? _ Hs'']; subst.
    destruct (Py.code c' =? 10)%N.
    + f_equal. apply (IH (String.length s)); [simpl; lia|done|done].
    + f_equal. apply (IH (String.length (String c' s))); [simpl; lia|done|done].
  - destruct (Py.islinebreak c).
    + f_equal. apply (IH (String.length s)); [simpl; lia|done|done].
    + apply (IH (String.length s)); [simpl; lia|done|done].
Qed.

Lemma not_space_alike (c : ascii) : Py.isspace c = false -> classed_alike c.
Proof.
  unfold classed_alike.
  destruct c as [[|] [|] [|] [|] [|] [|] [|] [|]]; vm_compute; intros H;
    (discriminate H || (split; reflexivity)).
Qed.

Lemma token_alike (x : string) :
  token x -> Forall classed_alike (list_ascii_of_string x).
Proof.
  intros [_ Hx]. eapply Forall_impl; [exact Hx|]. apply not_space_alike.
Qed.

Lemma join_alike (ids : list string) :
  Forall token ids ->
  Forall classed_alike (list_ascii_of_string (Py.join newline ids)).
Proof.
  induction ids as [|x ids IH]; intros Hids; [constructor|].
  inversion Hids as [|? ? Hx Hrest]; subst. destruct ids as [|y ids].
  - by apply token_alike.
  - rewrite join_cons2, !chars_app. rewrite !Forall_app. split_and!.
    + by apply token_alike.
    + by repeat constructor.
    + by apply IH.
Qed.

Lemma listing_alike (ids : list string) :
  Forall token ids -> Forall classed_alike (list_ascii_of_string (listing ids)).
Proof.
  induction ids as [|x ids IH]; intros Hids; [constructor|].
  inversion Hids as [|? ? Hx Hrest]; subst.
  cbn [listing]. rewrite !chars_app, !Forall_app. split_and!.
  - by apply token_alike.
  - by repeat constructor.
  - by apply IH.
Qed.

(** X8: the quiet listings decode to the identifiers they print: one identifier
    per line, each followed by a newline, comes back as the list of the
    identifiers, in the order printed, under either interpreter. *)
Theorem listing_decodes (PY3 : bool) (ids : list string) (err : string) (rc : Z)
        (Hids : Forall token ids) :
  lines PY3 (mkPResponse (listing ids) err rc) = ids.
Proof.
  assert (H3 : Py.splitlines (Py.strip (listing ids)) = ids).
  { destruct ids as [|x ids]; [done|].
    unfold Py.strip.
    assert (Hl : Py.lstrip (listing (x :: ids)) = listing (x :: ids)).
    { cbn [listing]. apply lstrip_token. by inversion Hids. }
    rewrite Hl, listing_join.
    rewrite (rstrip_trailing_space _ "010" eq_refl).
    rewrite (proj1 (rstrip_join x ids Hids)).
    by apply splitlines_join. }
  unfold lines. cbn [stdout]. destruct PY3; [exact H3|].
  rewrite <- H3 at 2. unfold Py.strip_bytes, Py.strip, Py.splitlines_bytes, Py.splitlines.
  rewrite lstrip_bytes_alike by by apply listing_alike.
  destruct ids as [|x ids]; [done|].
  assert (Hl : Py.lstrip (listing (x :: ids)) = listing (x :: ids)).
  { cbn [listing]. apply lstrip_token. by inversion Hids. }
  rewrite Hl. rewrite rstrip_bytes_alike by by apply listing_alike.
  rewrite listing_join.
  rewrite (rstrip_trailing_space _ "010" eq_refl).
  rewrite (proj1 (rstrip_join x ids Hids)).
  apply splitlines_bytes_go_alike. by apply join_alike.
Qed.

Lemma listing_decodes_witness :
  Forall token ["k1"; "k2"]%string
  /\ lines true (mkPResponse (listing ["k1"; "k2"]%string) "" 0) = ["k1"; "k2"]%string
  /\ lines false (mkPResponse (listing ["k1"; "k2"]%string) "" 0) = ["k1"; "k2"]%string.
Proof.
  assert (H : Forall token ["k1"; "k2"]%string).
  { repeat constructor; discriminate. }
  split_and!; [exact H| |].
  - exact (listing_decodes true ["k1"; "k2"]%string "" 0 H).
  - exact (listing_decodes false ["k1"; "k2"]%string "" 0 H).
Defined.

(** Where the two interpreters part: a file separator (code 28) alone is a
    blank text under Python 3 and one line of one byte under Python 2, and
    a vertical tab ends a line of a text and no line of a byte string. *)
Lemma lines_follow_the_interpreter :
  lines true (mkPResponse (String "028" "") "" 0) = []
  /\ lines false (mkPResponse (String "028" "") "" 0) = [String "028" ""]
  /\ lines true (mkPResponse (String "a" (String "011" "b")) "" 0) = ["a"; "b"]%string
  /\ lines false (mkPResponse (String "a" (String "011" "b")) "" 0)
     = [String "a" (String "011" "b")].
Proof. split_and!; reflexivity. Qed.

(** A blank output has no lines. *)
Lemma blank_output_has_no_lines (PY3 : bool) (out err : string) (rc : Z) :
  blank PY3 out -> lines PY3 (mkPResponse out err rc) = [].
Proof.
  intros H. unfold lines. cbn [stdout]. destruct PY3.
  - assert (Hs : Py.lstrip out = EmptyString).
    { induction out as [|c out IH]; [done|]. inversion H as [|? ? Hc H']; subst.
      simpl in *. rewrite Hc. by apply IH. }
    unfold Py.strip. by rewrite Hs.
  - assert (Hs : Py.lstrip_bytes out = EmptyString).
    { induction out as [|c out IH]; [done|]. inversion H as [|? ? Hc H']; subst.
      simpl in *. rewrite Hc. by apply IH. }
    unfold Py.strip_bytes. by rewrite Hs.
Qed.

(** ** The image dictionary and the lineages *)

Lemma foldl_insert_lookup (records : list ImageData.t) (m : gmap string ImageData.t)
      (k : string) :
  foldl (fun m i => <[ImageData.id i := i]> m) m records !! k
  = match last (filter (fun i => ImageData.id i = k) records) with
    | Some i => Some i
    | None => m !! k
    end.
Proof.
  revert m. induction records as [|r records IH]; intros m; [done|].
  cbn [foldl]. rewrite IH, filter_cons. case_decide as Hr.
  - rewrite last_cons. destruct (last (filter _ records)); [done|].
    subst k. by rewrite lookup_insert_eq.
  - destruct (last (filter _ records)); [done|]. by rewrite lookup_insert_ne.
Qed.

(** X11: the dictionary built from the inspected records: a key leads to the last
    record of that identifier, the keys are the identifiers of the records,
    and a record made from a prefixed identifier is found under the bare
    one. *)
Theorem image_dict_last_wins (records : list ImageData.t) (k : string) :
  image_dict records !! k = last (filter (fun i => ImageData.id i = k) records)
  /\ (k ∈ dom (image_dict records) <-> exists i, i ∈ records /\ ImageData.id i = k)
  /\ (forall raw parent created repo_tags,
         ImageData.init raw parent created repo_tags ∈ records ->
         is_Some (image_dict records !! ImageData.hashfix raw)).
Proof.
  assert (Hl : image_dict records !! k
               = last (filter (fun i => ImageData.id i = k) records)).
  { unfold image_dict. rewrite foldl_insert_lookup, lookup_empty.
    by destruct (last _). }
  assert (Hdom : forall k', k' ∈ dom (image_dict records)
                            <-> exists i, i ∈ records /\ ImageData.id i = k').
  { intros k'. rewrite elem_of_dom. unfold image_dict.
    rewrite foldl_insert_lookup, lookup_empty. split.
    - intros [i Hi].
      destruct (last (filter (fun i => ImageData.id i = k') records)) as [j|] eqn:Hj;
        [|done].
      apply last_Some in Hj as [l' Hj].
      assert (Hin : j ∈ filter (fun i => ImageData.id i = k') records).
      { rewrite Hj. apply elem_of_app. right. apply list_elem_of_here. }
      apply list_elem_of_filter in Hin as [Hid Hin]. by exists j.
    - intros (i & Hi & Hid).
      assert (Hin : i ∈ filter (fun i => ImageData.id i = k') records).
      { by apply list_elem_of_filter. }
      destruct (last (filter (fun i => ImageData.id i = k') records)) as [j|] eqn:Hj;
        [by eexists|].
      apply last_None in Hj. rewrite Hj in Hin. by apply elem_of_nil in Hin. }
  split_and!; [exact Hl|apply Hdom|].
  intros raw parent created repo_tags Hin. apply elem_of_dom, Hdom.
  by eexists.
Qed.

Section LineageMore.

Variable image_data : gmap string ImageData.t.

Lemma walk_Ok_rooted (fuel : nat) (k : string) (i : ImageData.t)
      (line line' : list string) :
  image_data !! k = Some i -> walk fuel image_data i line = Ok line' ->
  rooted image_data k.
Proof.
  revert k i line. induction fuel as [|fuel IH]; intros k i line Hk; simpl.
  - destruct (truthy (ImageData.parent i)) eqn:Ht; [done|].
    intros _. by eapply rooted_here.
  - destruct (truthy (ImageData.parent i)) eqn:Ht; [|intros _; by eapply rooted_here].
    destruct (image_data !! ImageData.parent i) as [i'|] eqn:Hp; [|done].
    intros Hw. eapply rooted_step; [done|done|]. by eapply IH.
Qed.

Lemma walk_in_dom (fuel : nat) (i : ImageData.t) (line line' : list string) :
  keyed image_data ->
  walk fuel image_data i line = Ok line' ->
  (forall x, x ∈ line -> x ∈ dom image_data) ->
  forall x, x ∈ line' -> x ∈ dom image_data.
Proof.
  intros Hkeyed. revert i line. induction fuel as [|fuel IH]; intros i line; simpl.
  - destruct (truthy (ImageData.parent i)); [done|]. by intros [= <-].
  - destruct (truthy (ImageData.parent i)); [|by intros [= <-]].
    destruct (image_data !! ImageData.parent i) as [i'|] eqn:Hp; [|done].
    intros Hw Hline. apply (IH _ _ Hw).
    intros x Hx. apply elem_of_app in Hx as [Hx|Hx]; [by apply Hline|].
    apply list_elem_of_singleton in Hx as ->.
    rewrite (Hkeyed _ _ Hp). apply elem_of_dom. by eexists.
Qed.

Lemma walk_keeps_head (fuel : nat) (i : ImageData.t) (line line' : list string) :
  walk fuel image_data i line = Ok line' -> line <> [] -> head line' = head line.
Proof.
  revert i line. induction fuel as [|fuel IH]; intros i line; simpl.
  - destruct (truthy (ImageData.parent i)); [done|]. by intros [= <-].
  - destruct (truthy (ImageData.parent i)); [|by intros [= <-]].
    destruct (image_data !! ImageData.parent i) as [i'|]; [|done].
    intros Hw Hne. rewrite (IH _ _ Hw); [|by destruct line].
    by destruct line.
Qed.

(** X12: the lineage of an image is found exactly when the chain of its parents
    is all in the dictionary and ends with an image without parent; it then
    starts with the image itself and holds keys of the dictionary only. *)
Theorem lineage_found_iff_rooted (k : string) (Hkeyed : keyed image_data) :
  ((exists line, lineage image_data k = Ok line) <-> rooted image_data k)
  /\ (forall line, lineage image_data k = Ok line ->
                   head line = Some k
                   /\ forall x, x ∈ line -> x ∈ dom image_data)
  /\ (image_data !! k = None -> lineage image_data k = Raise (KeyError k)).
Proof.
  split_and!.
  - split; [|apply rooted_lineage].
    intros [line Hl]. unfold lineage in Hl.
    destruct (image_data !! k) as [i|] eqn:Hk; [|done].
    by eapply walk_Ok_rooted.
  - intros line Hl. unfold lineage in Hl.
    destruct (image_data !! k) as [i|] eqn:Hk; [|done].
    rewrite (Hkeyed _ _ Hk) in Hl. split.
    + by rewrite (walk_keeps_head _ _ _ _ Hl).
    + apply (walk_in_dom _ _ _ _ Hkeyed Hl).
      intros x Hx. apply list_elem_of_singleton in Hx as ->.
      apply elem_of_dom. by eexists.
  - intros Hk. unfold lineage. by rewrite Hk.
Qed.

Lemma tc_parent_link_child (x z : string) :
  tc (parent_link image_data) x z -> is_Some (image_data !! x).
Proof. intros H. destruct H as [x z (i & Hi & _)|x y z (i & Hi & _) _]; by eexists. Qed.

Lemma ends_in_along (x z : string) :
  tc (parent_link image_data) x z ->
  forall i n, image_data !! x = Some i -> is_Some (image_data !! z) ->
              ends_in image_data n i ->
              exists iz n', image_data !! z = Some iz /\ (n' < n)%nat
                            /\ ends_in image_data n' iz.
Proof.
  induction 1 as [x z (j & Hj & Hp & Ht)|x y z (j & Hj & Hp & Ht) Htc IH];
    intros i n Hi Hz He; rewrite Hj in Hi; injection Hi as <-; subst.
  - inversion He as [? Hf|? _ Hnone|n0 ? i' _ Hsome He']; subst.
    + congruence.
    + destruct Hz as [iz Hz]. congruence.
    + exists i', n0. split_and!; [done|lia|done].
  - inversion He as [? Hf|? _ Hnone|n0 ? i' _ Hsome He']; subst.
    + congruence.
    + destruct (tc_parent_link_child _ _ Htc) as [iy Hy]. congruence.
    + destruct (IH i' n0 Hsome Hz He') as (iz & n' & Hiz & Hlt & Hez).
      exists iz, n'. split_and!; [done|lia|done].
Qed.

(** X13: parent links that lead from an image back to itself make the [while]
    loop run for ever: no amount of turns ends the walk. *)
Theorem lineage_diverges_on_cycle (k : string) (i : ImageData.t)
        (Hk : image_data !! k = Some i)
        (Hcycle : tc (parent_link image_data) k k) :
  lineage image_data k = Diverge
  /\ forall fuel line, walk fuel image_data i line = Diverge.
Proof.
  assert (Hnever : forall n, ~ ends_in image_data n i).
  { intros n He.
    destruct (ends_in_along k k Hcycle i n Hk (mk_is_Some _ _ Hk) He)
      as (iz & n' & Hiz & Hlt & Hez).
    rewrite Hk in Hiz. injection Hiz as <-.
    pose proof (ends_in_unique image_data _ _ _ He Hez). lia. }
  assert (Hw : forall fuel line, walk fuel image_data i line = Diverge).
  { intros fuel line.
    destruct (walk fuel image_data i line) as [l|e|] eqn:Hwalk; [| |done].
    - assert (Hnd : walk fuel image_data i line <> Diverge) by by rewrite Hwalk.
      apply walk_ends in Hnd as (n & _ & He). by destruct (Hnever n).
    - assert (Hnd : walk fuel image_data i line <> Diverge) by by rewrite Hwalk.
      apply walk_ends in Hnd as (n & _ & He). by destruct (Hnever n). }
  split; [|exact Hw]. unfold lineage. rewrite Hk. apply Hw.
Qed.

End LineageMore.

Lemma lineage_found_iff_rooted_witness :
  keyed (image_dict [Example.image_a; Example.image_b; Example.image_c])
  /\ lineage (image_dict [Example.image_a; Example.image_b; Example.image_c]) "d"
     = Raise (KeyError "d").
Proof.
  pose proof (image_dict_keyed [Example.image_a; Example.image_b; Example.image_c]) as Hk.
  split; [exact Hk|].
  apply (proj2 (proj2 (lineage_found_iff_rooted _ "d" Hk))).
  unfold image_dict. rewrite foldl_insert_lookup. reflexivity.
Defined.

Lemma lineage_diverges_on_cycle_witness :
  tc (parent_link self_parent) "a" "a" /\ lineage self_parent "a" = Diverge.
Proof.
  assert (Hk : self_parent !! "a"%string
               = Some (ImageData.init "a" "a" "2018-01-01T00:00:00Z" "")).
  { unfold self_parent, image_dict. rewrite foldl_insert_lookup. reflexivity. }
  assert (Hc : tc (parent_link self_parent) "a" "a").
  { apply tc_once. eexists. split; [exact Hk|]. by split. }
  split; [exact Hc|].
  exact (proj1 (lineage_diverges_on_cycle self_parent "a" _ Hk Hc)).
Defined.

(** ** What the image selection never takes *)

Section Kept.

Context {W : Type}.
Variable utcnow : W -> Z.
Variable localoffset : W -> Z.
Variable parse : string -> res datetime.t.


End Kept.


(** ** What the procedures issue *)

Lemma commands_app (l1 l2 : list event) : commands (l1 ++ l2) = commands l1 ++ commands l2.
Proof. apply omap_app. Qed.

Lemma printed_app (l1 l2 : list event) : printed (l1 ++ l2) = printed l1 ++ printed l2.
Proof. apply omap_app. Qed.

Lemma removals_app_reads (tr evs : list event) :
  Forall (fun e => removes e = false) evs -> removals (tr ++ evs) = removals tr.
Proof.
  intros H. unfold removals. rewrite commands_app, filter_app.
  assert (He : filter (fun cmd => is_removal cmd = true) (commands evs) = []).
  { induction H as [|e evs He _ IH]; [done|].
    destruct e as [cmd| | | |]; try exact IH.
    change (commands (Exec cmd :: evs)) with (cmd :: commands evs).
    rewrite filter_cons. simpl in He. by rewrite decide_False by congruence. }
  by rewrite He, app_nil_r.
Qed.

Lemma is_removal_command (p : procedure) (S : gset string) :
  is_removal (removal_command p S) = true.
Proof.
  unfold removal_command, is_removal. generalize (Py.join " " (elements S)). intros j.
  destruct p.
  - by rewrite startswith_app.
  - change ("docker rmi -f " +:+ j) with ("docker rmi " +:+ ("-f " +:+ j)).
    rewrite (startswith_app "docker rmi "). by rewrite orb_true_r.
  - rewrite (startswith_app "docker network rm "). by rewrite !orb_true_r.
  - change ("docker volume rm -f " +:+ j) with ("docker volume rm " +:+ ("-f " +:+ j)).
    rewrite (startswith_app "docker volume rm "). by rewrite !orb_true_r.
Qed.

Section Issued.

Context {W : Type}.
Variable spawn : W -> string -> process.
Variable settle : W -> string -> fate -> W.
Variable utcnow : W -> Z.
Variable localoffset : W -> Z.
Variable parse : string -> res datetime.t.
Variable PY3 : bool.
Variable getenv_GRACE_PERIOD : option string.
Variable getenv_AGGRESSIVE : option string.

(** One call of [run_command] starts one process and prints nothing. *)
Lemma run_trace (cmd : string) (s : state W) :
  commands (trace (snd (run spawn settle PY3 cmd s))) = commands (trace s) ++ [cmd]
  /\ printed (trace (snd (run spawn settle PY3 cmd s))) = printed (trace s).
Proof.
  assert (H : exists evs, trace (snd (run spawn settle PY3 cmd s)) = trace s ++ Exec cmd :: evs
                          /\ commands evs = [] /\ printed evs = []).
  { unfold run, run_command. destruct PY3.
    - unfold run_command_py3. cbv zeta.
      destruct (outlives 30 (spawn (host s) cmd)).
      + exists [Kill SIGKILL]. simpl. by rewrite <- app_assoc.
      + destruct (lifetime (spawn (host s) cmd)); [|by exists []].
        unfold completed. exists [].
        by destruct (negb (p_returncode (spawn (host s) cmd) =? 0) && true).
    - unfold run_command_py2. cbv zeta. cbn [default from_option]. unfold id.
      destruct (outlives 30 (spawn (host s) cmd)); cbn [andb Nat.ltb Nat.leb].
      + unfold completed. cbn [negb Z.eqb andb].
        destruct (ends_on_sigterm (spawn (host s) cmd)); cbn [snd trace];
          eexists; (split; [by rewrite <- app_assoc|done]).
      + destruct (lifetime (spawn (host s) cmd)); [|by exists [SetAlarm 30]].
        unfold completed. exists [SetAlarm 30; SetAlarm 0].
        destruct (negb (p_returncode (spawn (host s) cmd) =? 0) && true); cbn [snd trace];
          (split; [by rewrite <- app_assoc|done]). }
  destruct H as (evs & -> & Hc & Hp).
  rewrite commands_app, printed_app.
  change (Exec cmd :: evs) with ([Exec cmd] ++ evs).
  rewrite commands_app, printed_app, Hc, Hp. by rewrite !app_nil_r.
Qed.

(** X16: each procedure removes in one batch: the removal commands it adds to the
    trace are none when its selection is empty, and otherwise the single
    command that names the elements of the selection, forced for images and
    volumes only. *)
Theorem prune_removes_in_one_command (p : procedure) (grace : datetime.timedelta)
        (aggressive : bool) (s s' : state W) (S : gset string)
        (Hsel : to_prune spawn settle utcnow localoffset parse PY3 p grace aggressive s
                = (Ok S, s')) :
  removals (trace (snd (prune spawn settle utcnow localoffset parse PY3 p grace aggressive s)))
  = removals (trace s) ++ (if decide (S = ∅) then [] else [removal_command p S]).
Proof.
  assert (Hread : removals (trace s') = removals (trace s)).
  { destruct (reads_only_to_prune spawn settle utcnow localoffset parse PY3
                p grace aggressive s) as (evs & Htr & Hev & _).
    rewrite Hsel in Htr. simpl in Htr. rewrite Htr. by apply removals_app_reads. }
  assert (Hprune :
    prune spawn settle utcnow localoffset parse PY3 p grace aggressive s
    = if decide (S = ∅) then (Ok [], s')
      else bind (run spawn settle PY3 (removal_command p S))
                (fun r => ret (lines PY3 r)) s').
  { destruct p; simpl in *;
      unfold prune_containers, prune_images, prune_networks, prune_volumes;
      unfold bind at 1; rewrite Hsel;
      unfold remove_containers, remove_images, remove_networks, remove_volumes;
      by case_decide. }
  rewrite Hprune. case_decide as HS.
  - simpl. by rewrite Hread, app_nil_r.
  - assert (Htr : trace (snd (bind (run spawn settle PY3 (removal_command p S))
                                   (fun r => ret (lines PY3 r)) s'))
                  = trace (snd (run spawn settle PY3 (removal_command p S) s'))).
    { unfold bind. by destruct (run spawn settle PY3 (removal_command p S) s') as [[]]. }
    rewrite Htr. unfold removals.
    rewrite (proj1 (run_trace (removal_command p S) s')), filter_app.
    fold (removals (trace s')). rewrite Hread. f_equal.
    rewrite filter_cons, decide_True by apply is_removal_command. done.
Qed.

(** X18: [parse_cli_args]: a grace period on the command line replaces the one of
    the environment, which replaces 720 hours; but a malformed grace period
    in the environment is raised whatever the command line says, while a
    malformed one on the command line ends the run with the status 2; and
    any text that is not empty in the variable [AGGRESSIVE] turns the
    aggressive mode on. *)
Theorem parse_cli_args_precedence (opts : options) :
  (forall e, Duration (GRACE_PERIOD getenv_GRACE_PERIOD) = Raise e ->
             parse_cli_args getenv_GRACE_PERIOD getenv_AGGRESSIVE opts = Raise e)
  /\ (forall d0 s d,
         Duration (GRACE_PERIOD getenv_GRACE_PERIOD) = Ok d0 ->
         opt_grace_period opts = Some s -> Duration s = Ok d ->
         parse_cli_args getenv_GRACE_PERIOD getenv_AGGRESSIVE opts
         = Ok (d, opt_aggressive opts || AGGRESSIVE getenv_AGGRESSIVE))
  /\ (forall d0 s msg,
         Duration (GRACE_PERIOD getenv_GRACE_PERIOD) = Ok d0 ->
         opt_grace_period opts = Some s -> Duration s = Raise (ValueError msg) ->
         parse_cli_args getenv_GRACE_PERIOD getenv_AGGRESSIVE opts = Raise (SystemExit 2))
  /\ (forall d0,
         Duration (GRACE_PERIOD getenv_GRACE_PERIOD) = Ok d0 ->
         opt_grace_period opts = None ->
         parse_cli_args getenv_GRACE_PERIOD getenv_AGGRESSIVE opts
         = Ok (d0, opt_aggressive opts || AGGRESSIVE getenv_AGGRESSIVE))
  /\ (getenv_GRACE_PERIOD = None \/ getenv_GRACE_PERIOD = Some EmptyString ->
      Duration (GRACE_PERIOD getenv_GRACE_PERIOD) = Ok (720 * datetime.us_per_hour))
  /\ (AGGRESSIVE getenv_AGGRESSIVE = true
      <-> exists text, getenv_AGGRESSIVE = Some text /\ text <> EmptyString).
Proof.
  unfold parse_cli_args. split_and!.
  - intros e He. by rewrite He.
  - intros d0 s d H0 Hs Hd. rewrite H0, Hs, Hd. done.
  - intros d0 s msg H0 Hs Hd. rewrite H0, Hs, Hd. done.
  - intros d0 H0 Hs. rewrite H0, Hs. done.
  - intros [->| ->]; reflexivity.
  - unfold AGGRESSIVE, truthy_opt, truthy. destruct getenv_AGGRESSIVE as [text|].
    + rewrite negb_true_iff. split.
      * intros H. exists text. split; [done|]. intros ->. done.
      * intros (t & [= <-] & Hne). by apply String.eqb_neq.
    + split; [done|]. by intros (t & Ht & _).
Qed.

(** X19: [main] returns exactly when the four procedures return, one after the
    other in the state the one before has left, and then the last thing it
    prints is the count of the volumes removed. *)
Theorem main_returns_iff (opts : options) (grace : datetime.timedelta)
        (aggressive : bool) (s s' : state W)
        (Hargs : parse_cli_args getenv_GRACE_PERIOD getenv_AGGRESSIVE opts
                 = Ok (grace, aggressive)) :
  let stage := stage spawn settle utcnow localoffset parse PY3 in
  main spawn settle utcnow localoffset parse PY3
       getenv_GRACE_PERIOD getenv_AGGRESSIVE opts s = (Ok tt, s')
  <-> exists r1 s1 r2 s2 r3 s3 r4 s4,
        stage Containers grace aggressive s = (Ok r1, s1)
        /\ stage Images grace aggressive (emit [Print (pruned r1)] s1) = (Ok r2, s2)
        /\ stage Networks grace aggressive (emit [Print (pruned r2)] s2) = (Ok r3, s3)
        /\ stage Volumes grace aggressive (emit [Print (pruned r3)] s3) = (Ok r4, s4)
        /\ s' = emit [Print (pruned r4)] s4.
Proof.
  intros stage0. subst stage0.
  unfold main, stage. unfold bind at 1. unfold lift. rewrite Hargs.
  unfold prune, bind, print_flush. cbv beta iota zeta. cbn [fst snd announce].
  split.
  - destruct (prune_containers spawn settle utcnow localoffset parse PY3 grace _)
      as [[r1|e1|] s1] eqn:H1; [|done|done].
    destruct (prune_images spawn settle utcnow localoffset parse PY3 grace aggressive _)
      as [[r2|e2|] s2] eqn:H2; [|done|done].
    destruct (prune_networks spawn settle utcnow localoffset parse PY3 grace _)
      as [[r3|e3|] s3] eqn:H3; [|done|done].
    destruct (prune_volumes spawn settle utcnow localoffset parse PY3 grace aggressive _)
      as [[r4|e4|] s4] eqn:H4; [|done|done].
    intros [= <-]. exists r1, s1, r2, s2, r3, s3, r4, s4. by split_and!.
  - intros (r1 & s1 & r2 & s2 & r3 & s3 & r4 & s4 & H1 & H2 & H3 & H4 & ->).
    by rewrite H1, H2, H3, H4.
Qed.

End Issued.

Lemma prune_removes_in_one_command_witness :
  let s := Example.start Example.three_images in
  exists s',
    to_prune Example.spawn Example.settle Example.utcnow Example.localoffset Example.parse
             true Images Example.day true s = (Ok {[ "b"%string; "c"%string ]}, s')
    /\ removals (trace (snd (prune Example.spawn Example.settle Example.utcnow
                                   Example.localoffset Example.parse true Images
                                   Example.day true s)))
       = ["docker rmi -f c b"%string].
Proof.
  eexists. 
  assert (Hsel : to_prune Example.spawn Example.settle Example.utcnow Example.localoffset
                          Example.parse true Images Example.day true
                          (Example.start Example.three_images)
                 = (Ok {[ "b"%string; "c"%string ]},
                    snd (to_prune Example.spawn Example.settle Example.utcnow
                                  Example.localoffset Example.parse true Images
                                  Example.day true (Example.start Example.three_images)))).
  { vm_compute. reflexivity. }
  split; [exact Hsel|].
  rewrite (prune_removes_in_one_command Example.spawn Example.settle Example.utcnow
             Example.localoffset Example.parse true Images Example.day true _ _ _ Hsel).
  vm_compute. reflexivity.
Defined.

Lemma main_returns_iff_witness :
  let opts := mkOptions (Some "24h"%string) false in
  parse_cli_args None None opts = Ok (Example.day, false)
  /\ exists s',
       main Example.spawn Example.settle Example.utcnow Example.localoffset Example.parse
            true None None opts (Example.start Example.idle) = (Ok tt, s').
Proof.
  split; [reflexivity|]. eexists.
  apply (proj2 (main_returns_iff Example.spawn Example.settle Example.utcnow
                  Example.localoffset Example.parse true None None
                  (mkOptions (Some "24h"%string) false) Example.day false
                  (Example.start Example.idle) _ eq_refl)).
  do 8 eexists. split_and!; [vm_compute; reflexivity ..|reflexivity].
Defined.

(** ** The container selection and the idle host *)

Section Hosts.

Context {W : Type}.
Variable spawn : W -> string -> process.
Variable settle : W -> string -> fate -> W.
Variable utcnow : W -> Z.
Variable localoffset : W -> Z.
Variable parse : string -> res datetime.t.
Variable PY3 : bool.
Variable getenv_GRACE_PERIOD : option string.
Variable getenv_AGGRESSIVE : option string.

Lemma bind_run_Ok {A} (cmd : string) (k : PResponse -> M W A) (s s1 : state W)
      (r : PResponse) :
  run spawn settle PY3 cmd s = (Ok r, s1) ->
  bind (run spawn settle PY3 cmd) k s = k r s1.
Proof. intros H. unfold bind. by rewrite H. Qed.

(** X17: [prune_containers] inspects the containers that are listed and not
    running, and no other: when there is none it asks nothing more and
    selects nothing, and otherwise it selects exactly the inspected
    containers whose [FinishedAt] is older than the grace period. *)
Theorem containers_to_prune_exact (grace : datetime.timedelta)
        (s s1 s2 : state W) (r1 r2 : PResponse)
        (Hrunning : run spawn settle PY3 "docker container ls -q --no-trunc" s
                    = (Ok r1, s1))
        (Hall : run spawn settle PY3 "docker container ls -a -q --no-trunc" s1
                = (Ok r2, s2)) :
  let non_running : gset string := list_to_set (lines PY3 r2) ∖ list_to_set (lines PY3 r1) in
  (non_running = ∅ ->
   containers_to_prune spawn settle utcnow localoffset parse PY3 grace s = (Ok ∅, s2))
  /\ (non_running <> ∅ ->
      forall r3 s3 data,
        run spawn settle PY3
            ("docker container inspect --format '{{.ID}}|{{.State.FinishedAt}}' "
             +:+ Py.join " " (elements non_running)) s2 = (Ok r3, s3) ->
        res_map (fun i => ContainerData.of_fields (Py.split "|" 1 i)) (lines PY3 r3) = Ok data ->
        Forall (fun c => answers parse (utcnow (host s3)) (localoffset (host s3)) grace
                                 (ContainerData.finished_at c)) data ->
        exists S : gset string,
          containers_to_prune spawn settle utcnow localoffset parse PY3 grace s = (Ok S, s3)
          /\ forall x,
               x ∈ S <->
               exists c, c ∈ data /\ ContainerData.id c = x
                         /\ older_than_at parse (utcnow (host s3)) (localoffset (host s3))
                                          (ContainerData.finished_at c) grace = Ok true).
Proof.
  intros non_running. unfold containers_to_prune.
  rewrite (bind_run_Ok _ _ _ _ _ Hrunning). cbv zeta.
  rewrite (bind_run_Ok _ _ _ _ _ Hall).
  fold non_running. split.
  - intros Hnone. unfold bind at 1. rewrite decide_True by exact Hnone. reflexivity.
  - intros Hsome r3 s3 data Hinspect Hdata Htimes.
    unfold bind at 1. rewrite decide_False by exact Hsome.
    rewrite (bind_run_Ok _ _ _ _ _ Hinspect). unfold lift. rewrite Hdata.
    unfold bind.
    rewrite (filter_M_older_than utcnow localoffset parse ContainerData.finished_at
               grace data s3 Htimes).
    unfold ret. eexists. split; [reflexivity|].
    intros x. rewrite elem_of_list_to_set, list_elem_of_fmap.
    setoid_rewrite list_elem_of_filter. setoid_rewrite old_at_true. split.
    + intros (c & -> & Hold & Hc). by exists c.
    + intros (c & Hc & <- & Hold). by exists c.
Qed.

Hypothesis Hblank :
  forall w p cmd, cmd ∈ listing_commands p -> quick_and_blank PY3 (spawn w cmd).

Lemma run_blank (p : procedure) (cmd : string) (s : state W) :
  cmd ∈ listing_commands p ->
  exists r s1,
    run spawn settle PY3 cmd s = (Ok r, s1) /\ lines PY3 r = []
    /\ commands (trace s1) = commands (trace s) ++ [cmd]
    /\ printed (trace s1) = printed (trace s).
Proof.
  intros Hcmd. destruct (Hblank (host s) p cmd Hcmd) as (d & Hd & Hle & Hrc & Hout).
  destruct (run_trace spawn settle PY3 cmd s) as [Hc Hp].
  destruct (run spawn settle PY3 cmd s) as [r s1] eqn:Hrun.
  assert (Hr : r = Ok (mkPResponse (p_stdout (spawn (host s) cmd))
                                   (p_stderr (spawn (host s) cmd)) 0)).
  { assert (Hout' : outlives 30 (spawn (host s) cmd) = false).
    { unfold outlives. rewrite Hd. apply Nat.ltb_ge. lia. }
    change r with (fst (r, s1)). rewrite <- Hrun.
    unfold run, run_command. destruct PY3.
    - unfold run_command_py3. cbv zeta. rewrite Hout', Hd.
      unfold completed. by rewrite Hrc.
    - unfold run_command_py2. cbv zeta. cbn [default from_option]. unfold id.
      rewrite Hout', andb_false_r, Hd. unfold completed. by rewrite Hrc. }
  subst r. eexists _, s1. split_and!; [reflexivity| |exact Hc|exact Hp].
  by apply blank_output_has_no_lines.
Qed.

Lemma to_prune_blank (p : procedure) (grace : datetime.timedelta) (aggressive : bool)
      (s : state W) :
  exists s',
    to_prune spawn settle utcnow localoffset parse PY3 p grace aggressive s = (Ok ∅, s')
    /\ commands (trace s') = commands (trace s) ++ listing_commands p
    /\ printed (trace s') = printed (trace s).
Proof.
  destruct p; cbn [to_prune listing_commands].
  - destruct (run_blank Containers "docker container ls -q --no-trunc" s)
      as (r1 & s1 & H1 & L1 & C1 & P1); [apply list_elem_of_here|].
    destruct (run_blank Containers "docker container ls -a -q --no-trunc" s1)
      as (r2 & s2 & H2 & L2 & C2 & P2); [apply list_elem_of_further, list_elem_of_here|].
    exists s2. unfold containers_to_prune.
    rewrite (bind_run_Ok _ _ _ _ _ H1). cbv zeta. rewrite (bind_run_Ok _ _ _ _ _ H2).
    rewrite L1, L2. unfold bind at 1.
    rewrite decide_True by apply difference_diag_L.
    split_and!; [reflexivity| |congruence].
    rewrite C2, C1. by rewrite <- app_assoc.
  - destruct (run_blank Images "docker image ls -a -q --no-trunc" s)
      as (r1 & s1 & H1 & L1 & C1 & P1); [apply list_elem_of_here|].
    destruct (run_blank Images "docker ps -a -q --no-trunc" s1)
      as (r2 & s2 & H2 & L2 & C2 & P2); [apply list_elem_of_further, list_elem_of_here|].
    exists s2. unfold images_to_prune.
    rewrite (bind_run_Ok _ _ _ _ _ H1). cbv zeta. rewrite (bind_run_Ok _ _ _ _ _ H2).
    rewrite L1, L2. unfold bind at 1. rewrite decide_True by reflexivity.
    unfold ret at 1. unfold bind at 1. rewrite decide_True by reflexivity.
    unfold ret at 1.
    split_and!; [| |congruence].
    + destruct aggressive; reflexivity.
    + rewrite C2, C1. by rewrite <- app_assoc.
  - destruct (run_blank Networks "docker network ls -q --no-trunc" s)
      as (r1 & s1 & H1 & L1 & C1 & P1); [apply list_elem_of_here|].
    exists s1. unfold networks_to_prune.
    rewrite (bind_run_Ok _ _ _ _ _ H1). cbv zeta. rewrite L1.
    unfold bind at 1. rewrite decide_True by reflexivity.
    split_and!; [reflexivity|exact C1|exact P1].
  - destruct (run_blank Volumes "docker volume ls -q -f dangling=true" s)
      as (r1 & s1 & H1 & L1 & C1 & P1); [apply list_elem_of_here|].
    exists s1. unfold volumes_to_prune.
    rewrite (bind_run_Ok _ _ _ _ _ H1). cbv zeta. rewrite L1.
    unfold bind at 1. rewrite decide_True by reflexivity.
    split_and!; [|exact C1|exact P1].
    destruct aggressive; reflexivity.
Qed.

Lemma stage_blank (p : procedure) (grace : datetime.timedelta) (aggressive : bool)
      (s : state W) :
  exists s',
    prune spawn settle utcnow localoffset parse PY3 p grace aggressive
          (emit [Print (announce p)] s) = (Ok [], s')
    /\ commands (trace s') = commands (trace s) ++ listing_commands p
    /\ printed (trace s') = printed (trace s) ++ [announce p].
Proof.
  destruct (to_prune_blank p grace aggressive (emit [Print (announce p)] s))
    as (s' & Hsel & Hc & Hp).
  exists s'. split_and!.
  - destruct p; simpl in *;
      unfold prune_containers, prune_images, prune_networks, prune_volumes;
      unfold bind; rewrite Hsel;
      unfold remove_containers, remove_images, remove_networks, remove_volumes;
      by rewrite decide_True.
  - rewrite Hc. unfold emit. cbn [trace]. rewrite commands_app.
    change (commands [Print (announce p)]) with (@nil string). by rewrite app_nil_r.
  - rewrite Hp. unfold emit. cbn [trace]. by rewrite printed_app.
Qed.

(** X20: on a host where the six listings answer in time with a blank output
    (nothing but the white space [strip] removes under the interpreter in
    use), [main] returns, issues the six listings and no other command, and
    prints four times that 0 were pruned. *)
Theorem main_on_idle_host (opts : options) (grace : datetime.timedelta)
        (aggressive : bool) (s : state W)
        (Hargs : parse_cli_args getenv_GRACE_PERIOD getenv_AGGRESSIVE opts
                 = Ok (grace, aggressive)) :
  let out := main spawn settle utcnow localoffset parse PY3
                  getenv_GRACE_PERIOD getenv_AGGRESSIVE opts s in
  let zero := ("0 pruned." +:+ newline)%string in
  fst out = Ok tt
  /\ commands (trace (snd out))
     = commands (trace s) ++ listing_commands Containers ++ listing_commands Images
       ++ listing_commands Networks ++ listing_commands Volumes
  /\ printed (trace (snd out))
     = printed (trace s) ++ [announce Containers; zero; announce Images; zero;
                             announce Networks; zero; announce Volumes; zero].
Proof.
  intros out zero. subst out.
  unfold main. unfold bind at 1. unfold lift. rewrite Hargs.
  unfold bind, print_flush. cbv beta iota zeta. cbn [fst snd].
  destruct (stage_blank Containers grace aggressive s) as (s1 & H1 & C1 & P1).
  cbn [prune announce] in H1. rewrite H1.
  destruct (stage_blank Images grace aggressive (emit [Print (pruned [])] s1))
    as (s2 & H2 & C2 & P2).
  cbn [prune announce] in H2. rewrite H2.
  destruct (stage_blank Networks grace aggressive (emit [Print (pruned [])] s2))
    as (s3 & H3 & C3 & P3).
  cbn [prune announce] in H3. rewrite H3.
  destruct (stage_blank Volumes grace aggressive (emit [Print (pruned [])] s3))
    as (s4 & H4 & C4 & P4).
  cbn [prune announce] in H4. rewrite H4.
  assert (Hce : forall t (x : state W), commands (trace (emit [Print t] x)) = commands (trace x)).
  { intros t x. unfold emit. cbn [trace]. rewrite commands_app.
    change (commands [Print t]) with (@nil string). by rewrite app_nil_r. }
  assert (Hpe : forall t (x : state W),
             printed (trace (emit [Print t] x)) = printed (trace x) ++ [t]).
  { intros t x. unfold emit. cbn [trace]. by rewrite printed_app. }
  split_and!.
  - reflexivity.
  - cbn [snd]. rewrite Hce, C4, Hce, C3, Hce, C2, Hce, C1.
    by rewrite <- !app_assoc.
  - cbn [snd]. rewrite Hpe, P4, Hpe, P3, Hpe, P2, Hpe, P1.
    rewrite <- !app_assoc. reflexivity.
Qed.

End Hosts.

Lemma containers_to_prune_exact_witness :
  let s := Example.start two_containers in
  exists S s3,
    containers_to_prune Example.spawn Example.settle Example.utcnow Example.localoffset
                        Example.parse true Example.day s = (Ok S, s3)
    /\ ("k2"%string ∈ S <->
        exists c, c ∈ [ContainerData.mk "k2" "2018-01-01T00:00:00Z"]
                  /\ ContainerData.id c = "k2"%string
                  /\ older_than_at Example.parse (Example.utcnow (host s3))
                                   (Example.localoffset (host s3))
                                   (ContainerData.finished_at c) Example.day = Ok true).
Proof.
  pose (s := Example.start two_containers).
  pose (run' := run Example.spawn Example.settle true).
  pose (o1 := run' "docker container ls -q --no-trunc"%string s).
  pose (o2 := run' "docker container ls -a -q --no-trunc"%string (snd o1)).
  pose (o3 := run' "docker container inspect --format '{{.ID}}|{{.State.FinishedAt}}' k2"%string
                   (snd o2)).
  assert (H1 : run' "docker container ls -q --no-trunc"%string s
               = (Ok (mkPResponse (listing ["k1"%string]) "" 0), snd o1))
    by (vm_compute; reflexivity).
  assert (H2 : run' "docker container ls -a -q --no-trunc"%string (snd o1)
               = (Ok (mkPResponse (listing ["k1"; "k2"]%string) "" 0), snd o2))
    by (vm_compute; reflexivity).
  destruct (containers_to_prune_exact Example.spawn Example.settle Example.utcnow
              Example.localoffset Example.parse true Example.day s _ _ _ _ H1 H2)
    as [_ Hsome].
  destruct (Hsome ltac:(vm_compute; discriminate)
                  (mkPResponse (listing ["k2|2018-01-01T00:00:00Z"%string]) "" 0)
                  (snd o3) [ContainerData.mk "k2" "2018-01-01T00:00:00Z"])
    as (S & Hsel & Hchar).
  - vm_compute. reflexivity.
  - vm_compute. reflexivity.
  - repeat constructor. exists true. reflexivity.
  - exists S, (snd o3). split; [exact Hsel|]. apply Hchar.
Defined.

Lemma main_on_idle_host_witness :
  let opts := mkOptions None false in
  let spawn := fun (_ : unit) cmd => Example.spawn Example.idle cmd in
  let settle := fun (w : unit) (_ : string) (_ : fate) => w in
  parse_cli_args None None opts = Ok (720 * datetime.us_per_hour, false)
  /\ forall PY3 : bool,
       (forall w p cmd, cmd ∈ listing_commands p -> quick_and_blank PY3 (spawn w cmd))
       /\ fst (main spawn settle (fun _ => Example.utcnow Example.idle) (fun _ => 0)
                    Example.parse PY3 None None opts (mkState tt [])) = Ok tt.
Proof.
  assert (Hb : forall PY3 (w : unit) p cmd, cmd ∈ listing_commands p ->
                 quick_and_blank PY3 (Example.spawn Example.idle cmd)).
  { intros PY3 w p cmd Hcmd.
    assert (Hq : forall out, blank PY3 out -> quick_and_blank PY3 (Example.answer out)).
    { intros out H. exists 1%nat. split_and!; [done|lia|done|done]. }
    destruct p; cbn [listing_commands] in Hcmd;
      repeat (apply elem_of_cons in Hcmd as [->|Hcmd]);
      try (by apply elem_of_nil in Hcmd);
      apply (Hq ""%string); constructor. }
  split; [reflexivity|]. intros PY3. split; [exact (Hb PY3)|].
  exact (proj1 (main_on_idle_host
                  (fun (_ : unit) cmd => Example.spawn Example.idle cmd)
                  (fun (w : unit) (_ : string) (_ : fate) => w)
                  (fun _ => Example.utcnow Example.idle) (fun _ => 0)
                  Example.parse PY3 None None (Hb PY3) (mkOptions None false)
                  (720 * datetime.us_per_hour) false (mkState tt []) eq_refl)).
Defined.

(** ** Bounds of the image selection *)

Section Bounds.

Context {W : Type}.
Variable utcnow : W -> Z.
Variable localoffset : W -> Z.
Variable parse : string -> res datetime.t.

Lemma filter_M_sub {A} (p : A -> M W bool) (l l' : list A) (s s' : state W) :
  filter_M p l s = (Ok l', s') -> forall x, x ∈ l' -> x ∈ l.
Proof.
  revert l' s s'. induction l as [|a l IH]; intros l' s s'.
  - intros [= <- <-] x Hx. done.
  - cbn [filter_M]. unfold bind at 1.
    destruct (p a s) as [[b| |] s1]; [|done|done].
    unfold bind. destruct (filter_M p l s1) as [[r| |] s2] eqn:Hf; [|done|done].
    unfold ret. intros [= <- <-] x Hx.
    destruct b.
    + apply elem_of_cons in Hx as [->|Hx]; [apply list_elem_of_here|].
      apply list_elem_of_further. by eapply IH.
    + apply list_elem_of_further. by eapply IH.
Qed.

(** X15: the images selected are images that were inspected, and the aggressive
    mode only adds to the selection: what is selected without it is selected
    with it. *)
Theorem image_selection_bounds (grace : datetime.timedelta)
        (used : gset string) (image_data : gmap string ImageData.t)
        (s s' : state W) (S : gset string)
        (Hkeyed : keyed image_data)
        (Hsel : select_images utcnow localoffset parse grace false used image_data s
                = (Ok S, s')) :
  S ⊆ dom image_data
  /\ exists S' : gset string,
       select_images utcnow localoffset parse grace true used image_data s = (Ok S', s')
       /\ S ⊆ S' /\ S' ⊆ dom image_data.
Proof.
  unfold select_images, bind in *. unfold lift at 1 in Hsel. unfold lift at 1.
  destruct (all_used image_data used) as [U| |]; [|done|done].
  destruct (filter_M _ (values image_data) s) as [[old| |] s1] eqn:Hf; [|done|done].
  unfold ret in *. injection Hsel as <- <-. cbn [negb].
  assert (Hold : (list_to_set (ImageData.id <$> old) : gset string) ⊆ dom image_data).
  { intros x Hx. apply elem_of_list_to_set, list_elem_of_fmap in Hx as (i & -> & Hi).
    apply (filter_M_sub _ _ _ _ _ Hf), elem_of_values in Hi as [k Hk].
    rewrite (Hkeyed _ _ Hk). apply elem_of_dom. by eexists. }
  split.
  - intros x Hx. apply elem_of_intersection in Hx as [Hx _].
    apply elem_of_difference in Hx as [Hx _]. by apply Hold.
  - eexists. split; [reflexivity|]. split.
    + intros x Hx. by apply elem_of_intersection in Hx as [Hx _].
    + intros x Hx. apply elem_of_difference in Hx as [Hx _]. by apply Hold.
Qed.

End Bounds.

Lemma image_selection_bounds_witness :
  let m := image_dict [Example.image_a; Example.image_b; Example.image_c] in
  let s := Example.start Example.idle in
  keyed m
  /\ select_images Example.utcnow Example.localoffset Example.parse Example.day false
                   {[ "a"%string ]} m s = (Ok {[ "b"%string ]}, s)
  /\ ({[ "b"%string ]} : gset string) ⊆ dom m.
Proof.
  pose proof (image_dict_keyed [Example.image_a; Example.image_b; Example.image_c]) as Hk.
  assert (Hsel : select_images Example.utcnow Example.localoffset Example.parse
                   Example.day false {[ "a"%string ]}
                   (image_dict [Example.image_a; Example.image_b; Example.image_c])
                   (Example.start Example.idle)
                 = (Ok {[ "b"%string ]}, Example.start Example.idle)).
  { vm_compute. reflexivity. }
  split_and!; [exact Hk|exact Hsel|].
  exact (proj1 (image_selection_bounds Example.utcnow Example.localoffset Example.parse
                  Example.day {[ "a"%string ]} _ _ _ _ Hk Hsel)).
Defined.

(** ** The network and the volume procedure, from the listing to the removal *)

Section Inventories.

Context {W : Type}.
Variable spawn : W -> string -> process.
Variable settle : W -> string -> fate -> W.
Variable utcnow : W -> Z.
Variable localoffset : W -> Z.
Variable parse : string -> res datetime.t.
Variable PY3 : bool.

(** C5: whatever [docker network ls] and [docker network inspect] answer,
    [prune_networks] selects exactly the identifiers of the inspected
    networks that are old, minus those of a network with an attached
    container, minus those of a network named [bridge], [host] or [none]:
    such a network is never selected, whatever its age and its containers.
    The selection is the set handed to [docker network rm], in one command,
    and when no network is listed nothing is inspected and nothing
    selected. *)
Theorem prune_networks_selects_exactly (grace : datetime.timedelta)
        (s s1 : state W) (r1 : PResponse)
        (Hls : run spawn settle PY3 "docker network ls -q --no-trunc" s = (Ok r1, s1)) :
  let all_networks : gset string := list_to_set (lines PY3 r1) in
  (all_networks = ∅ ->
   networks_to_prune spawn settle utcnow localoffset parse PY3 grace s = (Ok ∅, s1)
   /\ prune_networks spawn settle utcnow localoffset parse PY3 grace s = (Ok [], s1))
  /\ (all_networks <> ∅ ->
      forall r2 s2 network_data,
        run spawn settle PY3
            ("docker network inspect --format '{{.ID}}|{{.Created}}|{{.Containers}}|{{.Name}}' "
             +:+ Py.join " " (elements all_networks)) s1 = (Ok r2, s2) ->
        res_map (fun n => NetworkData.of_fields (Py.split "|" 3 n)) (lines PY3 r2)
        = Ok network_data ->
        Forall (fun n => answers parse (utcnow (host s2)) (localoffset (host s2)) grace
                                 (NetworkData.created n)) network_data ->
        exists S : gset string,
          networks_to_prune spawn settle utcnow localoffset parse PY3 grace s = (Ok S, s2)
          /\ (forall x,
                 x ∈ S <->
                 (exists n, n ∈ network_data /\ NetworkData.id n = x
                            /\ older_than_at parse (utcnow (host s2)) (localoffset (host s2))
                                             (NetworkData.created n) grace = Ok true)
                 /\ ~ (exists n, n ∈ network_data /\ NetworkData.id n = x
                                 /\ truthy_opt (NetworkData.containers n) = true)
                 /\ ~ (exists n, n ∈ network_data /\ NetworkData.id n = x
                                 /\ NetworkData.name n ∈ reserved_names))
          /\ (forall n, n ∈ network_data ->
                        NetworkData.name n = "bridge"%string
                        \/ NetworkData.name n = "host"%string
                        \/ NetworkData.name n = "none"%string ->
                        NetworkData.id n ∉ S)
          /\ prune_networks spawn settle utcnow localoffset parse PY3 grace s
             = remove_networks spawn settle PY3 S s2
          /\ (S = ∅ ->
              prune_networks spawn settle utcnow localoffset parse PY3 grace s = (Ok [], s2))
          /\ (S <> ∅ ->
              exists evs,
                trace (snd (prune_networks spawn settle utcnow localoffset parse PY3 grace s))
                = trace s2 ++ Exec ("docker network rm " +:+ Py.join " " (elements S)) :: evs)).
Proof.
  intros all_networks.
  assert (Hprune : forall S s',
             networks_to_prune spawn settle utcnow localoffset parse PY3 grace s = (Ok S, s') ->
             prune_networks spawn settle utcnow localoffset parse PY3 grace s
             = remove_networks spawn settle PY3 S s').
  { intros S s' HS. unfold prune_networks, bind. by rewrite HS. }
  assert (Hto : networks_to_prune spawn settle utcnow localoffset parse PY3 grace s
                = bind (if decide (all_networks = ∅) then ret []
                        else bind (run spawn settle PY3
                                     ("docker network inspect --format '{{.ID}}|{{.Created}}|{{.Containers}}|{{.Name}}' "
                                      +:+ Py.join " " (elements all_networks)))
                                  (fun r => lift (res_map (fun n => NetworkData.of_fields
                                                                      (Py.split "|" 3 n))
                                                          (lines PY3 r))))
                       (fun network_data =>
                          select_networks utcnow localoffset parse grace network_data) s1).
  { unfold networks_to_prune. by rewrite (bind_run_Ok _ _ _ _ _ _ _ _ Hls). }
  split.
  - intros Hnone.
    assert (Hsel : networks_to_prune spawn settle utcnow localoffset parse PY3 grace s
                   = (Ok ∅, s1)).
    { rewrite Hto. unfold bind at 1. rewrite decide_True by exact Hnone. reflexivity. }
    split; [exact Hsel|].
    rewrite (Hprune _ _ Hsel). unfold remove_networks. by rewrite decide_True.
  - intros Hsome r2 s2 network_data Hinspect Hdata Htimes.
    destruct (select_networks_exact utcnow localoffset parse grace network_data s2 Htimes)
      as (S & HS & Hchar & Hres).
    assert (Hsel : networks_to_prune spawn settle utcnow localoffset parse PY3 grace s
                   = (Ok S, s2)).
    { rewrite Hto. unfold bind at 1. rewrite decide_False by exact Hsome.
      rewrite (bind_run_Ok _ _ _ _ _ _ _ _ Hinspect). unfold lift. by rewrite Hdata. }
    exists S. split_and!; [exact Hsel|exact Hchar|exact Hres|by apply Hprune| |].
    + intros ->. rewrite (Hprune _ _ Hsel). unfold remove_networks. by rewrite decide_True.
    + intros Hne.
      exact (selection_is_removed spawn settle utcnow localoffset parse PY3 Networks grace
               false s s2 S Hsel Hne).
Qed.


(** C6: whatever [docker volume ls -f dangling=true] and
    [docker volume inspect] answer, [prune_volumes] selects exactly the
    names of the inspected volumes that are old and 64 characters long or
    more, and all names of old volumes in aggressive mode: an old volume
    named [my-data] is left out unless the mode is aggressive, and an old
    volume with a name of 64 characters is selected in both modes.  The
    selection is the set handed to [docker volume rm -f], in one command,
    and when no volume is listed nothing is inspected and nothing
    selected. *)
Theorem prune_volumes_selects_exactly (grace : datetime.timedelta) (aggressive : bool)
        (s s1 : state W) (r1 : PResponse)
        (Hls : run spawn settle PY3 "docker volume ls -q -f dangling=true" s = (Ok r1, s1)) :
  let dangling_volumes : gset string := list_to_set (lines PY3 r1) in
  (dangling_volumes = ∅ ->
   volumes_to_prune spawn settle utcnow localoffset parse PY3 grace aggressive s = (Ok ∅, s1)
   /\ prune_volumes spawn settle utcnow localoffset parse PY3 grace aggressive s = (Ok [], s1))
  /\ (dangling_volumes <> ∅ ->
      forall r2 s2 volume_data,
        run spawn settle PY3
            ("docker volume inspect --format '{{.Name}}|{{.CreatedAt}}' "
             +:+ Py.join " " (elements dangling_volumes)) s1 = (Ok r2, s2) ->
        res_map (fun i => VolumeData.of_fields (Py.split "|" 1 i)) (lines PY3 r2)
        = Ok volume_data ->
        Forall (fun v => answers parse (utcnow (host s2)) (localoffset (host s2)) grace
                                 (VolumeData.created v)) volume_data ->
        exists S : gset string,
          volumes_to_prune spawn settle utcnow localoffset parse PY3 grace aggressive s
          = (Ok S, s2)
          /\ (forall x,
                 x ∈ S <->
                 (exists v, v ∈ volume_data /\ VolumeData.name v = x
                            /\ older_than_at parse (utcnow (host s2)) (localoffset (host s2))
                                             (VolumeData.created v) grace = Ok true)
                 /\ (aggressive = true \/ (64 <= String.length x)%nat))
          /\ (forall v, v ∈ volume_data ->
                        older_than_at parse (utcnow (host s2)) (localoffset (host s2))
                                      (VolumeData.created v) grace = Ok true ->
                        (VolumeData.name v = "my-data"%string ->
                         (VolumeData.name v ∈ S <-> aggressive = true))
                        /\ (String.length (VolumeData.name v) = 64%nat ->
                            VolumeData.name v ∈ S))
          /\ prune_volumes spawn settle utcnow localoffset parse PY3 grace aggressive s
             = remove_volumes spawn settle PY3 S s2
          /\ (S = ∅ ->
              prune_volumes spawn settle utcnow localoffset parse PY3 grace aggressive s
              = (Ok [], s2))
          /\ (S <> ∅ ->
              exists evs,
                trace (snd (prune_volumes spawn settle utcnow localoffset parse PY3
                                          grace aggressive s))
                = trace s2 ++ Exec ("docker volume rm -f " +:+ Py.join " " (elements S))
                                :: evs)).
Proof.
  intros dangling_volumes.
  assert (Hprune : forall S s',
             volumes_to_prune spawn settle utcnow localoffset parse PY3 grace aggressive s
             = (Ok S, s') ->
             prune_volumes spawn settle utcnow localoffset parse PY3 grace aggressive s
             = remove_volumes spawn settle PY3 S s').
  { intros S s' HS. unfold prune_volumes, bind. by rewrite HS. }
  assert (Hto : volumes_to_prune spawn settle utcnow localoffset parse PY3 grace aggressive s
                = bind (if decide (dangling_volumes = ∅) then ret []
                        else bind (run spawn settle PY3
                                     ("docker volume inspect --format "
                                      +:+ "'{{.Name}}|{{.CreatedAt}}' "
                                      +:+ Py.join " " (elements dangling_volumes)))
                                  (fun r => lift (res_map (fun i => VolumeData.of_fields
                                                                      (Py.split "|" 1 i))
                                                          (lines PY3 r))))
                       (fun volume_data =>
                          select_volumes utcnow localoffset parse grace aggressive
                                         volume_data) s1).
  { unfold volumes_to_prune. by rewrite (bind_run_Ok _ _ _ _ _ _ _ _ Hls). }
  split.
  - intros Hnone.
    assert (Hsel : volumes_to_prune spawn settle utcnow localoffset parse PY3 grace
                                    aggressive s = (Ok ∅, s1)).
    { rewrite Hto. unfold bind at 1. rewrite decide_True by exact Hnone.
      by destruct aggressive. }
    split; [exact Hsel|].
    rewrite (Hprune _ _ Hsel). unfold remove_volumes. by rewrite decide_True.
  - intros Hsome r2 s2 volume_data Hinspect Hdata Htimes.
    destruct (select_volumes_exact utcnow localoffset parse grace aggressive volume_data
                                   s2 Htimes)
      as (S & HS & Hchar & Hex).
    assert (Hsel : volumes_to_prune spawn settle utcnow localoffset parse PY3 grace
                                    aggressive s = (Ok S, s2)).
    { rewrite Hto. unfold bind at 1. rewrite decide_False by exact Hsome.
      rewrite (bind_run_Ok _ _ _ _ _ _ _ _ Hinspect). unfold lift. by rewrite Hdata. }
    exists S. split_and!; [exact Hsel|exact Hchar|exact Hex|by apply Hprune| |].
    + intros ->. rewrite (Hprune _ _ Hsel). unfold remove_volumes. by rewrite decide_True.
    + intros Hne.
      exact (selection_is_removed spawn settle utcnow localoffset parse PY3 Volumes grace
               aggressive s s2 S Hsel Hne).
Qed.

End Inventories.

Lemma prune_networks_selects_exactly_witness :
  let s := Example.start three_networks in
  exists S s2,
    networks_to_prune Example.spawn Example.settle Example.utcnow Example.localoffset
                      Example.parse true Example.day s = (Ok S, s2)
    /\ ("n1"%string ∉ S) /\ ("n2"%string ∈ S) /\ ("n3"%string ∉ S)
    /\ exists evs,
         trace (snd (prune_networks Example.spawn Example.settle Example.utcnow
                                    Example.localoffset Example.parse true Example.day s))
         = trace s2 ++ Exec ("docker network rm " +:+ Py.join " " (elements S)) :: evs.
Proof.
  pose (s := Example.start three_networks).
  pose (run' := run Example.spawn Example.settle true).
  pose (o1 := run' "docker network ls -q --no-trunc"%string s).
  pose (o2 := run' ("docker network inspect --format '{{.ID}}|{{.Created}}|{{.Containers}}|{{.Name}}' "
                    +:+ Py.join " " (elements (list_to_set ["n1"; "n2"; "n3"] : gset string)))%string
                   (snd o1)).
  pose (data := [Example.net_bridge; Example.net_idle; Example.net_used]).
  assert (H1 : run' "docker network ls -q --no-trunc"%string s
               = (Ok (mkPResponse (listing ["n1"; "n2"; "n3"]%string) "" 0), snd o1))
    by (vm_compute; reflexivity).
  destruct (prune_networks_selects_exactly Example.spawn Example.settle Example.utcnow
              Example.localoffset Example.parse true Example.day s _ _ H1)
    as [_ Hsome].
  destruct (Hsome ltac:(vm_compute; discriminate)
                  (mkPResponse
                     (listing ["n1|2018-01-01 00:00:00.5 +0000 UTC|map[]|bridge";
                               "n2|2018-01-01 00:00:00.5 +0000 UTC|map[]|backend";
                               "n3|2018-01-01 00:00:00.5 +0000 UTC|map[k1:{web}]|frontend"]%string)
                     "" 0)
                  (snd o2) data)
    as (S & Hsel & Hchar & Hres & _ & _ & Hrm).
  - vm_compute. reflexivity.
  - vm_compute. reflexivity.
  - repeat constructor; exists true; reflexivity.
  - assert (H2 : "n2"%string ∈ S).
    { apply Hchar. split_and!.
      - exists Example.net_idle. split_and!; [|reflexivity|reflexivity].
        apply list_elem_of_further, list_elem_of_here.
      - intros (n & Hn & Hid & Ht). subst data.
        repeat (apply elem_of_cons in Hn as [->|Hn]);
          try discriminate Hid; try discriminate Ht.
        by apply elem_of_nil in Hn.
      - intros (n & Hn & Hid & Ht). subst data.
        unfold reserved_names in Ht.
        repeat (apply elem_of_cons in Hn as [->|Hn]); try discriminate Hid.
        + repeat (apply elem_of_cons in Ht as [Ht|Ht]); try discriminate Ht.
          by apply elem_of_nil in Ht.
        + by apply elem_of_nil in Hn. }
    exists S, (snd o2). split_and!.
    + exact Hsel.
    + apply (Hres Example.net_bridge); [apply list_elem_of_here | by left].
    + exact H2.
    + intros H3. apply Hchar in H3 as (_ & Hused & _). apply Hused.
      exists Example.net_used. split_and!; [|reflexivity|reflexivity].
      apply list_elem_of_further, list_elem_of_further, list_elem_of_here.
    + apply Hrm. intros HS. rewrite HS in H2. by apply elem_of_empty in H2.
Defined.

Lemma prune_volumes_selects_exactly_witness :
  let s := Example.start two_volumes in
  exists S s2,
    volumes_to_prune Example.spawn Example.settle Example.utcnow Example.localoffset
                     Example.parse true Example.day false s = (Ok S, s2)
    /\ ("my-data"%string ∉ S) /\ (Example.generated_name ∈ S)
    /\ exists evs,
         trace (snd (prune_volumes Example.spawn Example.settle Example.utcnow
                                   Example.localoffset Example.parse true Example.day false s))
         = trace s2 ++ Exec ("docker volume rm -f " +:+ Py.join " " (elements S)) :: evs.
Proof.
  pose (s := Example.start two_volumes).
  pose (run' := run Example.spawn Example.settle true).
  pose (r1 := mkPResponse (listing ["my-data"%string; Example.generated_name]) "" 0).
  pose (o1 := run' "docker volume ls -q -f dangling=true"%string s).
  pose (o2 := run' ("docker volume inspect --format '{{.Name}}|{{.CreatedAt}}' "
                    +:+ Py.join " " (elements (list_to_set (lines true r1) : gset string)))%string
                   (snd o1)).
  pose (data := [Example.vol_named; Example.vol_anonymous]).
  assert (H1 : run' "docker volume ls -q -f dangling=true"%string s = (Ok r1, snd o1))
    by (vm_compute; reflexivity).
  assert (Hne : (list_to_set (lines true r1) : gset string) <> ∅).
  { intros H. apply (elem_of_empty (C := gset string) "my-data"%string).
    rewrite <- H. apply elem_of_list_to_set.
    assert (Hl : lines true r1 = ["my-data"%string; Example.generated_name])
      by (vm_compute; reflexivity).
    rewrite Hl. apply list_elem_of_here. }
  destruct (prune_volumes_selects_exactly Example.spawn Example.settle Example.utcnow
              Example.localoffset Example.parse true Example.day false s _ _ H1)
    as [_ Hsome].
  destruct (Hsome Hne
                  (mkPResponse
                     (listing ["my-data|2018-01-01T00:00:00Z"%string;
                               (Example.generated_name +:+ "|2018-01-01T00:00:00Z")%string])
                     "" 0)
                  (snd o2) data)
    as (S & Hsel & Hchar & Hex & _ & _ & Hrm).
  - rewrite (surjective_pairing (run _ _ _ _ _)). f_equal; reflexivity.
  - vm_compute. reflexivity.
  - repeat constructor; exists true; reflexivity.
  - assert (H2 : Example.generated_name ∈ S).
    { apply (Hex Example.vol_anonymous);
        [apply list_elem_of_further, list_elem_of_here|reflexivity|reflexivity]. }
    exists S, (snd o2). split_and!.
    + exact Hsel.
    + intros H3.
      assert (Hag : false = true); [|discriminate Hag].
      apply (proj1 (Hex Example.vol_named (list_elem_of_here _ _) eq_refl) eq_refl).
      exact H3.
    + exact H2.
    + apply Hrm. intros HS. rewrite HS in H2. by apply elem_of_empty in H2.
Defined.
